(** * obsidian-webdav-uploader: path resolution and upload orchestration

    A shallow embedding of [src/main.ts] (the plugin class
    [WebDAVUploaderPlugin]) and the properties its specification states.

    Conventions of the embedding
    - A JavaScript string is a [string]: a sequence of code units below 256
      (the Latin-1 range), which is where [toLowerCase] keeps the length and
      where [btoa] and [encodeURI] never throw.
    - [path.posix] of Node is embedded from Node's [lib/path.js];
      [path.dirname] is the host platform's (win32 on Windows, posix
      elsewhere) and stays a parameter of the development.
    - The remote store is the external collaborator behind Obsidian's
      [requestUrl]: an arbitrary type of store states and an arbitrary
      transition function on it.
    - [async] methods are computations in a state-and-exception monad over
      the client state (store, request log, editor insertions, notices).
      What is written to the console and the calls on the drop event itself
      ([preventDefault], [stopPropagation]) are left out. *)

From Stdlib Require Import String Ascii List ZArith NArith Bool Lia.
Import ListNotations.

Local Open Scope list_scope.
Local Open Scope string_scope.

(* ================================================================== *)
(** ** JavaScript strings *)

Module JS.

Definition slash : ascii := "/"%char.
Definition backslash : ascii := "\"%char.

Definition is_slash (c : ascii) : bool := Ascii.eqb c slash.
Definition is_backslash (c : ascii) : bool := Ascii.eqb c backslash.
(** the character class [[\/\\]] *)
Definition is_sep (c : ascii) : bool := is_slash c || is_backslash c.

(** JavaScript truthiness of a string: non-empty. *)
Definition truthy (s : string) : bool :=
  match s with EmptyString => false | String _ _ => true end.

Fixpoint map (f : ascii -> ascii) (s : string) : string :=
  match s with
  | EmptyString => EmptyString
  | String c r => String (f c) (map f r)
  end.

(** [s.startsWith(p)] *)
Fixpoint startsWith (s p : string) {struct p} : bool :=
  match p with
  | EmptyString => true
  | String b p' =>
      match s with
      | EmptyString => false
      | String a s' => Ascii.eqb a b && startsWith s' p'
      end
  end.

(** [s.includes(p)] *)
Fixpoint includes (s p : string) : bool :=
  startsWith s p ||
  match s with
  | EmptyString => false
  | String _ s' => includes s' p
  end.

(** [s.slice(n)] for a non-negative [n] *)
Fixpoint slice (s : string) (n : nat) {struct n} : string :=
  match n with
  | O => s
  | S n' => match s with EmptyString => EmptyString | String _ r => slice r n' end
  end.

(** the last code unit of [s], if any *)
Fixpoint last (s : string) : option ascii :=
  match s with
  | EmptyString => None
  | String c EmptyString => Some c
  | String _ r => last r
  end.

(** [s.slice(0, -1)] *)
Fixpoint slice_0_m1 (s : string) : string :=
  match s with
  | EmptyString => EmptyString
  | String _ EmptyString => EmptyString
  | String c r => String c (slice_0_m1 r)
  end.

(** [s.endsWith('/')] *)
Definition endsWith_slash (s : string) : bool :=
  match last s with Some c => is_slash c | None => false end.

(** [s.replace(/\\/g, '/')]; [s.replace(/[\/\\]/g, '/')] is the same
    function, since it replaces a slash by itself. *)
Definition replace_backslashes (s : string) : string :=
  map (fun c => if is_backslash c then slash else c) s.

Definition replace_seps (s : string) : string :=
  map (fun c => if is_sep c then slash else c) s.

(** [s.replace(/\/$/, '')]: at most one trailing slash goes. *)
Definition strip_trailing_slash (s : string) : string :=
  if endsWith_slash s then slice_0_m1 s else s.

(** [s.replace(/[\\\/]+$/, '')]: the whole trailing run of separators goes. *)
Fixpoint strip_trailing_seps (s : string) : string :=
  match s with
  | EmptyString => EmptyString
  | String c r =>
      match strip_trailing_seps r with
      | EmptyString => if is_sep c then EmptyString else String c EmptyString
      | r' => String c r'
      end
  end.

(** [s.replace(/^[\/\\]/, '')]: at most one leading separator goes. *)
Definition strip_leading_sep (s : string) : string :=
  match s with
  | EmptyString => EmptyString
  | String c r => if is_sep c then r else s
  end.

(** [toLowerCase] on a code unit below 256: A-Z and the Latin-1 capitals
    U+00C0..U+00DE except the multiplication sign U+00D7 move by 32.
    Every such unit gives one unit.  Outside this range [toLowerCase] can
    change the length of a string (U+0130 gives two code units); strings
    with such units are outside the embedding. *)
Definition lower_char (c : ascii) : ascii :=
  let n := N_of_ascii c in
  if ((65 <=? n) && (n <=? 90) ||
      (192 <=? n) && (n <=? 222) && negb (n =? 215))%N
  then ascii_of_N (n + 32) else c.

Definition toLowerCase (s : string) : string := map lower_char s.

(** [s.split('/')]: never empty; [''.split('/')] is [['']]. *)
Fixpoint split_slash (s : string) : list string :=
  match s with
  | EmptyString => [EmptyString]
  | String c r =>
      if is_slash c then EmptyString :: split_slash r
      else match split_slash r with
           | seg :: segs => String c seg :: segs
           | [] => [String c EmptyString]
           end
  end.

(** [l.join('/')] *)
Definition join_slash (l : list string) : string := String.concat "/" l.

(* ---------------------------------------------------------------- *)
(** *** [encodeURI], [encodeURIComponent], [btoa] *)

Definition is_alnum (c : ascii) : bool :=
  let n := N_of_ascii c in
  ((48 <=? n) && (n <=? 57) || (65 <=? n) && (n <=? 90) ||
   (97 <=? n) && (n <=? 122))%N.

Definition mem_char (c : ascii) (set : string) : bool :=
  includes set (String c EmptyString).

(** the characters [encodeURIComponent] leaves alone *)
Definition uri_unreserved (c : ascii) : bool :=
  is_alnum c || mem_char c "-_.!~*'()".

(** the characters [encodeURI] leaves alone *)
Definition uri_unescaped (c : ascii) : bool :=
  uri_unreserved c || mem_char c ";/?:@&=+$,#".

Definition hex_digit (n : N) : ascii :=
  if (n <? 10)%N then ascii_of_N (48 + n) else ascii_of_N (55 + n).

Definition percent (n : N) : string :=
  String "%"%char (String (hex_digit (n / 16)) (String (hex_digit (n mod 16)) EmptyString)).

(** the UTF-8 bytes of a code unit below 256, percent-encoded: one or two
    bytes.  On such units the two encoders below never throw; the
    [URIError] of a lone surrogate needs a code unit from U+D800 on and
    is outside the embedding. *)
Definition percent_utf8 (c : ascii) : string :=
  let n := N_of_ascii c in
  if (n <? 128)%N then percent n
  else percent (192 + n / 64) ++ percent (128 + n mod 64).

Fixpoint encode (keep : ascii -> bool) (s : string) : string :=
  match s with
  | EmptyString => EmptyString
  | String c r =>
      (if keep c then String c EmptyString else percent_utf8 c) ++ encode keep r
  end.

Definition encodeURI : string -> string := encode uri_unescaped.
Definition encodeURIComponent : string -> string := encode uri_unreserved.

Definition b64_char (n : N) : ascii :=
  if (n <? 26)%N then ascii_of_N (65 + n)
  else if (n <? 52)%N then ascii_of_N (97 + (n - 26))
  else if (n <? 62)%N then ascii_of_N (48 + (n - 52))
  else if (n =? 62)%N then "+"%char else "/"%char.

(** [btoa] on code units below 256, where it never throws; on a string
    with a code unit above 255 it throws [InvalidCharacterError], and
    such strings are outside the embedding. *)
Fixpoint btoa (s : string) : string :=
  match s with
  | EmptyString => EmptyString
  | String a EmptyString =>
      let x := N_of_ascii a in
      String (b64_char (x / 4)) (String (b64_char ((x mod 4) * 16)) "==")
  | String a (String b EmptyString) =>
      let x := N_of_ascii a in
      let y := N_of_ascii b in
      String (b64_char (x / 4))
        (String (b64_char ((x mod 4) * 16 + y / 16))
           (String (b64_char ((y mod 16) * 4)) "="))
  | String a (String b (String c r)) =>
      let x := N_of_ascii a in
      let y := N_of_ascii b in
      let z := N_of_ascii c in
      String (b64_char (x / 4))
        (String (b64_char ((x mod 4) * 16 + y / 16))
           (String (b64_char ((y mod 16) * 4 + z / 64))
              (String (b64_char (z mod 64)) (btoa r))))
  end.

End JS.

(* ================================================================== *)
(** ** Node's [path.posix] *)

Module NodePath.

Definition is_dotdot (seg : string) : bool := String.eqb seg "..".

(** One step of the scan of [normalizeString]: [res] is the result so far
    as a stack of segments, last segment first.  An empty segment and [.]
    are dropped; [..] pops the last segment unless there is none or it is
    itself [..], where it is kept only if [allowAboveRoot]. *)
Definition normalizeStep (allowAboveRoot : bool) (res : list string) (seg : string)
  : list string :=
  if String.eqb seg "" || String.eqb seg "." then res
  else if is_dotdot seg then
    match res with
    | top :: res' =>
        if is_dotdot top then (if allowAboveRoot then seg :: res else res)
        else res'
    | [] => if allowAboveRoot then [seg] else []
    end
  else seg :: res.

Definition normalizeSegments (allowAboveRoot : bool) (segs : list string) : list string :=
  rev (fold_left (normalizeStep allowAboveRoot) segs []).

(** [normalizeString(path, allowAboveRoot, '/', isPosixPathSeparator)] *)
Definition normalizeString (path : string) (allowAboveRoot : bool) : string :=
  JS.join_slash (normalizeSegments allowAboveRoot (JS.split_slash path)).

(** [path.posix.normalize] *)
Definition normalize (path : string) : string :=
  if negb (JS.truthy path) then "."
  else
    let isAbsolute := JS.startsWith path "/" in
    let trailingSeparator := JS.endsWith_slash path in
    let path := normalizeString path (negb isAbsolute) in
    if negb (JS.truthy path) then
      if isAbsolute then "/" else if trailingSeparator then "./" else "."
    else
      let path := if trailingSeparator then path ++ "/" else path in
      if isAbsolute then "/" ++ path else path.

(** [path.posix.join(a, b)]: the non-empty arguments joined by a slash,
    then normalized; [.] when both are empty. *)
Definition join (a b : string) : string :=
  match JS.truthy a, JS.truthy b with
  | false, false => "."
  | true, false => normalize a
  | false, true => normalize b
  | true, true => normalize (a ++ "/" ++ b)
  end.

Fixpoint has_non_slash (s : string) : bool :=
  match s with
  | EmptyString => false
  | String c r => negb (JS.is_slash c) || has_non_slash r
  end.

(** The backward scan of [path.posix.dirname] over the code units at
    indices [i ..]: it skips the trailing slashes and the base name and
    stops at the first slash below them, which is the last slash that has
    a code unit other than a slash after it. *)
Fixpoint dirnameEnd (tail : string) (i : nat) : option nat :=
  match tail with
  | EmptyString => None
  | String c r =>
      match dirnameEnd r (S i) with
      | Some e => Some e
      | None => if JS.is_slash c && has_non_slash r then Some i else None
      end
  end.

(** [path.posix.dirname]; the scan starts at index 1. *)
Definition dirname (path : string) : string :=
  match path with
  | EmptyString => "."
  | String c tail =>
      let hasRoot := JS.is_slash c in
      match dirnameEnd tail 1 with
      | None => if hasRoot then "/" else "."
      | Some e =>
          if hasRoot && Nat.eqb e 1 then "//" else String.substring 0 e path
      end
  end.

End NodePath.

(* ================================================================== *)
(** ** Data model *)

(** An [ArrayBuffer]. *)
Definition bytes := list Byte.byte.

Record PathMapping := {
  localPath : string;
  remotePath : string
}.

Inductive PathMode := note | local.

Record WebDAVUploaderSettings := {
  webdavUrl : string;
  username : string;
  password : string;
  rootFolder : string;
  pathMappings : list PathMapping;
  localSyncFolder : string;
  remoteSyncFolder : string;
  pathMode : PathMode;
  preferExistingLink : bool
}.

Definition DEFAULT_SETTINGS : WebDAVUploaderSettings := {|
  webdavUrl := "";
  username := "";
  password := "";
  rootFolder := "/";
  pathMappings := [];
  localSyncFolder := "";
  remoteSyncFolder := "";
  pathMode := note;
  preferExistingLink := true
|}.

(** A thrown value, as far as the code looks at it: [error.status] and
    [error.message]. *)
Record JsError := {
  err_status : option Z;
  err_message : string
}.

(** The response of [requestUrl], as far as the code looks at it. *)
Record Response := { status : Z }.

Record RequestParams := {
  url : string;
  method : string;
  headers : list (string * string);
  body : option bytes
}.

(** A dropped [File]: its name, the [path] property Electron adds (absent
    for a file that has none) and what [arrayBuffer()] resolves or rejects
    with. *)
Record File := {
  file_name : string;
  file_path : option string;
  arrayBuffer : bytes + JsError
}.

Record TFolder := { folder_path : string }.
Record TFile := { parent : option TFolder }.
(** The part of a [MarkdownView] the code reads; its editor is in the
    client state. *)
Record MarkdownView := { view_file : option TFile }.

(** The texts of the [Notice]s the code shows. *)
Inductive Notice :=
| NotConfigured                 (* the endpoint, user or password is missing *)
| AlreadyInCloud (name : string) (* the file is already on the remote store *)
| OutsideSyncFolder             (* not in the sync folder, local link inserted *)
| Uploading (name : string)
| UploadSucceeded (name : string)
| UploadFailed (message : string).

(** The outcome of handling one dropped file. *)
Inductive Decision := Upload | LinkOnly | LocalLink.

(** The three local variables [uploadFile] sets while it resolves. *)
Record Resolution := {
  remoteFilePath : string;
  shouldUpload : bool;
  isLocalLink : bool
}.

Definition decision (r : Resolution) : option Decision :=
  if isLocalLink r then Some LocalLink
  else if JS.truthy (remoteFilePath r) then
    if shouldUpload r then Some Upload else Some LinkOnly
  else None.

(** [status >= 200 && status < 300] *)
Definition is_2xx (r : Response) : bool :=
  ((200 <=? status r) && (status r <? 300))%Z.

(** [error.status === 404] *)
Definition is_404 (e : JsError) : bool :=
  match err_status e with Some n => (n =? 404)%Z | None => false end.

(** [filePath = file.path || ''] *)
Definition filePath_of (file : File) : string :=
  match file_path file with Some p => p | None => "" end.

(* ================================================================== *)
(** ** Path mappings: [calculateRemotePath] *)

Section Resolver.

(** The host platform's [path.dirname]. *)
Variable path_dirname : string -> string.

Variable settings : WebDAVUploaderSettings.

(** The body of both mapping loops: [mapping] replaces [bestMatch] when
    there is none yet or its [localPath] is strictly longer. *)
Definition updateBest (bestMatch : option PathMapping) (mapping : PathMapping)
  : option PathMapping :=
  match bestMatch with
  | None => Some mapping
  | Some b =>
      if (String.length b.(localPath) <? String.length mapping.(localPath))%nat
      then Some mapping else bestMatch
  end.

(** The test of the loop of the local branch. *)
Definition matchesLocal (fileDir : string) (mapping : PathMapping) : bool :=
  let normalizedMapping := JS.replace_backslashes mapping.(localPath) in
  JS.includes fileDir normalizedMapping.

(** The test of the loop of the note branch. *)
Definition matchesNote (noteParentPath : string) (mapping : PathMapping) : bool :=
  JS.startsWith noteParentPath mapping.(localPath).

(** [for (const mapping of pathMappings) if (test) if (...) bestMatch = mapping] *)
Definition selectBest (test : PathMapping -> bool) (mappings : list PathMapping)
  : option PathMapping :=
  fold_left (fun bestMatch mapping =>
               if test mapping then updateBest bestMatch mapping else bestMatch)
            mappings None.

Definition noteParentPath_of (activeFile : TFile) : string :=
  match parent activeFile with Some p => folder_path p | None => "/" end.

(** [remoteFolder] before the leading slash is ensured. *)
Definition remoteFolder_of (activeFile : TFile) (filePath : string) : string :=
  match pathMode settings, JS.truthy filePath with
  | local, true =>
      let fileDir := JS.replace_backslashes (path_dirname filePath) in
      match selectBest (matchesLocal fileDir) (pathMappings settings) with
      | Some bestMatch => bestMatch.(remotePath)
      | None => rootFolder settings
      end
  | _, _ =>
      let noteParentPath := noteParentPath_of activeFile in
      match selectBest (matchesNote noteParentPath) (pathMappings settings) with
      | Some bestMatch =>
          let relativePath :=
            JS.slice noteParentPath (String.length bestMatch.(localPath)) in
          let cleanRelative := JS.replace_seps (JS.strip_leading_sep relativePath) in
          let cleanRemote := JS.strip_trailing_slash bestMatch.(remotePath) in
          cleanRemote ++ "/" ++ cleanRelative
      | None => NodePath.join (rootFolder settings) noteParentPath
      end
  end.

Definition ensureLeadingSlash (p : string) : string :=
  if JS.startsWith p "/" then p else "/" ++ p.

Definition calculateRemotePath (file : File) (activeFile : TFile) (filePath : string)
  : string :=
  let remoteFolder := ensureLeadingSlash (remoteFolder_of activeFile filePath) in
  NodePath.join remoteFolder (file_name file).

End Resolver.

(* ================================================================== *)
(** ** The plugin: remote store client and upload orchestration *)

Section Plugin.

(** The states of the remote store and what Obsidian's [requestUrl] does
    on it: the new state and either the response or the thrown error. *)
Variable World : Type.
Variable requestUrl : RequestParams -> World -> World * (Response + JsError).

Variable path_dirname : string -> string.

(** What a drop handler can change: the store, the requests sent so far
    with their outcomes, the texts given to [editor.replaceSelection] and
    the notices shown, each oldest first. *)
Record Client := {
  store : World;
  requests : list (RequestParams * (Response + JsError));
  inserted : list string;
  notices : list Notice
}.

(** An [async] method: it runs on the client state and returns or throws. *)
Definition M (A : Type) : Type := Client -> Client * (A + JsError).

Definition ret {A} (a : A) : M A := fun c => (c, inl a).
Definition throw {A} (e : JsError) : M A := fun c => (c, inr e).
Definition bind {A B} (m : M A) (k : A -> M B) : M B :=
  fun c =>
    match m c with
    | (c', inl a) => k a c'
    | (c', inr e) => (c', inr e)
    end.
(** [try { m } catch (error) { handler(error) }] *)
Definition tryCatch {A} (m : M A) (handler : JsError -> M A) : M A :=
  fun c =>
    match m c with
    | (c', inl a) => (c', inl a)
    | (c', inr e) => handler e c'
    end.

Notation "x <- m ;; k" := (bind m (fun x => k))
  (at level 61, m at next level, right associativity).
Notation "m ;;; k" := (bind m (fun _ => k))
  (at level 61, right associativity).

Definition when (b : bool) (m : M unit) : M unit := if b then m else ret tt.

Fixpoint forEach {A} (l : list A) (f : A -> M unit) : M unit :=
  match l with
  | [] => ret tt
  | a :: l' => f a ;;; forEach l' f
  end.

Definition newNotice (n : Notice) : M unit :=
  fun c => ({| store := store c; requests := requests c;
               inserted := inserted c; notices := notices c ++ [n] |}, inl tt).

Definition replaceSelection (text : string) : M unit :=
  fun c => ({| store := store c; requests := requests c;
               inserted := inserted c ++ [text]; notices := notices c |}, inl tt).

(** [await requestUrl(requestParams)], logged. *)
Definition sendRequest (p : RequestParams) : M Response :=
  fun c =>
    let (w, r) := requestUrl p (store c) in
    ({| store := w; requests := requests c ++ [(p, r)];
        inserted := inserted c; notices := notices c |}, r).

Variable settings : WebDAVUploaderSettings.

Definition requestParams (method path : string) (headers : list (string * string))
           (data : option bytes) : RequestParams :=
  let url := JS.strip_trailing_slash (webdavUrl settings) ++ path in
  let auth := JS.btoa (username settings ++ ":" ++ password settings) in
  {| url := url; method := method;
     headers := ("Authorization", "Basic " ++ auth) :: headers;
     body := data |}.

(** [request]: a 404 becomes [null], any other error is thrown again. *)
Definition request (method path : string) (headers : list (string * string))
           (data : option bytes) : M (option Response) :=
  tryCatch
    (response <- sendRequest (requestParams method path headers data) ;;
     ret (Some response))
    (fun error => if is_404 error then ret None else throw error).

Definition webdavExists (path : string) : M bool :=
  tryCatch
    (response <- request "PROPFIND" path [("Depth", "0")] None ;;
     ret (match response with
          | Some r => is_2xx r
          | None => false
          end))
    (fun error => if is_404 error then ret false else ret false).

(** The loop of [webdavCreateDirectory], from the value of [currentPath]. *)
Fixpoint createDirectoryFrom (currentPath : string) (parts : list string) : M unit :=
  match parts with
  | [] => ret tt
  | part :: parts' =>
      let currentPath := currentPath ++ "/" ++ part in
      exists_ <- webdavExists currentPath ;;
      when (negb exists_) (request "MKCOL" currentPath [] None ;;; ret tt) ;;;
      createDirectoryFrom currentPath parts'
  end.

Definition webdavCreateDirectory (path : string) : M unit :=
  let parts := filter JS.truthy (JS.split_slash path) in
  createDirectoryFrom "" parts.

Definition webdavPut (path : string) (data : bytes) : M unit :=
  request "PUT" path [("Content-Type", "application/octet-stream")] (Some data) ;;;
  ret tt.

(** [await file.arrayBuffer()] *)
Definition readArrayBuffer (file : File) : M bytes :=
  match arrayBuffer file with
  | inl b => ret b
  | inr e => throw e
  end.

(** [localSyncFolder.replace(/[\\\/]+$/, '').replace(/\\/g, '/').toLowerCase()] *)
Definition normalizedLocalSync : string :=
  JS.toLowerCase (JS.replace_backslashes (JS.strip_trailing_seps (localSyncFolder settings))).

(** The containment test of the sync-folder branch. *)
Definition insideSyncFolder (filePath : string) : bool :=
  let normalizedFilePath := JS.replace_backslashes filePath in
  let lowerFilePath := JS.toLowerCase normalizedFilePath in
  JS.startsWith lowerFilePath normalizedLocalSync.

(** The remote path of a file inside the sync folder. *)
Definition syncRemotePath (filePath : string) : string :=
  let normalizedFilePath := JS.replace_backslashes filePath in
  let syncFolderLength := String.length (JS.strip_trailing_seps (localSyncFolder settings)) in
  let relativePath := JS.strip_leading_sep (JS.slice normalizedFilePath syncFolderLength) in
  let remoteBase := JS.strip_trailing_slash (remoteSyncFolder settings) in
  ensureLeadingSlash (NodePath.join remoteBase relativePath).

(** The first half of [uploadFile]: the branches on [pathMode] that set
    [remoteFilePath], [shouldUpload] and [isLocalLink]. *)
Definition resolve (file : File) (activeFile : TFile) : M Resolution :=
  let filePath := filePath_of file in
  match pathMode settings with
  | local =>
      if JS.truthy (localSyncFolder settings) && JS.truthy (remoteSyncFolder settings)
         && JS.truthy filePath
      then
        if insideSyncFolder filePath then
          let remoteFilePath := syncRemotePath filePath in
          if preferExistingLink settings then
            exists_ <- webdavExists remoteFilePath ;;
            if exists_ then
              newNotice (AlreadyInCloud (file_name file)) ;;;
              ret {| remoteFilePath := remoteFilePath; shouldUpload := false;
                     isLocalLink := false |}
            else
              ret {| remoteFilePath := remoteFilePath; shouldUpload := true;
                     isLocalLink := false |}
          else
            ret {| remoteFilePath := remoteFilePath; shouldUpload := true;
                   isLocalLink := false |}
        else
          newNotice OutsideSyncFolder ;;;
          ret {| remoteFilePath := ""; shouldUpload := false; isLocalLink := true |}
      else
        ret {| remoteFilePath := calculateRemotePath path_dirname settings file activeFile filePath;
               shouldUpload := true; isLocalLink := false |}
  | note =>
      ret {| remoteFilePath := calculateRemotePath path_dirname settings file activeFile filePath;
             shouldUpload := true; isLocalLink := false |}
  end.

Definition localLinkText (file : File) : string :=
  let normalizedFilePath := JS.replace_backslashes (filePath_of file) in
  "[" ++ file_name file ++ "](file:///" ++ JS.encodeURI normalizedFilePath ++ ")".

Definition remoteLinkText (file : File) (remoteFilePath : string) : string :=
  let baseUrl := if JS.endsWith_slash (webdavUrl settings)
                 then JS.slice_0_m1 (webdavUrl settings) else webdavUrl settings in
  let cleanRemoteFilePath := ensureLeadingSlash remoteFilePath in
  let encodedPath :=
    JS.join_slash (List.map JS.encodeURIComponent (JS.split_slash cleanRemoteFilePath)) in
  let linkUrl := baseUrl ++ encodedPath in
  "[" ++ file_name file ++ "](" ++ linkUrl ++ ")".

Definition newline : string := String (ascii_of_nat 10) EmptyString.

(** The upload step: the remote folder is ensured, the bytes are read
    and put. *)
Definition upload (file : File) (remoteFilePath : string) : M unit :=
  let remoteFolder := NodePath.dirname remoteFilePath in
  folderExists <- webdavExists remoteFolder ;;
  when (negb folderExists) (webdavCreateDirectory remoteFolder) ;;;
  fileBuffer <- readArrayBuffer file ;;
  newNotice (Uploading (file_name file)) ;;;
  webdavPut remoteFilePath fileBuffer ;;;
  newNotice (UploadSucceeded (file_name file)).

(** The second half of [uploadFile]: what is done with the resolution. *)
Definition perform (file : File) (r : Resolution) : M unit :=
  if isLocalLink r then
    replaceSelection (localLinkText file ++ newline)
  else
    when (shouldUpload r && JS.truthy (remoteFilePath r))
         (upload file (remoteFilePath r)) ;;;
    when (JS.truthy (remoteFilePath r))
         (replaceSelection (remoteLinkText file (remoteFilePath r) ++ newline)).

(** The [try] block of [uploadFile]. *)
Definition uploadFileBody (file : File) (view : MarkdownView) : M unit :=
  match view_file view with
  | None => ret tt
  | Some activeFile =>
      r <- resolve file activeFile ;;
      perform file r
  end.

Definition uploadFile (file : File) (view : MarkdownView) : M unit :=
  tryCatch (uploadFileBody file view)
           (fun error => newNotice (UploadFailed (err_message error))).

Definition configured : bool :=
  JS.truthy (webdavUrl settings) && JS.truthy (username settings)
  && JS.truthy (password settings).

(** The [drop] listener of [onload]: [view] is the active Markdown view,
    if there is one, and [files] is [evt.dataTransfer.files]. *)
Definition onDrop (view : option MarkdownView) (files : list File) : M unit :=
  match view with
  | None => ret tt
  | Some view =>
      match files with
      | [] => ret tt
      | _ :: _ =>
          if negb configured then newNotice NotConfigured
          else forEach files (fun file => uploadFile file view)
      end
  end.

End Plugin.

Arguments store {World} _.
Arguments requests {World} _.
Arguments inserted {World} _.
Arguments notices {World} _.
Arguments Build_Client {World} _ _ _ _.

(* ================================================================== *)
(** ** A reference store

    A small WebDAV server, used to run the plugin on concrete drops: a set
    of collections and a set of resources under the endpoint [base].
    [PROPFIND] answers 207 or fails with 404; [MKCOL] answers 201, or fails
    with 405 on an existing path and 409 under a missing parent; [PUT]
    answers 201 or 204, or fails with 409 under a missing parent and 405 on
    a collection. *)

Module RefStore.

Record t := {
  collections : list string;
  resources : list (string * bytes)
}.

Definition base : string := "https://dav.example.com".

Definition isCollection (w : t) (p : string) : bool :=
  String.eqb p "/" || String.eqb p "" || existsb (String.eqb p) (collections w).

Definition isResource (w : t) (p : string) : bool :=
  existsb (fun r => String.eqb p (fst r)) (resources w).

Definition present (w : t) (p : string) : bool := isCollection w p || isResource w p.

Definition failure (code : Z) (text : string) : Response + JsError :=
  inr {| err_status := Some code; err_message := "Request failed, status " ++ text |}.

Definition requestUrl (q : RequestParams) (w : t) : t * (Response + JsError) :=
  let p := JS.slice (url q) (String.length base) in
  if String.eqb (method q) "PROPFIND" then
    if present w p then (w, inl {| status := 207 |}) else (w, failure 404 "404")
  else if String.eqb (method q) "MKCOL" then
    if present w p then (w, failure 405 "405")
    else if isCollection w (NodePath.dirname p) then
      ({| collections := collections w ++ [p]; resources := resources w |},
       inl {| status := 201 |})
    else (w, failure 409 "409")
  else if String.eqb (method q) "PUT" then
    match body q with
    | Some data =>
        if isCollection w p then (w, failure 405 "405")
        else if isCollection w (NodePath.dirname p) then
          ({| collections := collections w;
              resources := filter (fun r => negb (String.eqb p (fst r))) (resources w)
                           ++ [(p, data)] |},
           inl {| status := if isResource w p then 204 else 201 |})
        else (w, failure 409 "409")
    | None => (w, failure 400 "400")
    end
  else (w, failure 405 "405").

Definition empty : t := {| collections := []; resources := [] |}.

(** A client on store [w] that has done nothing yet. *)
Definition fresh (w : t) : Client t :=
  {| store := w; requests := []; inserted := []; notices := [] |}.

(** The methods and paths of the requests sent, oldest first. *)
Definition sent (c : Client t) : list (string * string) :=
  List.map (fun r => (method (fst r), JS.slice (url (fst r)) (String.length base)))
           (requests c).

End RefStore.

(* ================================================================== *)
(** ** Concrete drops *)

Module Demo.

(** Note mode: everything goes under [/docs]. *)
Definition settingsNote : WebDAVUploaderSettings := {|
  webdavUrl := "https://dav.example.com/";
  username := "user";
  password := "pass";
  rootFolder := "/docs";
  pathMappings := [];
  localSyncFolder := "";
  remoteSyncFolder := "";
  pathMode := note;
  preferExistingLink := true
|}.

(** Local mode with a sync folder. *)
Definition settingsSync : WebDAVUploaderSettings := {|
  webdavUrl := "https://dav.example.com/";
  username := "user";
  password := "pass";
  rootFolder := "/docs";
  pathMappings := [];
  localSyncFolder := "c:/users/me/sync";
  remoteSyncFolder := "/remote/";
  pathMode := local;
  preferExistingLink := true
|}.

Definition content : bytes := [Byte.x89; Byte.x50; Byte.x4e; Byte.x47].

Definition fileA : File := {|
  file_name := "a.png";
  file_path := Some "C:\Users\Me\Sync\x\a.png";
  arrayBuffer := inl content
|}.

Definition fileB : File := {|
  file_name := "b.png";
  file_path := Some "C:\Users\Me\Sync\y\b.png";
  arrayBuffer := inl content
|}.

Definition fileOutside : File := {|
  file_name := "c.png";
  file_path := Some "D:\other\c.png";
  arrayBuffer := inl content
|}.

Definition activeNote : TFile := {| parent := Some {| folder_path := "notes" |} |}.
Definition view : MarkdownView := {| view_file := Some activeNote |}.

(** A store where [/remote/x] is a resource, so that nothing can be put
    below it. *)
Definition blocked : RefStore.t := {|
  RefStore.collections := ["/remote"];
  RefStore.resources := [("/remote/x", [])]
|}.

(** A store that already has [a.png] where note mode puts it. *)
Definition alreadyThere : RefStore.t := {|
  RefStore.collections := ["/docs"; "/docs/notes"];
  RefStore.resources := [("/docs/notes/a.png", [Byte.x00])]
|}.

(** Note mode with a root folder typed the Windows way. *)
Definition settingsBackslashRoot : WebDAVUploaderSettings := {|
  webdavUrl := "https://dav.example.com/";
  username := "user";
  password := "pass";
  rootFolder := "docs\img";
  pathMappings := [];
  localSyncFolder := "";
  remoteSyncFolder := "";
  pathMode := note;
  preferExistingLink := true
|}.

(** An endpoint that is not there: every request fails with 404. *)
Definition nowhere (q : RequestParams) (w : unit) : unit * (Response + JsError) :=
  (w, inr {| err_status := Some 404%Z; err_message := "Request failed, status 404" |}).

(** An endpoint that can be read but not written: [PROPFIND] is answered
    207 and every other request fails with 404. *)
Definition readOnly (q : RequestParams) (w : unit) : unit * (Response + JsError) :=
  if String.eqb (method q) "PROPFIND" then (w, inl {| status := 207 |})
  else (w, inr {| err_status := Some 404%Z; err_message := "Request failed, status 404" |}).

(** A client of such an endpoint that has done nothing yet. *)
Definition idle : Client unit :=
  {| store := tt; requests := []; inserted := []; notices := [] |}.

(** Note mode with one mapping, of the folder [notes]. *)
Definition settingsMapping : WebDAVUploaderSettings := {|
  webdavUrl := "https://dav.example.com/";
  username := "user";
  password := "pass";
  rootFolder := "/docs";
  pathMappings := [ {| localPath := "notes"; remotePath := "/m/" |} ];
  localSyncFolder := "";
  remoteSyncFolder := "";
  pathMode := note;
  preferExistingLink := true
|}.

(** A note whose folder path has backslashes below the mapped folder. *)
Definition backslashNote : TFile := {| parent := Some {| folder_path := "notes\a\b" |} |}.

End Demo.

(* ================================================================== *)
(** ** Vocabulary of the statements *)

(** [p] is a prefix of [s]. *)
Definition isPrefix (p s : string) : Prop := exists rest, s = p ++ rest.

(** [p] occurs in [s]. *)
Definition isInfix (p s : string) : Prop := exists before after, s = before ++ p ++ after.

(** Settings that differ from [s] in the path mode only. *)
Definition withPathMode (mode : PathMode) (s : WebDAVUploaderSettings)
  : WebDAVUploaderSettings :=
  {| webdavUrl := webdavUrl s; username := username s; password := password s;
     rootFolder := rootFolder s; pathMappings := pathMappings s;
     localSyncFolder := localSyncFolder s; remoteSyncFolder := remoteSyncFolder s;
     pathMode := mode; preferExistingLink := preferExistingLink s |}.

(** The client after request [q], answered [r], moved the store to [w]. *)
Definition afterRequest {World} (c : Client World) (q : RequestParams)
           (w : World) (r : Response + JsError) : Client World :=
  {| store := w; requests := requests c ++ [(q, r)];
     inserted := inserted c; notices := notices c |}.

Definition withNotice {World} (c : Client World) (n : Notice) : Client World :=
  {| store := store c; requests := requests c; inserted := inserted c;
     notices := notices c ++ [n] |}.

Definition withInserted {World} (c : Client World) (text : string) : Client World :=
  {| store := store c; requests := requests c; inserted := inserted c ++ [text];
     notices := notices c |}.

(** The parameters of the three kinds of request the client sends. *)
Definition probeParams (settings : WebDAVUploaderSettings) (path : string) : RequestParams :=
  requestParams settings "PROPFIND" path [("Depth", "0")] None.

Definition mkcolParams (settings : WebDAVUploaderSettings) (path : string) : RequestParams :=
  requestParams settings "MKCOL" path [] None.

Definition putParams (settings : WebDAVUploaderSettings) (path : string) (data : bytes)
  : RequestParams :=
  requestParams settings "PUT" path [("Content-Type", "application/octet-stream")] (Some data).

(** What [webdavExists] answers on outcome [r] of its probe. *)
Definition probeAnswer (r : Response + JsError) : bool :=
  match r with
  | inl resp => is_2xx resp
  | inr _ => false
  end.

(** The length the mapping loops compare. *)
Definition localLength (m : PathMapping) : nat := String.length (localPath m).

(** What the selection of a mapping loop amounts to, for the test [test]
    of the loop: the first of the mappings that pass the test with the
    greatest [localPath] length, and none only if no mapping passes. *)
Definition selectsLongest (test : PathMapping -> bool) (mappings : list PathMapping) : Prop :=
  match selectBest test mappings with
  | Some m =>
      exists before after,
        mappings = (before ++ m :: after)%list
        /\ test m = true
        /\ Forall (fun m' => test m' = true -> localLength m' < localLength m) before
        /\ Forall (fun m' => test m' = true -> localLength m' <= localLength m) after
  | None => Forall (fun m' => test m' = false) mappings
  end.

(** The values [currentPath] takes in the loop of [webdavCreateDirectory]:
    the paths of the non-empty segments, from the root to the leaf. *)
Fixpoint prefixesFrom (currentPath : string) (parts : list string) : list string :=
  match parts with
  | [] => []
  | part :: parts' =>
      let currentPath := currentPath ++ "/" ++ part in
      currentPath :: prefixesFrom currentPath parts'
  end.

Definition directoryPrefixes (path : string) : list string :=
  prefixesFrom "" (filter JS.truthy (JS.split_slash path)).

Section StoreVocabulary.

Variable World : Type.
Variable requestUrl : RequestParams -> World -> World * (Response + JsError).
Variable settings : WebDAVUploaderSettings.

(** One round of the loop of [webdavCreateDirectory]: the path is
    probed and created only if the probe says it is absent. *)
Definition ensureDirectory (path : string) : M World unit :=
  bind World (webdavExists World requestUrl settings path)
       (fun exists_ =>
          when World (negb exists_)
               (bind World (request World requestUrl settings "MKCOL" path [] None)
                     (fun _ => ret World tt))).

(** The store in state [w] answers the probe of [path] with a 2xx. *)
Definition present (w : World) (path : string) : bool :=
  probeAnswer (snd (requestUrl (probeParams settings path) w)).

(** What the idempotence of directory creation needs from the store: a
    probe changes nothing, a failed [MKCOL] changes nothing and is not a
    404, a path exists after its successful [MKCOL], and no [MKCOL] makes
    an existing path disappear. *)
Record StoreLaws : Prop := {
  probe_reads_only :
    forall path w, fst (requestUrl (probeParams settings path) w) = w;
  mkcol_failure_changes_nothing :
    forall path w e,
      snd (requestUrl (mkcolParams settings path) w) = inr e ->
      fst (requestUrl (mkcolParams settings path) w) = w;
  mkcol_failure_is_not_404 :
    forall path w e,
      snd (requestUrl (mkcolParams settings path) w) = inr e -> is_404 e = false;
  mkcol_creates :
    forall path w resp,
      snd (requestUrl (mkcolParams settings path) w) = inl resp ->
      present (fst (requestUrl (mkcolParams settings path) w)) path = true;
  mkcol_keeps :
    forall path path' w,
      present w path' = true ->
      present (fst (requestUrl (mkcolParams settings path) w)) path' = true
}.

(** The log entry of the probe of [path] on store [w]. *)
Definition probeEntry (w : World) (path : string)
  : RequestParams * (Response + JsError) :=
  (probeParams settings path, snd (requestUrl (probeParams settings path) w)).

End StoreVocabulary.

Arguments present {World} _ _ _ _.
Arguments StoreLaws {World} _ _.
Arguments probeEntry {World} _ _ _ _.

(** [f] holds of every code unit of [s]. *)
Fixpoint every (f : ascii -> bool) (s : string) : bool :=
  match s with
  | EmptyString => true
  | String c r => f c && every f r
  end.

Definition notSlash (c : ascii) : bool := negb (JS.is_slash c).
Definition notBackslash (c : ascii) : bool := negb (JS.is_backslash c).

Definition headIsSlash (s : string) : bool :=
  match s with
  | EmptyString => false
  | String c _ => JS.is_slash c
  end.

(** Two slashes in a row somewhere in [s]. *)
Fixpoint hasDoubleSlash (s : string) : bool :=
  match s with
  | EmptyString => false
  | String a r => JS.is_slash a && headIsSlash r || hasDoubleSlash r
  end.

(** A segment of a normalized path: not empty and free of slashes. *)
Definition goodSegment (seg : string) : Prop :=
  seg <> "" /\ every notSlash seg = true.

(** What the scan of [normalizeString] keeps on its stack: good segments
    whose code units all satisfy [f]. *)
Definition kept (f : ascii -> bool) (seg : string) : Prop :=
  every f seg = true /\ goodSegment seg.

(** The three properties the specification states of a remote path. *)
Definition noDoubleSlash (p : string) : Prop := JS.includes p "//" = false.
Definition noBackslash (p : string) : Prop := JS.includes p "\" = false.
Definition beginsWithSlash (p : string) : Prop := JS.startsWith p "/" = true.

(** The remote path as the specification words it: it begins with a
    slash, has forward slashes only and no two slashes in a row. *)
Definition remotePathAsSpecified (p : string) : Prop :=
  beginsWithSlash p /\ noBackslash p /\ noDoubleSlash p.

(** The values [calculateRemotePath] copies into the remote path as they
    are, on the branch it takes: the name of the file, and the
    [remotePath] of the selected mapping or, when no mapping is selected,
    [rootFolder], in the note branch together with the folder path of the
    active document. *)
Definition copiedByCalculate (path_dirname : string -> string)
           (s : WebDAVUploaderSettings) (file : File) (activeFile : TFile)
           (filePath : string) : list string :=
  file_name file ::
  match pathMode s, JS.truthy filePath with
  | local, true =>
      match selectBest (matchesLocal (JS.replace_backslashes (path_dirname filePath)))
                       (pathMappings s) with
      | Some bestMatch => [remotePath bestMatch]
      | None => [rootFolder s]
      end
  | _, _ =>
      match selectBest (matchesNote (noteParentPath_of activeFile)) (pathMappings s) with
      | Some bestMatch => [remotePath bestMatch]
      | None => [rootFolder s; noteParentPath_of activeFile]
      end
  end.

(** The values a resolution copies into the remote path as they are:
    [remoteSyncFolder] alone for a file inside the sync folder, nothing
    for a local link, and otherwise what [calculateRemotePath] copies. *)
Definition copiedAsItIs (path_dirname : string -> string)
           (s : WebDAVUploaderSettings) (file : File) (activeFile : TFile) : list string :=
  let filePath := filePath_of file in
  match pathMode s with
  | local =>
      if JS.truthy (localSyncFolder s) && JS.truthy (remoteSyncFolder s)
         && JS.truthy filePath
      then if insideSyncFolder s filePath then [remoteSyncFolder s] else []
      else copiedByCalculate path_dirname s file activeFile filePath
  | note => copiedByCalculate path_dirname s file activeFile filePath
  end.

(** [m] gives nothing to the editor. *)
Definition keepsEditor {World A} (m : M World A) : Prop :=
  forall c, inserted (fst (m c)) = inserted c.

(** [m] returns, whatever the client state. *)
Definition neverThrows {World A} (m : M World A) : Prop :=
  forall c, exists a, snd (m c) = inl a.

(* ================================================================== *)
(** ** Vocabulary of the request log *)

(** An entry of the request log. *)
Definition Entry : Type := RequestParams * (Response + JsError).

(** Every request [m] adds to the log satisfies [P]. *)
Definition logs {World A} (P : Entry -> Prop) (m : M World A) : Prop :=
  forall c, exists new,
    requests (fst (m c)) = (requests c ++ new)%list /\ Forall P new.

(** The endpoint every request is addressed under and the header every
    request carries. *)
Definition endpoint (settings : WebDAVUploaderSettings) : string :=
  JS.strip_trailing_slash (webdavUrl settings).

Definition basicAuth (settings : WebDAVUploaderSettings) : string * string :=
  ("Authorization", "Basic " ++ JS.btoa (username settings ++ ":" ++ password settings)).

(** A request as the client builds them: under the endpoint, with the
    credentials, by one of the three methods. *)
Definition fromClient (settings : WebDAVUploaderSettings) (e : Entry) : Prop :=
  isPrefix (endpoint settings) (url (fst e))
  /\ In (basicAuth settings) (headers (fst e))
  /\ (method (fst e) = "PROPFIND" \/ method (fst e) = "MKCOL" \/ method (fst e) = "PUT").

Definition notPut (e : Entry) : Prop := method (fst e) <> "PUT".

(** A request that reads or creates a collection. *)
Definition probeOrMkcol (e : Entry) : Prop :=
  method (fst e) = "PROPFIND" \/ method (fst e) = "MKCOL".

(** No condition on a log entry. *)
Definition anyEntry (e : Entry) : Prop := True.

(** [m] throws only what [Q] allows or the error of a failed [MKCOL] or
    [PUT], other than a 404, that is then the last entry of the log. *)
Definition failsFrom {World A} (Q : JsError -> Prop) (m : M World A) : Prop :=
  forall c c' e,
    m c = (c', inr e) ->
    Q e
    \/ exists pre q,
        requests c' = (requests c ++ pre ++ [(q, inr e)])%list
        /\ (method q = "MKCOL" \/ method q = "PUT")
        /\ is_404 e = false.

(** The text [uploadFile] inserts for a resolution. *)
Definition linkFor (settings : WebDAVUploaderSettings) (file : File) (res : Resolution)
  : string :=
  (if isLocalLink res then localLinkText file
   else remoteLinkText settings file (remoteFilePath res)) ++ newline.

(** Drops on stores that already hold something. *)
Module Drops.

(** A store that already has [a.png] where the sync folder puts it. *)
Definition synced : RefStore.t := {|
  RefStore.collections := ["/remote"; "/remote/x"];
  RefStore.resources := [("/remote/x/a.png", [Byte.x00])]
|}.

(** Note mode with two mappings, one under the other. *)
Definition settingsMapped : WebDAVUploaderSettings := {|
  webdavUrl := "https://dav.example.com/";
  username := "user";
  password := "pass";
  rootFolder := "/";
  pathMappings := [ {| localPath := "notes"; remotePath := "/short/" |};
                    {| localPath := "notes/sub"; remotePath := "/long/" |} ];
  localSyncFolder := "";
  remoteSyncFolder := "";
  pathMode := note;
  preferExistingLink := true
|}.

Definition deepNote : TFile := {| parent := Some {| folder_path := "notes/sub/deep" |} |}.

(** The client after [a.png] of the sync folder was dropped on the
    empty store. *)
Definition afterFirstDrop : Client RefStore.t :=
  Eval vm_compute in
    fst (uploadFileBody RefStore.t RefStore.requestUrl NodePath.dirname
           Demo.settingsSync Demo.fileA Demo.view (RefStore.fresh RefStore.empty)).

End Drops.

(* ================================================================== *)
(** ** Vocabulary of the links *)

(** The path part of the link [uploadFile] inserts for a remote path
    and the address it forms with the endpoint. *)
Definition encodedPath (remoteFilePath : string) : string :=
  JS.join_slash (List.map JS.encodeURIComponent
                          (JS.split_slash (ensureLeadingSlash remoteFilePath))).

Definition remoteLinkUrl (settings : WebDAVUploaderSettings) (remoteFilePath : string)
  : string :=
  endpoint settings ++ encodedPath remoteFilePath.

(** The code units [encodeURIComponent] can produce: the unreserved ones
    and the percent sign of an escape. *)
Definition escaped (c : ascii) : bool :=
  JS.uri_unreserved c || Ascii.eqb c "%"%char.

(** The value of a hexadecimal digit of an escape. *)
Definition hexValue (c : ascii) : option N :=
  let n := N_of_ascii c in
  if ((48 <=? n) && (n <=? 57))%N then Some (n - 48)%N
  else if ((65 <=? n) && (n <=? 70))%N then Some (n - 55)%N
  else None.

Definition escapeValue (h l : ascii) : option N :=
  match hexValue h, hexValue l with
  | Some x, Some y => Some (16 * x + y)%N
  | _, _ => None
  end.

(** Reads back the first code unit of an encoded string: itself, or the
    one or two escapes of its UTF-8 bytes. *)
Definition decodeUnit (s : string) : option (ascii * string) :=
  match s with
  | EmptyString => None
  | String c r =>
      if Ascii.eqb c "%"%char then
        match r with
        | String h1 (String l1 r1) =>
            match escapeValue h1 l1 with
            | Some b =>
                if (b <? 128)%N then Some (ascii_of_N b, r1)
                else
                  match r1 with
                  | String p (String h2 (String l2 r2)) =>
                      match escapeValue h2 l2 with
                      | Some b2 =>
                          if Ascii.eqb p "%"%char
                          then Some (ascii_of_N ((b - 192) * 64 + (b2 - 128)), r2)
                          else None
                      | None => None
                      end
                  | _ => None
                  end
            | None => None
            end
        | _ => None
        end
      else Some (c, r)
  end.

(* ================================================================== *)
(** ** The image overlay: which addresses it takes for its own *)

Module Overlay.





End Overlay.

(* ================================================================== *)
(** ** The path simulator of the settings tab *)

Module Simulator.

(** The code units [trim] removes, among those below 256. *)
Definition is_space (c : ascii) : bool :=
  let n := N_of_ascii c in
  ((9 <=? n) && (n <=? 13) || (n =? 32) || (n =? 160))%N.

Fixpoint trimStart (s : string) : string :=
  match s with
  | EmptyString => EmptyString
  | String c r => if is_space c then trimStart r else s
  end.

Fixpoint trimEnd (s : string) : string :=
  match s with
  | EmptyString => EmptyString
  | String c r =>
      match trimEnd r with
      | EmptyString => if is_space c then EmptyString else String c EmptyString
      | r' => String c r'
      end
  end.

(** [s.trim()] *)
Definition trim (s : string) : string := trimStart (trimEnd s).

(** [s.replace(/\/+/g, '/')]: every run of slashes becomes one slash. *)
Fixpoint collapseSlashes (s : string) : string :=
  match s with
  | EmptyString => EmptyString
  | String c r =>
      if JS.is_slash c && headIsSlash r then collapseSlashes r
      else String c (collapseSlashes r)
  end.

(** [s.replace(/^\//, '')] *)
Definition stripLeadingSlash (s : string) : string :=
  match s with
  | EmptyString => EmptyString
  | String c r => if JS.is_slash c then r else s
  end.

(** [normalizedPath.split('/').pop() || 'file'] *)
Definition fileNameOf (normalizedPath : string) : string :=
  let last := List.last (JS.split_slash normalizedPath) EmptyString in
  if JS.truthy last then last else "file".

(** What the result box says of how the path was computed. *)
Inductive CalculationMethod :=
| NoNoteSelected
| MappingMatched (localPath remotePath : string)
| NotePathUsed (noteParentPath : string)
| SyncFolderNotConfigured
| SyncFolderMatched (localSyncFolder : string)
| NotInSyncFolder (normalizedFilePath normalizedSync : string).

(** What a click on the button leaves on the screen: the notice that asks
    for a path, or one of the four contents of the result box. *)
Inductive Shown :=
| AsksForPath
| LocalLinkExpected (method : CalculationMethod) (testPath : string)
| RemotePathExpected (method : CalculationMethod) (testPath selectedNotePath : string)
                     (remotePath url : string) (exists_ willUpload : bool)
| NoRemotePath (method : CalculationMethod) (testPath : string)
| CheckFailed (message : string).

(** The three local variables the click handler sets while it computes. *)
Record Computed := {
  sim_remotePath : string;
  sim_method : CalculationMethod;
  sim_isLocalLink : bool
}.

Section Simulate.

Variable World : Type.
Variable requestUrl : RequestParams -> World -> World * (Response + JsError).
Variable settings : WebDAVUploaderSettings.
(** [this.app.vault.getAbstractFileByPath] *)
Variable getAbstractFileByPath : string -> option TFile.

(** The body of the mapping loop of the simulator: an empty [localPath]
    never matches, and the mapping of the root is taken for a note whose
    folder path is empty. *)
Definition simStep (noteParentPath : string) (bestMatch : option PathMapping)
           (mapping : PathMapping) : option PathMapping :=
  let bestMatch :=
    if JS.truthy (localPath mapping) && JS.startsWith noteParentPath (localPath mapping)
    then updateBest bestMatch mapping else bestMatch in
  if String.eqb (localPath mapping) "/" && String.eqb noteParentPath ""
  then Some mapping else bestMatch.

Definition simNote (mockActiveFile : option TFile) (fileName : string) : Computed :=
  match mockActiveFile with
  | None => {| sim_remotePath := ""; sim_method := NoNoteSelected; sim_isLocalLink := false |}
  | Some mockActiveFile =>
      let noteParentPath :=
        match parent mockActiveFile with Some p => folder_path p | None => "" end in
      match fold_left (simStep noteParentPath) (pathMappings settings) None with
      | Some bestMatch =>
          let relativePath :=
            if String.eqb (localPath bestMatch) "/" then noteParentPath
            else stripLeadingSlash
                   (JS.slice noteParentPath (String.length (localPath bestMatch))) in
          let cleanRemote := JS.strip_trailing_slash (remotePath bestMatch) in
          {| sim_remotePath :=
               collapseSlashes (cleanRemote ++ "/" ++ relativePath ++ "/" ++ fileName);
             sim_method := MappingMatched (localPath bestMatch) (remotePath bestMatch);
             sim_isLocalLink := false |}
      | None =>
          {| sim_remotePath := collapseSlashes ("/" ++ noteParentPath ++ "/" ++ fileName);
             sim_method := NotePathUsed noteParentPath;
             sim_isLocalLink := false |}
      end
  end.

Definition simLocal (normalizedPath : string) : Computed :=
  if negb (JS.truthy (localSyncFolder settings)) || negb (JS.truthy (remoteSyncFolder settings))
  then {| sim_remotePath := ""; sim_method := SyncFolderNotConfigured;
          sim_isLocalLink := true |}
  else
    let normalizedSync :=
      JS.toLowerCase (JS.strip_trailing_slash
                        (JS.replace_backslashes (localSyncFolder settings))) in
    let normalizedFilePath := JS.toLowerCase normalizedPath in
    if JS.startsWith normalizedFilePath normalizedSync then
      let relativePath :=
        JS.strip_leading_sep
          (JS.slice normalizedPath (String.length (localSyncFolder settings))) in
      let remoteBase := JS.strip_trailing_slash (remoteSyncFolder settings) in
      let remotePath :=
        collapseSlashes (JS.replace_backslashes (remoteBase ++ "/" ++ relativePath)) in
      {| sim_remotePath := ensureLeadingSlash remotePath;
         sim_method := SyncFolderMatched (localSyncFolder settings);
         sim_isLocalLink := false |}
    else
      {| sim_remotePath := ""; sim_method := NotInSyncFolder normalizedFilePath normalizedSync;
         sim_isLocalLink := true |}.

(** The computation of the [try] block up to the display. *)
Definition compute (testPath selectedNotePath : string) : Computed :=
  let normalizedPath := JS.replace_backslashes testPath in
  let fileName := fileNameOf normalizedPath in
  let mockActiveFile :=
    if JS.truthy selectedNotePath then getAbstractFileByPath selectedNotePath else None in
  let r := match pathMode settings with
           | note => simNote mockActiveFile fileName
           | local => simLocal normalizedPath
           end in
  {| sim_remotePath :=
       if JS.truthy (sim_remotePath r) && negb (JS.startsWith (sim_remotePath r) "/")
       then "/" ++ sim_remotePath r else sim_remotePath r;
     sim_method := sim_method r;
     sim_isLocalLink := sim_isLocalLink r |}.

(** The click handler of the simulation button; [pathInput] and
    [noteInput] are the values of the two fields. *)
Definition simulate (pathInput noteInput : string) : M World Shown :=
  let testPath := trim pathInput in
  let selectedNotePath := noteInput in
  if negb (JS.truthy testPath) then ret World AsksForPath
  else
    tryCatch World
      (let r := compute testPath selectedNotePath in
       let baseUrl := JS.strip_trailing_slash (webdavUrl settings) in
       if sim_isLocalLink r then
         ret World (LocalLinkExpected (sim_method r) testPath)
       else if JS.truthy (sim_remotePath r) then
         bind World (webdavExists World requestUrl settings (sim_remotePath r))
              (fun exists_ =>
                 let willUpload := negb exists_ || negb (preferExistingLink settings) in
                 ret World (RemotePathExpected (sim_method r) testPath selectedNotePath
                              (sim_remotePath r) (baseUrl ++ sim_remotePath r)
                              exists_ willUpload))
       else ret World (NoRemotePath (sim_method r) testPath))
      (fun error => ret World (CheckFailed (err_message error))).

End Simulate.

End Simulator.

(** Settings that differ from [s] in the root folder only. *)
Definition withRootFolder (root : string) (s : WebDAVUploaderSettings)
  : WebDAVUploaderSettings :=
  {| webdavUrl := webdavUrl s; username := username s; password := password s;
     rootFolder := root; pathMappings := pathMappings s;
     localSyncFolder := localSyncFolder s; remoteSyncFolder := remoteSyncFolder s;
     pathMode := pathMode s; preferExistingLink := preferExistingLink s |}.

(** No remote path, or one that begins with a slash and has no two in a
    row. *)
Definition emptyOrAbsolute (p : string) : Prop :=
  p = "" \/ (beginsWithSlash p /\ noDoubleSlash p).

(** Local mode with only the mappings set, and a vault of one note. *)
Module SimCases.

Definition settingsLocalNoSync : WebDAVUploaderSettings := {|
  webdavUrl := "https://dav.example.com/";
  username := "user";
  password := "pass";
  rootFolder := "/docs";
  pathMappings := [];
  localSyncFolder := "";
  remoteSyncFolder := "";
  pathMode := local;
  preferExistingLink := true
|}.

Definition vault (path : string) : option TFile :=
  if String.eqb path "notes/today.md" then Some Demo.activeNote else None.

End SimCases.

(* ================================================================== *)
(** ** Stores that keep what is put *)

Section PutVocabulary.

Variable World : Type.
Variable requestUrl : RequestParams -> World -> World * (Response + JsError).
Variable settings : WebDAVUploaderSettings.

(** What dropping a file again needs from the store: a probe changes
    nothing, a failed [PUT] is not a 404, and a path exists after its
    successful [PUT]. *)
Record PutLaws : Prop := {
  put_probe_reads_only :
    forall path w, fst (requestUrl (probeParams settings path) w) = w;
  put_failure_is_not_404 :
    forall path data w e,
      snd (requestUrl (putParams settings path data) w) = inr e -> is_404 e = false;
  put_creates :
    forall path data w resp,
      snd (requestUrl (putParams settings path data) w) = inl resp ->
      present requestUrl settings (fst (requestUrl (putParams settings path data) w)) path
      = true
}.

End PutVocabulary.

Arguments PutLaws {World} _ _.

(* ================================================================== *)
(** ** Checks of the embedding on concrete values *)

Example startsWith_ex : JS.startsWith "notes/sub" "notes" = true.
Proof. reflexivity. Qed.

Example includes_ex : JS.includes "a/notes/sub" "notes" = true.
Proof. reflexivity. Qed.

Example strip_trailing_seps_ex : JS.strip_trailing_seps "C:\Sync\/\" = "C:\Sync".
Proof. reflexivity. Qed.

Example split_slash_ex : JS.split_slash "/a//b/" = [""; "a"; ""; "b"; ""].
Proof. reflexivity. Qed.

Example toLowerCase_ex : JS.toLowerCase "C:/Users/Me" = "c:/users/me".
Proof. reflexivity. Qed.

Example encodeURIComponent_ex : JS.encodeURIComponent "a b&c.png" = "a%20b%26c.png".
Proof. reflexivity. Qed.

Example encodeURI_ex : JS.encodeURI "C:/My Docs/a#1.png" = "C:/My%20Docs/a#1.png".
Proof. reflexivity. Qed.

Example btoa_ex : JS.btoa "user:pass" = "dXNlcjpwYXNz".
Proof. reflexivity. Qed.

Example btoa_pad_ex : JS.btoa "ab" = "YWI=" /\ JS.btoa "a" = "YQ==".
Proof. split; reflexivity. Qed.

Example normalize_ex1 : NodePath.normalize "/docs/notes//sub" = "/docs/notes/sub".
Proof. reflexivity. Qed.

Example normalize_ex2 : NodePath.normalize "a/./b/../../../c/" = "../c/".
Proof. reflexivity. Qed.

Example normalize_ex3 : NodePath.normalize "/a/../../b" = "/b".
Proof. reflexivity. Qed.

Example join_ex1 : NodePath.join "/docs" "notes//sub" = "/docs/notes/sub".
Proof. reflexivity. Qed.

Example join_ex2 : NodePath.join "" "" = "." /\ NodePath.join "/" "a.png" = "/a.png".
Proof. split; reflexivity. Qed.

Example dirname_ex :
  NodePath.dirname "/a/b.png" = "/a" /\ NodePath.dirname "/b.png" = "/" /\
  NodePath.dirname "b.png" = "." /\ NodePath.dirname "/a//b" = "/a/" /\
  NodePath.dirname "/a/b/" = "/a" /\ NodePath.dirname "//a" = "//".
Proof. repeat split; reflexivity. Qed.

(* ================================================================== *)
(** ** Facts on strings *)

Section StringFacts.

Lemma startsWith_spec s p : JS.startsWith s p = true <-> isPrefix p s.
Proof.
  unfold isPrefix. revert s. induction p as [| b p IH]; intros s; simpl.
  - split; [intros _; exists s; reflexivity | reflexivity].
  - destruct s as [| a s]; simpl.
    + split; [discriminate | intros [rest E]; discriminate].
    + rewrite andb_true_iff, Ascii.eqb_eq, IH. split.
      * intros [-> [rest ->]]. exists rest; reflexivity.
      * intros [rest E]. inversion E; subst. split; [reflexivity | exists rest; reflexivity].
Qed.

Lemma includes_spec s p : JS.includes s p = true <-> isInfix p s.
Proof.
  unfold isInfix. induction s as [| a s IH].
  - cbn [JS.includes]. rewrite orb_false_r, startsWith_spec. split.
    + intros [rest E]. exists "", rest. exact E.
    + intros [[| x before] [after E]]; [exists after; exact E | discriminate].
  - cbn [JS.includes]. rewrite orb_true_iff, startsWith_spec, IH. split.
    + intros [[rest E] | [before [after E]]].
      * exists "", rest. exact E.
      * exists (String a before), after. rewrite E. reflexivity.
    + intros [[| x before] [after E]].
      * left. exists after. exact E.
      * right. inversion E; subst. exists before, after. reflexivity.
Qed.

Lemma append_assoc (a b c : string) : (a ++ b) ++ c = a ++ b ++ c.
Proof. induction a as [| x a IH]; simpl; congruence. Qed.

Lemma append_nil_r (a : string) : a ++ "" = a.
Proof. induction a as [| x a IH]; simpl; congruence. Qed.

Lemma append_length (a b : string) :
  String.length (a ++ b) = String.length a + String.length b.
Proof. induction a as [| x a IH]; simpl; congruence. Qed.

Lemma map_length f s : String.length (JS.map f s) = String.length s.
Proof. induction s as [| c s IH]; simpl; congruence. Qed.

(** Lower-casing keeps the length, on which the slicing of the sync
    branch relies. *)
Lemma toLowerCase_length s : String.length (JS.toLowerCase s) = String.length s.
Proof. apply map_length. Qed.

End StringFacts.

(* ================================================================== *)
(** ** The remote store client *)

Section ClientFacts.

Variable World : Type.
Variable requestUrl : RequestParams -> World -> World * (Response + JsError).
Variable settings : WebDAVUploaderSettings.

Local Abbreviation request' := (request World requestUrl settings).
Local Abbreviation webdavExists' := (webdavExists World requestUrl settings).
Local Abbreviation webdavPut' := (webdavPut World requestUrl settings).
Local Abbreviation createDirectoryFrom' := (createDirectoryFrom World requestUrl settings).
Local Abbreviation webdavCreateDirectory' := (webdavCreateDirectory World requestUrl settings).
Local Abbreviation probeParams' := (probeParams settings).
Local Abbreviation putParams' := (putParams settings).

Lemma request_eq method path headers data c :
  request' method path headers data c =
  let q := requestParams settings method path headers data in
  let (w, r) := requestUrl q (store c) in
  (afterRequest c q w r,
   match r with
   | inl resp => inl (Some resp)
   | inr e => if is_404 e then inl None else inr e
   end).
Proof.
  unfold request, tryCatch, bind, sendRequest, ret, throw, afterRequest.
  cbv zeta.
  destruct (requestUrl _ (store c)) as [w [resp | e]]; [reflexivity |].
  simpl. destruct (is_404 e); reflexivity.
Qed.

Lemma webdavExists_eq path c :
  webdavExists' path c =
  let (w, r) := requestUrl (probeParams' path) (store c) in
  (afterRequest c (probeParams' path) w r, inl (probeAnswer r)).
Proof.
  unfold webdavExists, tryCatch, bind.
  rewrite request_eq. cbv zeta. fold (probeParams' path).
  destruct (requestUrl _ (store c)) as [w [resp | e]]; [reflexivity |].
  unfold probeAnswer, ret. simpl.
  destruct (is_404 e) eqn:E; simpl; rewrite ?E; reflexivity.
Qed.

Lemma webdavPut_eq path data c :
  webdavPut' path data c =
  let (w, r) := requestUrl (putParams' path data) (store c) in
  (afterRequest c (putParams' path data) w r,
   match r with
   | inl _ => inl tt
   | inr e => if is_404 e then inl tt else inr e
   end).
Proof.
  unfold webdavPut, bind. rewrite request_eq. cbv zeta.
  fold (putParams' path data).
  destruct (requestUrl _ (store c)) as [w [resp | e]]; [reflexivity |].
  simpl. destruct (is_404 e); reflexivity.
Qed.

Lemma is_2xx_spec r : is_2xx r = true <-> (200 <= status r < 300)%Z.
Proof. unfold is_2xx. rewrite andb_true_iff, Z.leb_le, Z.ltb_lt. tauto. Qed.

End ClientFacts.

(** C8. [webdavExists] returns a boolean on every path and every client
    state and never throws: it sends one [PROPFIND] with [Depth: 0]; its
    answer is [true] exactly when that request is answered, not failed,
    with a status from 200 to 299; and whatever error the request fails
    with, a 404 or any other, the answer is [false], so that an absent path
    and an unreachable store look the same to the caller. *)
Theorem C8_webdavExists_never_throws :
  forall (World : Type)
         (requestUrl : RequestParams -> World -> World * (Response + JsError))
         (settings : WebDAVUploaderSettings) (path : string) (c : Client World),
    let q := probeParams settings path in
    let r := snd (requestUrl q (store c)) in
    exists b : bool,
      webdavExists World requestUrl settings path c =
        (afterRequest c q (fst (requestUrl q (store c))) r, inl b)
      /\ (b = true <-> exists resp, r = inl resp /\ (200 <= status resp < 300)%Z)
      /\ (forall e, r = inr e -> b = false).
Proof.
  intros World requestUrl settings path c q r.
  exists (probeAnswer r). subst q r.
  rewrite webdavExists_eq.
  destruct (requestUrl (probeParams settings path) (store c)) as [w [resp | e]]; simpl.
  - split; [reflexivity |]. split.
    + rewrite is_2xx_spec. split.
      * intros H; exists resp; auto.
      * intros [resp' [E H]]. inversion E; subst; exact H.
    + intros e E; discriminate.
  - split; [reflexivity |]. split.
    + split; [discriminate |]. intros [resp [E _]]; discriminate.
    + reflexivity.
Qed.

(* ================================================================== *)
(** ** The upload orchestration *)

Create HintDb editor.

Section OrchestratorFacts.

Variable World : Type.
Variable requestUrl : RequestParams -> World -> World * (Response + JsError).
Variable path_dirname : string -> string.
Variable settings : WebDAVUploaderSettings.

Local Abbreviation M' := (M World).
Local Abbreviation request' := (request World requestUrl settings).
Local Abbreviation webdavExists' := (webdavExists World requestUrl settings).
Local Abbreviation webdavPut' := (webdavPut World requestUrl settings).
Local Abbreviation createDirectoryFrom' := (createDirectoryFrom World requestUrl settings).
Local Abbreviation webdavCreateDirectory' := (webdavCreateDirectory World requestUrl settings).
Local Abbreviation upload' := (upload World requestUrl settings).
Local Abbreviation resolve' := (resolve World requestUrl path_dirname settings).
Local Abbreviation perform' := (perform World requestUrl settings).
Local Abbreviation uploadFileBody' := (uploadFileBody World requestUrl path_dirname settings).
Local Abbreviation uploadFile' := (uploadFile World requestUrl path_dirname settings).
Local Abbreviation onDrop' := (onDrop World requestUrl path_dirname settings).

Lemma keepsEditor_ret A (a : A) : keepsEditor (ret World a).
Proof. intros c; reflexivity. Qed.

Lemma keepsEditor_throw A e : keepsEditor (@throw World A e).
Proof. intros c; reflexivity. Qed.

Lemma keepsEditor_bind A B (m : M' A) (k : A -> M' B) :
  keepsEditor m -> (forall a, keepsEditor (k a)) -> keepsEditor (bind World m k).
Proof.
  intros Hm Hk c. unfold bind. specialize (Hm c).
  destruct (m c) as [c' [a | e]]; simpl in *; [rewrite Hk |]; exact Hm.
Qed.

Lemma keepsEditor_when b (m : M' unit) : keepsEditor m -> keepsEditor (when World b m).
Proof. destruct b; simpl; [trivial | intros _; apply keepsEditor_ret]. Qed.

Lemma keepsEditor_newNotice n : keepsEditor (newNotice World n).
Proof. intros c; reflexivity. Qed.

Lemma keepsEditor_request method path headers data :
  keepsEditor (request' method path headers data).
Proof.
  intros c. rewrite request_eq. cbv zeta.
  destruct (requestUrl _ (store c)) as [w r]; reflexivity.
Qed.

Lemma keepsEditor_webdavExists path : keepsEditor (webdavExists' path).
Proof.
  intros c. rewrite webdavExists_eq.
  destruct (requestUrl _ (store c)) as [w r]; reflexivity.
Qed.

Lemma neverThrows_webdavExists path : neverThrows (webdavExists' path).
Proof.
  intros c. rewrite webdavExists_eq.
  destruct (requestUrl _ (store c)) as [w r]; eexists; reflexivity.
Qed.

Local Hint Resolve keepsEditor_ret keepsEditor_throw keepsEditor_bind keepsEditor_when
     keepsEditor_newNotice keepsEditor_request keepsEditor_webdavExists : editor.

Lemma keepsEditor_createDirectoryFrom parts :
  forall currentPath, keepsEditor (createDirectoryFrom' currentPath parts).
Proof.
  induction parts as [| part parts IH]; intros currentPath; simpl.
  - apply keepsEditor_ret.
  - apply keepsEditor_bind; [apply keepsEditor_webdavExists |]. intros b.
    apply keepsEditor_bind; [| intros _; apply IH].
    apply keepsEditor_when. auto with editor.
Qed.

Lemma keepsEditor_upload file remoteFilePath : keepsEditor (upload' file remoteFilePath).
Proof.
  unfold upload.
  apply keepsEditor_bind; [apply keepsEditor_webdavExists |]. intros b.
  apply keepsEditor_bind.
  { apply keepsEditor_when. apply keepsEditor_createDirectoryFrom. }
  intros _. apply keepsEditor_bind.
  { unfold readArrayBuffer. destruct (arrayBuffer file); auto with editor. }
  intros data. apply keepsEditor_bind; [apply keepsEditor_newNotice |].
  intros _. apply keepsEditor_bind; [| intros _; apply keepsEditor_newNotice].
  unfold webdavPut. auto with editor.
Qed.

(** Resolution returns and leaves the editor alone. *)
Lemma resolve_returns file activeFile c :
  exists r, snd (resolve' file activeFile c) = inl r
            /\ inserted (fst (resolve' file activeFile c)) = inserted c.
Proof.
  unfold resolve.
  destruct (pathMode settings); [eexists; split; reflexivity |].
  destruct (_ && _ && _); [| eexists; split; reflexivity].
  destruct (insideSyncFolder _ _); [| eexists; split; reflexivity].
  destruct (preferExistingLink settings); [| eexists; split; reflexivity].
  unfold bind. rewrite webdavExists_eq.
  destruct (requestUrl _ (store c)) as [w r].
  destruct (probeAnswer r); eexists; split; reflexivity.
Qed.

(** When the [try] block of [uploadFile] throws, nothing has been given
    to the editor. *)
Lemma uploadFileBody_throws_keeps file view c c' e :
  uploadFileBody' file view c = (c', inr e) -> inserted c' = inserted c.
Proof.
  unfold uploadFileBody.
  destruct (view_file view) as [activeFile |]; [| discriminate].
  unfold bind at 1.
  destruct (resolve_returns file activeFile c) as [r [Hr Hi]].
  destruct (resolve' file activeFile c) as [c1 [r1 | e1]]; simpl in Hr, Hi; [| discriminate].
  unfold perform.
  destruct (isLocalLink r1); [discriminate |].
  unfold bind.
  pose proof (keepsEditor_when (shouldUpload r1 && JS.truthy (remoteFilePath r1)) _
                (keepsEditor_upload file (remoteFilePath r1)) c1) as Hu.
  destruct (when World _ _ c1) as [c2 [u | e2]]; simpl in Hu.
  - destruct (JS.truthy (remoteFilePath r1)); discriminate.
  - intros E; inversion E; subst. congruence.
Qed.

(** [uploadFile] always returns: an error of its [try] block becomes a
    notice. *)
Lemma uploadFile_eq file view c :
  uploadFile' file view c =
  (match uploadFileBody' file view c with
   | (c', inl _) => c'
   | (c', inr e) => withNotice c' (UploadFailed (err_message e))
   end, inl tt).
Proof.
  unfold uploadFile, tryCatch.
  destruct (uploadFileBody' file view c) as [c' [[] | e]]; reflexivity.
Qed.


End OrchestratorFacts.


(** When the handling of a dropped file throws, in directory creation,
    in the upload or anywhere else in the [try] block, [uploadFile] still
    returns: the error is shown as the failure notice with its message and
    the editor has received nothing for that file. *)
Lemma thrown_error_becomes_notice_without_link :
  forall (World : Type)
         (requestUrl : RequestParams -> World -> World * (Response + JsError))
         (path_dirname : string -> string) (settings : WebDAVUploaderSettings)
         (file : File) (view : MarkdownView) (c c' : Client World) (e : JsError),
    uploadFileBody World requestUrl path_dirname settings file view c = (c', inr e) ->
    uploadFile World requestUrl path_dirname settings file view c =
      ({| store := store c'; requests := requests c'; inserted := inserted c;
          notices := notices c' ++ [UploadFailed (err_message e)] |}, inl tt).
Proof.
  intros World requestUrl path_dirname settings file view c c' e H.
  rewrite uploadFile_eq, H. unfold withNotice.
  rewrite (uploadFileBody_throws_keeps _ _ _ _ _ _ _ _ _ H). reflexivity.
Qed.

(** C10. In local mode a file without a local path (the property is absent
    or empty) is never given a local link, whatever the sync folder
    settings: its resolution makes no request and yields the path that
    [calculateRemotePath] computes in its note branch, from the folder of
    the active document, the mappings matched by [startsWith] and
    [rootFolder]; and the whole of [uploadFile] does what it does in note
    mode. *)
Theorem C10_local_mode_without_path_is_note_mode :
  forall (World : Type)
         (requestUrl : RequestParams -> World -> World * (Response + JsError))
         (path_dirname : string -> string) (s : WebDAVUploaderSettings)
         (name : string) (content : bytes + JsError) (noPath : bool)
         (activeFile : TFile) (view : MarkdownView) (c : Client World),
    let file := {| file_name := name;
                   file_path := if noPath then None else Some "";
                   arrayBuffer := content |} in
    let noteParentPath := noteParentPath_of activeFile in
    let remoteFolder :=
      match selectBest (matchesNote noteParentPath) (pathMappings s) with
      | Some bestMatch =>
          JS.strip_trailing_slash (remotePath bestMatch) ++ "/" ++
          JS.replace_seps (JS.strip_leading_sep
            (JS.slice noteParentPath (String.length (localPath bestMatch))))
      | None => NodePath.join (rootFolder s) noteParentPath
      end in
    resolve World requestUrl path_dirname (withPathMode local s) file activeFile c =
      (c, inl {| remoteFilePath := NodePath.join (ensureLeadingSlash remoteFolder) name;
                 shouldUpload := true; isLocalLink := false |})
    /\ uploadFile World requestUrl path_dirname (withPathMode local s) file view c =
       uploadFile World requestUrl path_dirname (withPathMode note s) file view c.
Proof.
  intros. subst file.
  assert (E : resolve World requestUrl path_dirname (withPathMode local s)
                {| file_name := name; file_path := if noPath then None else Some "";
                   arrayBuffer := content |} =
              resolve World requestUrl path_dirname (withPathMode note s)
                {| file_name := name; file_path := if noPath then None else Some "";
                   arrayBuffer := content |}).
  { unfold resolve, calculateRemotePath, remoteFolder_of, filePath_of.
    destruct noPath; simpl; rewrite ?andb_false_r; reflexivity. }
  split.
  - unfold resolve, calculateRemotePath, remoteFolder_of, filePath_of.
    destruct noPath; simpl; rewrite ?andb_false_r; reflexivity.
  - unfold uploadFile, uploadFileBody. rewrite E. reflexivity.
Qed.

(** The drop of the specification: [a.png] fails, its upload is refused
    with 409, and [b.png] succeeds.  The failure is shown for [a.png] and
    the only text inserted is the link to [b.png]. *)
Example drop_A_fails_B_succeeds :
  let (c, r) := onDrop RefStore.t RefStore.requestUrl NodePath.dirname Demo.settingsSync
                  (Some Demo.view) [Demo.fileA; Demo.fileB] (RefStore.fresh Demo.blocked) in
  r = inl tt
  /\ notices c = [Uploading "a.png"; UploadFailed "Request failed, status 409";
                  Uploading "b.png"; UploadSucceeded "b.png"]
  /\ inserted c = ["[b.png](https://dav.example.com/remote/y/b.png)" ++ newline]
  /\ RefStore.sent c =
       [("PROPFIND", "/remote/x/a.png"); ("PROPFIND", "/remote/x"); ("PUT", "/remote/x/a.png");
        ("PROPFIND", "/remote/y/b.png"); ("PROPFIND", "/remote/y");
        ("PROPFIND", "/remote"); ("PROPFIND", "/remote/y"); ("MKCOL", "/remote/y");
        ("PUT", "/remote/y/b.png")].
Proof. vm_compute. repeat split; reflexivity. Qed.

(** The drop of [a.png] above: the refused upload becomes a notice and
    the editor receives nothing. *)
Lemma refused_upload_becomes_notice :
  let body := uploadFileBody RefStore.t RefStore.requestUrl NodePath.dirname
                Demo.settingsSync Demo.fileA Demo.view (RefStore.fresh Demo.blocked) in
  uploadFile RefStore.t RefStore.requestUrl NodePath.dirname
    Demo.settingsSync Demo.fileA Demo.view (RefStore.fresh Demo.blocked) =
  ({| store := store (fst body); requests := requests (fst body); inserted := [];
      notices := notices (fst body) ++ [UploadFailed "Request failed, status 409"] |},
   inl tt).
Proof.
  exact (thrown_error_becomes_notice_without_link RefStore.t RefStore.requestUrl NodePath.dirname
           Demo.settingsSync Demo.fileA Demo.view (RefStore.fresh Demo.blocked)
           _ {| err_status := Some 409%Z; err_message := "Request failed, status 409" |}
           eq_refl).
Defined.

(** C4. Whether a dropped file is inside the sync folder is decided on the
    lower-cased, slash-normalized path and folder: the file is inside
    exactly when the folder, without its trailing separators, is a prefix
    of the path after both are so normalized; so [C:/Users/Me/Sync/a.png] is inside
    [c:/users/me/sync].  In local mode with both sync folders set, a file
    that has a path outside the sync folder gets the decision [LocalLink]:
    the notice is shown, the [file:///] link to the path is inserted, and
    neither the request log nor the store changes. *)
Theorem C4_outside_sync_folder_is_local_link :
  (forall s p,
      insideSyncFolder s p = true <->
      isPrefix (JS.toLowerCase (JS.replace_backslashes (JS.strip_trailing_seps (localSyncFolder s))))
               (JS.toLowerCase (JS.replace_backslashes p)))
  /\ insideSyncFolder Demo.settingsSync "C:/Users/Me/Sync/a.png" = true
  /\ forall (World : Type)
            (requestUrl : RequestParams -> World -> World * (Response + JsError))
            (path_dirname : string -> string) (s : WebDAVUploaderSettings)
            (file : File) (p : string) (activeFile : TFile) (view : MarkdownView)
            (c : Client World),
      pathMode s = local ->
      JS.truthy (localSyncFolder s) = true ->
      JS.truthy (remoteSyncFolder s) = true ->
      file_path file = Some p ->
      JS.truthy p = true ->
      insideSyncFolder s p = false ->
      view_file view = Some activeFile ->
      (exists r,
          resolve World requestUrl path_dirname s file activeFile c =
            (withNotice c OutsideSyncFolder, inl r)
          /\ decision r = Some LocalLink)
      /\ uploadFile World requestUrl path_dirname s file view c =
         (withInserted (withNotice c OutsideSyncFolder)
            ("[" ++ file_name file ++ "](file:///"
                 ++ JS.encodeURI (JS.replace_backslashes p) ++ ")" ++ newline),
          inl tt).
Proof.
  split; [| split].
  - intros s p. unfold insideSyncFolder, normalizedLocalSync. apply startsWith_spec.
  - reflexivity.
  - intros World requestUrl path_dirname s file p activeFile view c
           Hmode Hl Hr Hp Hp' Hout Hview.
    assert (E : resolve World requestUrl path_dirname s file activeFile c =
                (withNotice c OutsideSyncFolder,
                 inl {| remoteFilePath := ""; shouldUpload := false; isLocalLink := true |})).
    { unfold resolve, filePath_of. rewrite Hmode, Hl, Hr, Hp, Hp', Hout. reflexivity. }
    split.
    + eexists. split; [exact E | reflexivity].
    + unfold uploadFile, tryCatch, uploadFileBody. rewrite Hview.
      unfold bind. rewrite E. unfold perform, localLinkText, filePath_of. simpl.
      rewrite Hp. unfold replaceSelection, withInserted. simpl.
      repeat (rewrite append_assoc; simpl). reflexivity.
Qed.

(** C4 on a file dropped from another drive. *)
Lemma C4_witness_other_drive :
  uploadFile RefStore.t RefStore.requestUrl NodePath.dirname Demo.settingsSync
    Demo.fileOutside Demo.view (RefStore.fresh RefStore.empty) =
  (withInserted (withNotice (RefStore.fresh RefStore.empty) OutsideSyncFolder)
     ("[c.png](file:///D:/other/c.png)" ++ newline), inl tt).
Proof.
  exact (proj2 (proj2 (proj2 C4_outside_sync_folder_is_local_link)
                  RefStore.t RefStore.requestUrl NodePath.dirname Demo.settingsSync
                  Demo.fileOutside "D:\other\c.png" Demo.activeNote Demo.view
                  (RefStore.fresh RefStore.empty)
                  eq_refl eq_refl eq_refl eq_refl eq_refl eq_refl eq_refl)).
Defined.

(* ================================================================== *)
(** ** The mapping loops *)

Ltac split6 := split; [| split; [| split; [| split; [| split]]]].

Section MappingFacts.

Variable test : PathMapping -> bool.

Local Abbreviation step :=
  (fun bestMatch mapping => if test mapping then updateBest bestMatch mapping else bestMatch).

(** The loop from any value of [bestMatch]: either that value stays, and
    then every passing mapping is no longer than it, or a strictly longer
    mapping of the list replaces it, the first of the longest. *)
Lemma selectBest_from mappings :
  forall acc,
    (fold_left step mappings acc = acc
     /\ Forall (fun m' => test m' = true ->
                          exists b, acc = Some b /\ localLength m' <= localLength b) mappings)
    \/ (exists m before after,
           fold_left step mappings acc = Some m
           /\ mappings = (before ++ m :: after)%list
           /\ test m = true
           /\ (forall b, acc = Some b -> localLength b < localLength m)
           /\ Forall (fun m' => test m' = true -> localLength m' < localLength m) before
           /\ Forall (fun m' => test m' = true -> localLength m' <= localLength m) after).
Proof.
  induction mappings as [| m0 ms IH]; intros acc; simpl.
  - left. split; [reflexivity | constructor].
  - destruct (test m0) eqn:T.
    + (* [m0] passes: it may become the best match *)
      assert (New : (forall b, acc = Some b -> localLength b < localLength m0) ->
                    fold_left step ms (Some m0) = fold_left step ms (updateBest acc m0)).
      { intros H. unfold updateBest. destruct acc as [b |]; [| reflexivity].
        specialize (H b eq_refl). apply Nat.ltb_lt in H.
        unfold localLength in H. rewrite H. reflexivity. }
      assert (Old : forall b, acc = Some b -> localLength m0 <= localLength b ->
                              updateBest acc m0 = acc).
      { intros b -> H. unfold updateBest. apply Nat.ltb_ge in H.
        unfold localLength in H. rewrite H. reflexivity. }
      assert (Cases : (forall b, acc = Some b -> localLength b < localLength m0)
                      \/ (exists b, acc = Some b /\ localLength m0 <= localLength b)).
      { destruct acc as [b |].
        - destruct (Nat.lt_ge_cases (localLength b) (localLength m0)) as [L | L].
          + left. intros b' Eb; inversion Eb; subst; exact L.
          + right. exists b. auto.
        - left. intros b' Eb; discriminate. }
      destruct Cases as [L | [b [Eb L]]].
      * right. rewrite <- (New L).
        destruct (IH (Some m0)) as [[E F] | [m [before [after [E [D [Tm [B [Fb Fa]]]]]]]]].
        -- exists m0, [], ms.
           split6; [exact E | reflexivity | exact T | exact L | constructor |].
           eapply Forall_impl; [| exact F]. simpl. intros m' H Tm'.
           destruct (H Tm') as [b' [Eb' Hb]]. inversion Eb'; subst. exact Hb.
        -- exists m, (m0 :: before), after.
           split6; [exact E | rewrite D; reflexivity | exact Tm | | | exact Fa].
           ++ intros b' Eb'. specialize (L b' Eb'). specialize (B m0 eq_refl). lia.
           ++ constructor; [intros _; apply B; reflexivity | exact Fb].
      * rewrite (Old b Eb L).
        destruct (IH acc) as [[E F] | [m [before [after [E [D [Tm [B [Fb Fa]]]]]]]]].
        -- left. split; [exact E |]. constructor; [| exact F].
           intros _. exists b. auto.
        -- right. exists m, (m0 :: before), after.
           split6; [exact E | rewrite D; reflexivity | exact Tm | exact B | | exact Fa].
           constructor; [| exact Fb]. intros _. specialize (B b Eb). lia.
    + destruct (IH acc) as [[E F] | [m [before [after [E [D [Tm [B [Fb Fa]]]]]]]]].
      * left. split; [exact E |]. constructor; [| exact F].
        intros T'; congruence.
      * right. exists m, (m0 :: before), after.
        split6; [exact E | rewrite D; reflexivity | exact Tm | exact B | | exact Fa].
        constructor; [intros T'; congruence | exact Fb].
Qed.

Lemma selectBest_selectsLongest mappings : selectsLongest test mappings.
Proof.
  unfold selectsLongest, selectBest.
  destruct (selectBest_from mappings None)
    as [[E F] | [m [before [after [E [D [Tm [B [Fb Fa]]]]]]]]].
  - rewrite E. eapply Forall_impl; [| exact F]. simpl. intros m' H.
    destruct (test m'); [| reflexivity].
    destruct (H eq_refl) as [b [Eb _]]; discriminate.
  - rewrite E. exists before, after. auto.
Qed.

End MappingFacts.

(** C2. In both mapping loops of [calculateRemotePath], the note loop on
    the folder [noteParentPath] and the local loop on the folder
    [fileDir], the mapping selected is one that matches and whose
    [localPath] is at least as long as that of every other matching
    mapping of the list, in whatever order the mappings are configured;
    among matching mappings of that greatest length the first one is
    taken.  No mapping is selected only when none matches. *)
Theorem C2_longest_matching_mapping_wins :
  forall (mappings : list PathMapping) (noteParentPath fileDir : string),
    selectsLongest (matchesNote noteParentPath) mappings
    /\ selectsLongest (matchesLocal fileDir) mappings.
Proof.
  intros. split; apply selectBest_selectsLongest.
Qed.

(** Two mappings, one [localPath] a proper prefix of the other, both
    matching the folder of the note: the longer one is taken in either
    order of configuration. *)
Example longer_of_two_prefixes_wins :
  let short := {| localPath := "notes"; remotePath := "/short" |} in
  let long := {| localPath := "notes/sub"; remotePath := "/long" |} in
  selectBest (matchesNote "notes/sub/deep") [short; long] = Some long
  /\ selectBest (matchesNote "notes/sub/deep") [long; short] = Some long
  /\ selectBest (matchesLocal "C:/vault/notes/sub") [short; long] = Some long
  /\ selectBest (matchesLocal "C:/vault/notes/sub") [long; short] = Some long.
Proof. repeat split; reflexivity. Qed.

(** C9. The two loops test differently.  In note mode a mapping matches
    exactly when its [localPath], as configured, is a prefix of the folder
    path of the active document, as Obsidian gives it.  In the local
    fallback, the one taken in local mode for a file with a path when the
    sync folder is not in play, a mapping matches exactly when its
    [localPath] with backslashes turned into slashes occurs anywhere in the
    normalized directory of the dropped file.  The remote folder follows
    from the selection under these tests, and a mapping can match in the
    local fallback where it does not in note mode. *)
Theorem C9_prefix_in_note_mode_substring_in_local_fallback :
  (forall noteParentPath m,
      matchesNote noteParentPath m = true <-> isPrefix (localPath m) noteParentPath)
  /\ (forall fileDir m,
         matchesLocal fileDir m = true <->
         isInfix (JS.replace_backslashes (localPath m)) fileDir)
  /\ (forall path_dirname s activeFile filePath,
         let noteParentPath := noteParentPath_of activeFile in
         remoteFolder_of path_dirname (withPathMode note s) activeFile filePath =
         match selectBest (matchesNote noteParentPath) (pathMappings s) with
         | Some bestMatch =>
             JS.strip_trailing_slash (remotePath bestMatch) ++ "/" ++
             JS.replace_seps (JS.strip_leading_sep
               (JS.slice noteParentPath (String.length (localPath bestMatch))))
         | None => NodePath.join (rootFolder s) noteParentPath
         end)
  /\ (forall path_dirname s activeFile ch rest,
         let filePath := String ch rest in
         let fileDir := JS.replace_backslashes (path_dirname filePath) in
         remoteFolder_of path_dirname (withPathMode local s) activeFile filePath =
         match selectBest (matchesLocal fileDir) (pathMappings s) with
         | Some bestMatch => remotePath bestMatch
         | None => rootFolder s
         end)
  /\ (let m := {| localPath := "notes"; remotePath := "/n" |} in
      matchesLocal "vault/notes" m = true /\ matchesNote "vault/notes" m = false).
Proof.
  split; [| split; [| split; [| split]]].
  - intros. apply startsWith_spec.
  - intros. apply includes_spec.
  - reflexivity.
  - reflexivity.
  - split; reflexivity.
Qed.

(* ================================================================== *)
(** ** Directory creation *)

Section DirectoryFacts.

Variable World : Type.
Variable requestUrl : RequestParams -> World -> World * (Response + JsError).
Variable settings : WebDAVUploaderSettings.

Local Abbreviation M' := (M World).
Local Abbreviation webdavExists' := (webdavExists World requestUrl settings).
Local Abbreviation createDirectoryFrom' := (createDirectoryFrom World requestUrl settings).
Local Abbreviation webdavCreateDirectory' := (webdavCreateDirectory World requestUrl settings).
Local Abbreviation ensureDirectory' := (ensureDirectory World requestUrl settings).
Local Abbreviation probeParams' := (probeParams settings).
Local Abbreviation mkcolParams' := (mkcolParams settings).
Local Abbreviation present' := (present requestUrl settings).
Local Abbreviation probeEntry' := (probeEntry requestUrl settings).
Local Abbreviation ensureAll := (fun paths => forEach World paths ensureDirectory').

(** The loop with its accumulator is the round [ensureDirectory] run on
    the prefixes in order. *)
Lemma createDirectoryFrom_prefixes parts :
  forall currentPath c,
    createDirectoryFrom' currentPath parts c = ensureAll (prefixesFrom currentPath parts) c.
Proof.
  induction parts as [| part parts IH]; intros currentPath c; simpl; [reflexivity |].
  unfold ensureDirectory, bind.
  destruct (webdavExists' _ c) as [c1 [b | e]]; [| reflexivity].
  destruct (when World (negb b) _ c1) as [c2 [[] | e]]; [apply IH | reflexivity].
Qed.

Lemma ensureDirectory_eq path c :
  ensureDirectory' path c =
  let (w, r) := requestUrl (probeParams' path) (store c) in
  let c1 := afterRequest c (probeParams' path) w r in
  if probeAnswer r then (c1, inl tt)
  else
    let (w2, r2) := requestUrl (mkcolParams' path) w in
    (afterRequest c1 (mkcolParams' path) w2 r2,
     match r2 with
     | inl _ => inl tt
     | inr e => if is_404 e then inl tt else inr e
     end).
Proof.
  unfold ensureDirectory, bind. rewrite webdavExists_eq.
  destruct (requestUrl (probeParams' path) (store c)) as [w r]. cbv zeta.
  destruct (probeAnswer r); simpl; [reflexivity |].
  unfold bind. rewrite request_eq. cbv zeta. fold (mkcolParams' path). simpl.
  destruct (requestUrl (mkcolParams' path) w) as [w2 [resp | e]]; [reflexivity |].
  destruct (is_404 e); reflexivity.
Qed.

Hypothesis laws : StoreLaws requestUrl settings.

(** One round never makes an existing path disappear. *)
Lemma ensureDirectory_monotone path c path' :
  present' (store c) path' = true ->
  present' (store (fst (ensureDirectory' path c))) path' = true.
Proof.
  intros H. rewrite ensureDirectory_eq.
  pose proof (probe_reads_only _ _ _ laws path (store c)) as P.
  destruct (requestUrl (probeParams' path) (store c)) as [w r]. simpl in P. subst w.
  cbv zeta. destruct (probeAnswer r); [exact H |].
  pose proof (mkcol_keeps _ _ _ laws path path' (store c) H) as K.
  destruct (requestUrl (mkcolParams' path) (store c)) as [w2 r2]. exact K.
Qed.

(** One round on a path that exists: one probe, nothing else. *)
Lemma ensureDirectory_present path c :
  present' (store c) path = true ->
  ensureDirectory' path c =
  ({| store := store c; requests := requests c ++ [probeEntry' (store c) path];
      inserted := inserted c; notices := notices c |}, inl tt).
Proof.
  intros H. rewrite ensureDirectory_eq. unfold present in H.
  unfold probeEntry.
  pose proof (probe_reads_only _ _ _ laws path (store c)) as P.
  destruct (requestUrl (probeParams' path) (store c)) as [w r]. simpl in *. subst w.
  rewrite H. reflexivity.
Qed.

(** What a run over [paths] leaves: the paths that existed still exist;
    if it returned, all of [paths] exist; if it threw, it stopped at a path
    that is still absent and whose creation fails in the store it left. *)
Lemma ensureAll_outcome paths :
  forall c,
    let c1 := fst (ensureAll paths c) in
    (forall path', present' (store c) path' = true -> present' (store c1) path' = true)
    /\ match snd (ensureAll paths c) with
       | inl _ => Forall (fun path => present' (store c1) path = true) paths
       | inr e =>
           exists done path rest,
             paths = (done ++ path :: rest)%list
             /\ Forall (fun path => present' (store c1) path = true) done
             /\ present' (store c1) path = false
             /\ requestUrl (mkcolParams' path) (store c1) = (store c1, inr e)
             /\ is_404 e = false
       end.
Proof.
  induction paths as [| path paths IH]; intros c; cbn [forEach].
  - simpl. split; [auto | constructor].
  - unfold bind.
    pose proof (ensureDirectory_monotone path c) as Mono.
    pose proof (ensureDirectory_eq path c) as E.
    pose proof (probe_reads_only _ _ _ laws path (store c)) as P.
    destruct (requestUrl (probeParams' path) (store c)) as [w r] eqn:Q.
    simpl in P. subst w. cbv zeta in E.
    assert (Pr : present' (store c) path = probeAnswer r).
    { unfold present. rewrite Q. reflexivity. }
    destruct (probeAnswer r) eqn:A.
    + (* the path exists *)
      rewrite E in *. simpl in Mono.
      specialize (IH (afterRequest c (probeParams' path) (store c) r)).
      cbv zeta in IH. simpl store in IH at 1. destruct IH as [I1 I2].
      destruct (ensureAll paths (afterRequest c (probeParams' path) (store c) r))
        as [c1 [[] | e]]; simpl in *.
      * split; [exact I1 |]. constructor; [apply I1; exact Pr | exact I2].
      * split; [exact I1 |].
        destruct I2 as [done [p [rest [D [Fd [Ab [Rq N4]]]]]]].
        exists (path :: done), p, rest.
        split; [rewrite D; reflexivity |].
        split; [constructor; [apply I1; exact Pr | exact Fd] |]. auto.
    + (* the path is absent: it is created *)
      pose proof (mkcol_failure_changes_nothing _ _ _ laws path (store c)) as F1.
      pose proof (mkcol_failure_is_not_404 _ _ _ laws path (store c)) as F2.
      pose proof (mkcol_creates _ _ _ laws path (store c)) as F3.
      destruct (requestUrl (mkcolParams' path) (store c)) as [w2 [resp | e]] eqn:Q2;
        simpl in F1, F2, F3.
      * rewrite E in *. simpl in Mono.
        specialize (IH (afterRequest (afterRequest c (probeParams' path) (store c) r)
                                     (mkcolParams' path) w2 (inl resp))).
        cbv zeta in IH. simpl store in IH at 1. destruct IH as [I1 I2].
        specialize (F3 resp eq_refl).
        destruct (ensureAll paths
                    (afterRequest (afterRequest c (probeParams' path) (store c) r)
                                  (mkcolParams' path) w2 (inl resp)))
          as [c1 [[] | e]]; simpl in *.
        -- split; [intros p' Hp'; apply I1, Mono, Hp' |].
           constructor; [apply I1; exact F3 | exact I2].
        -- split; [intros p' Hp'; apply I1, Mono, Hp' |].
           destruct I2 as [done [p [rest [D [Fd [Ab [Rq N4]]]]]]].
           exists (path :: done), p, rest.
           split; [rewrite D; reflexivity |].
           split; [constructor; [apply I1; exact F3 | exact Fd] |]. auto.
      * specialize (F1 e eq_refl). specialize (F2 e eq_refl). subst w2.
        rewrite E in *. rewrite F2 in *. simpl in *.
        split; [exact Mono |].
        exists [], path, paths.
        split; [reflexivity |]. split; [constructor |].
        split; [exact Pr |]. split; [exact Q2 | exact F2].
Qed.

(** A run over paths that all exist: one probe each, nothing else. *)
Lemma ensureAll_present paths :
  forall c,
    Forall (fun path => present' (store c) path = true) paths ->
    ensureAll paths c =
    ({| store := store c;
        requests := requests c ++ List.map (probeEntry' (store c)) paths;
        inserted := inserted c; notices := notices c |}, inl tt).
Proof.
  induction paths as [| path paths IH]; intros c H; cbn [forEach].
  - unfold ret. simpl. rewrite app_nil_r. destruct c; reflexivity.
  - inversion H as [| ? ? Hp Hps]; subst.
    unfold bind. rewrite (ensureDirectory_present path c Hp).
    rewrite IH; [| exact Hps]. simpl. rewrite <- app_assoc. reflexivity.
Qed.

(** A run that meets an absent path whose creation fails: it throws the
    error of the creation and leaves the store as it was. *)
Lemma ensureAll_stuck done :
  forall path rest c e,
    Forall (fun path => present' (store c) path = true) done ->
    present' (store c) path = false ->
    requestUrl (mkcolParams' path) (store c) = (store c, inr e) ->
    is_404 e = false ->
    snd (ensureAll (done ++ path :: rest)%list c) = inr e
    /\ store (fst (ensureAll (done ++ path :: rest)%list c)) = store c.
Proof.
  induction done as [| d done IH]; intros path rest c e Hd Hp Hq H4; cbn [app forEach].
  - unfold bind. rewrite ensureDirectory_eq.
    pose proof (probe_reads_only _ _ _ laws path (store c)) as P.
    unfold present in Hp.
    destruct (requestUrl (probeParams' path) (store c)) as [w r]. simpl in P, Hp. subst w.
    cbv zeta. rewrite Hp, Hq, H4. split; reflexivity.
  - inversion Hd as [| ? ? Hd1 Hd2]; subst.
    unfold bind. rewrite (ensureDirectory_present d c Hd1). cbv beta iota.
    exact (IH path rest
             {| store := store c; requests := requests c ++ [probeEntry' (store c) d];
                inserted := inserted c; notices := notices c |} e Hd2 Hp Hq H4).
Qed.

End DirectoryFacts.

(** C5. [webdavCreateDirectory] takes the non-empty segments of its path
    and, for each prefix from the root to the leaf in turn, probes it and
    sends [MKCOL] only when the probe says it is absent.  On a store where
    probes read only, a failed [MKCOL] changes nothing and is not a 404, a
    created path exists and existing paths stay, a second call right after
    the first leaves the store as the first call left it and ends as the
    first did; and when the first call returned, every prefix exists and
    the second call sends one probe per prefix and no [MKCOL] at all, so
    that nothing is created twice. *)
Theorem C5_createDirectory_is_idempotent :
  forall (World : Type)
         (requestUrl : RequestParams -> World -> World * (Response + JsError))
         (settings : WebDAVUploaderSettings) (path : string) (c : Client World),
    StoreLaws requestUrl settings ->
    webdavCreateDirectory World requestUrl settings path c =
      forEach World (directoryPrefixes path) (ensureDirectory World requestUrl settings) c
    /\ let first := webdavCreateDirectory World requestUrl settings path c in
       let second := webdavCreateDirectory World requestUrl settings path (fst first) in
       store (fst second) = store (fst first)
       /\ snd second = snd first
       /\ (snd first = inl tt ->
           Forall (fun prefix => present requestUrl settings (store (fst first)) prefix = true)
                  (directoryPrefixes path)
           /\ fst second =
              {| store := store (fst first);
                 requests := requests (fst first) ++
                             List.map (probeEntry requestUrl settings (store (fst first)))
                                      (directoryPrefixes path);
                 inserted := inserted (fst first);
                 notices := notices (fst first) |}).
Proof.
  intros World requestUrl settings path c laws.
  assert (E : forall c', webdavCreateDirectory World requestUrl settings path c' =
                         forEach World (directoryPrefixes path)
                                 (ensureDirectory World requestUrl settings) c').
  { intros c'. unfold webdavCreateDirectory, directoryPrefixes.
    apply createDirectoryFrom_prefixes. }
  split; [apply E |]. cbv zeta. rewrite !E.
  destruct (ensureAll_outcome World requestUrl settings laws (directoryPrefixes path) c)
    as [_ Out].
  destruct (forEach World (directoryPrefixes path) _ c) as [c1 [[] | e]]; simpl in *.
  - rewrite (ensureAll_present World requestUrl settings laws _ c1 Out). simpl.
    repeat split; auto.
  - destruct Out as [done [p [rest [D [Fd [Ab [Rq N4]]]]]]]. rewrite D.
    destruct (ensureAll_stuck World requestUrl settings laws done p rest c1 e Fd Ab Rq N4)
      as [S1 S2].
    split; [exact S2 |]. split; [exact S1 | discriminate].
Qed.

(** The reference store obeys the laws, for settings whose endpoint is
    its base. *)
Lemma RefStore_laws settings :
  JS.strip_trailing_slash (webdavUrl settings) = RefStore.base ->
  StoreLaws RefStore.requestUrl settings.
Proof.
  intros B.
  assert (Pr : forall w path,
             present RefStore.requestUrl settings w path = RefStore.present w path).
  { intros w path. unfold present, probeParams, requestParams, RefStore.requestUrl.
    simpl. rewrite B. simpl. destruct (RefStore.present w path); reflexivity. }
  constructor.
  - intros path w. unfold probeParams, requestParams, RefStore.requestUrl.
    simpl. rewrite B. simpl. destruct (RefStore.present w path); reflexivity.
  - intros path w e. unfold mkcolParams, requestParams, RefStore.requestUrl.
    simpl. rewrite B. simpl.
    destruct (RefStore.present w path); [reflexivity |].
    destruct (RefStore.isCollection w (NodePath.dirname path)); [discriminate | reflexivity].
  - intros path w e. unfold mkcolParams, requestParams, RefStore.requestUrl.
    simpl. rewrite B. simpl.
    destruct (RefStore.present w path); [intros E; inversion E; reflexivity |].
    destruct (RefStore.isCollection w (NodePath.dirname path));
      [discriminate | intros E; inversion E; reflexivity].
  - intros path w resp. rewrite Pr.
    unfold mkcolParams, requestParams, RefStore.requestUrl.
    simpl. rewrite B. simpl.
    destruct (RefStore.present w path); [discriminate |].
    destruct (RefStore.isCollection w (NodePath.dirname path)); [| discriminate].
    intros _. simpl. unfold RefStore.present, RefStore.isCollection. simpl.
    rewrite existsb_app. simpl. rewrite String.eqb_refl.
    rewrite !orb_true_r. reflexivity.
  - intros path path' w. rewrite !Pr. intros H.
    unfold mkcolParams, requestParams, RefStore.requestUrl.
    simpl. rewrite B. simpl.
    destruct (RefStore.present w path); [exact H |].
    destruct (RefStore.isCollection w (NodePath.dirname path)); [| exact H].
    simpl. unfold RefStore.present, RefStore.isCollection, RefStore.isResource in *.
    simpl. rewrite existsb_app.
    destruct (String.eqb path' "/" || String.eqb path' "" ||
              existsb (String.eqb path') (RefStore.collections w)) eqn:C.
    + apply orb_true_iff in C. destruct C as [C | C].
      * rewrite C. reflexivity.
      * rewrite C. rewrite !orb_true_r. reflexivity.
    + simpl in H. rewrite H. apply orb_true_r.
Qed.

(** C5 on the reference store: three levels created from nothing, then
    asked for again. *)
Lemma C5_witness_on_reference_store :
  let first := webdavCreateDirectory RefStore.t RefStore.requestUrl Demo.settingsSync
                 "/remote/x/y" (RefStore.fresh RefStore.empty) in
  let second := webdavCreateDirectory RefStore.t RefStore.requestUrl Demo.settingsSync
                  "/remote/x/y" (fst first) in
  store (fst second) = store (fst first)
  /\ snd second = snd first
  /\ Forall (fun prefix =>
               present RefStore.requestUrl Demo.settingsSync (store (fst first)) prefix = true)
            (directoryPrefixes "/remote/x/y")
  /\ fst second =
     {| store := store (fst first);
        requests := requests (fst first) ++
                    List.map (probeEntry RefStore.requestUrl Demo.settingsSync
                                         (store (fst first)))
                             (directoryPrefixes "/remote/x/y");
        inserted := inserted (fst first);
        notices := notices (fst first) |}.
Proof.
  destruct (proj2 (C5_createDirectory_is_idempotent RefStore.t RefStore.requestUrl
                     Demo.settingsSync "/remote/x/y" (RefStore.fresh RefStore.empty)
                     (RefStore_laws Demo.settingsSync eq_refl)))
    as [H1 [H2 H3]].
  split; [exact H1 |]. split; [exact H2 |]. exact (H3 eq_refl).
Defined.

(** The run of the witness: each level is probed and created, and the
    second call only probes. *)
Example createDirectory_twice :
  let first := webdavCreateDirectory RefStore.t RefStore.requestUrl Demo.settingsSync
                 "/remote/x/y" (RefStore.fresh RefStore.empty) in
  let second := webdavCreateDirectory RefStore.t RefStore.requestUrl Demo.settingsSync
                  "/remote/x/y" (RefStore.fresh (store (fst first))) in
  RefStore.sent (fst first) =
    [("PROPFIND", "/remote"); ("MKCOL", "/remote");
     ("PROPFIND", "/remote/x"); ("MKCOL", "/remote/x");
     ("PROPFIND", "/remote/x/y"); ("MKCOL", "/remote/x/y")]
  /\ RefStore.collections (store (fst first)) = ["/remote"; "/remote/x"; "/remote/x/y"]
  /\ RefStore.sent (fst second) =
       [("PROPFIND", "/remote"); ("PROPFIND", "/remote/x"); ("PROPFIND", "/remote/x/y")]
  /\ store (fst second) = store (fst first)
  /\ snd first = inl tt /\ snd second = inl tt.
Proof. vm_compute. repeat split; reflexivity. Qed.

(* ================================================================== *)
(** ** The existence probe of [preferExistingLink] *)

(** Inside the sync folder [preferExistingLink] is honoured: the remote
    path is probed once; on a positive answer nothing is to be uploaded and
    the notice is shown, on a negative one the file is to be uploaded. *)
Lemma sync_branch_probes_remote_path :
  forall (World : Type)
         (requestUrl : RequestParams -> World -> World * (Response + JsError))
         (path_dirname : string -> string) (s : WebDAVUploaderSettings)
         (file : File) (p : string) (activeFile : TFile) (c : Client World),
    pathMode s = local ->
    JS.truthy (localSyncFolder s) = true ->
    JS.truthy (remoteSyncFolder s) = true ->
    file_path file = Some p ->
    JS.truthy p = true ->
    insideSyncFolder s p = true ->
    preferExistingLink s = true ->
    let q := probeParams s (syncRemotePath s p) in
    let probed := afterRequest c q (fst (requestUrl q (store c))) (snd (requestUrl q (store c))) in
    resolve World requestUrl path_dirname s file activeFile c =
      if probeAnswer (snd (requestUrl q (store c)))
      then (withNotice probed (AlreadyInCloud (file_name file)),
            inl {| remoteFilePath := syncRemotePath s p; shouldUpload := false;
                   isLocalLink := false |})
      else (probed,
            inl {| remoteFilePath := syncRemotePath s p; shouldUpload := true;
                   isLocalLink := false |}).
Proof.
  intros World requestUrl path_dirname s file p activeFile c
         Hmode Hl Hr Hp Hp' Hin Hpref q probed.
  unfold resolve, filePath_of. rewrite Hmode, Hl, Hr, Hp, Hp', Hin, Hpref. simpl.
  unfold bind. rewrite webdavExists_eq. subst probed q.
  destruct (requestUrl _ (store c)) as [w r]. simpl.
  destruct (probeAnswer r); reflexivity.
Qed.

(** Outside the sync-folder branch the setting is not looked at: in the
    local fallback, as in note mode, resolution makes no request and asks
    for the upload. *)
Lemma fallback_never_probes :
  forall (World : Type)
         (requestUrl : RequestParams -> World -> World * (Response + JsError))
         (path_dirname : string -> string) (s : WebDAVUploaderSettings)
         (file : File) (activeFile : TFile) (c : Client World),
    JS.truthy (localSyncFolder s) && JS.truthy (remoteSyncFolder s)
      && JS.truthy (filePath_of file) = false ->
    resolve World requestUrl path_dirname s file activeFile c =
      (c, inl {| remoteFilePath :=
                   calculateRemotePath path_dirname s file activeFile (filePath_of file);
                 shouldUpload := true; isLocalLink := false |}).
Proof.
  intros World requestUrl path_dirname s file activeFile c H.
  unfold resolve. rewrite H. destruct (pathMode s); reflexivity.
Qed.

(** C1, on the code.  In note mode resolution makes no request at all and
    always asks for the upload, whatever [preferExistingLink] says.  On the
    store that already holds [/docs/notes/a.png], with the setting on, the
    drop of [a.png] into a note of [notes] probes the folder only, puts the
    file again and replaces what the store had. *)
Theorem C1_note_mode_uploads_without_probe :
  (forall (World : Type)
          (requestUrl : RequestParams -> World -> World * (Response + JsError))
          (path_dirname : string -> string) (s : WebDAVUploaderSettings)
          (file : File) (activeFile : TFile) (c : Client World),
      resolve World requestUrl path_dirname (withPathMode note s) file activeFile c =
        (c, inl {| remoteFilePath :=
                     calculateRemotePath path_dirname (withPathMode note s) file activeFile
                                         (filePath_of file);
                   shouldUpload := true; isLocalLink := false |}))
  /\ (let c := fst (uploadFile RefStore.t RefStore.requestUrl NodePath.dirname
                      Demo.settingsNote Demo.fileA Demo.view
                      (RefStore.fresh Demo.alreadyThere)) in
      preferExistingLink Demo.settingsNote = true
      /\ RefStore.present Demo.alreadyThere "/docs/notes/a.png" = true
      /\ RefStore.sent c = [("PROPFIND", "/docs/notes"); ("PUT", "/docs/notes/a.png")]
      /\ notices c = [Uploading "a.png"; UploadSucceeded "a.png"]
      /\ RefStore.resources (store c) = [("/docs/notes/a.png", Demo.content)]
      /\ inserted c = ["[a.png](https://dav.example.com/docs/notes/a.png)" ++ newline]).
Proof.
  split.
  - reflexivity.
  - vm_compute. repeat split; reflexivity.
Qed.

(* ================================================================== *)
(** ** Normalized paths *)

Section PathFacts.

Lemma startsWith_slash s : JS.startsWith s "/" = headIsSlash s.
Proof. destruct s as [| c s]; simpl; [reflexivity |]. apply andb_true_r. Qed.

Lemma includes_double_slash s : JS.includes s "//" = hasDoubleSlash s.
Proof.
  induction s as [| a s IH]; [reflexivity |].
  cbn [JS.includes hasDoubleSlash]. rewrite IH. f_equal.
  simpl. destruct s as [| b s]; simpl; [reflexivity |].
  rewrite andb_true_r. reflexivity.
Qed.

Lemma includes_char s c :
  JS.includes s (String c EmptyString) = negb (every (fun d => negb (Ascii.eqb d c)) s).
Proof.
  induction s as [| a s IH]; [reflexivity |].
  cbn [JS.includes every]. rewrite IH. simpl.
  rewrite andb_true_r, negb_andb, negb_involutive. reflexivity.
Qed.

Lemma noBackslash_every s : noBackslash s <-> every notBackslash s = true.
Proof.
  unfold noBackslash. change "\" with (String JS.backslash EmptyString).
  rewrite includes_char, negb_false_iff. reflexivity.
Qed.

Lemma every_append f a b : every f (a ++ b) = every f a && every f b.
Proof.
  induction a as [| x a IH]; simpl; [reflexivity |].
  rewrite IH. apply andb_assoc.
Qed.

Lemma endsWith_slash_append a b :
  JS.endsWith_slash (a ++ b) =
  match b with EmptyString => JS.endsWith_slash a | String _ _ => JS.endsWith_slash b end.
Proof.
  unfold JS.endsWith_slash. destruct b as [| y b].
  - rewrite append_nil_r. reflexivity.
  - induction a as [| x a IH]; [reflexivity |].
    cbn [append JS.last]. destruct (a ++ String y b) eqn:E.
    + destruct a; discriminate.
    + exact IH.
Qed.

Lemma headIsSlash_append a b :
  headIsSlash (a ++ b) =
  match a with EmptyString => headIsSlash b | String _ _ => headIsSlash a end.
Proof. destruct a; reflexivity. Qed.

Lemma hasDoubleSlash_append a b :
  hasDoubleSlash (a ++ b) =
  hasDoubleSlash a || hasDoubleSlash b || JS.endsWith_slash a && headIsSlash b.
Proof.
  induction a as [| x a IH]; simpl.
  - rewrite orb_false_r. reflexivity.
  - rewrite IH, headIsSlash_append. unfold JS.endsWith_slash. cbn [JS.last].
    destruct a as [| y a]; simpl.
    + destruct (JS.is_slash x), (headIsSlash b), (hasDoubleSlash b); reflexivity.
    + destruct (JS.is_slash x && JS.is_slash y), (hasDoubleSlash (String y a)),
        (hasDoubleSlash b); reflexivity.
Qed.

(** A string without slashes has none at its ends and no two in a row. *)
Lemma notSlash_head s : every notSlash s = true -> headIsSlash s = false.
Proof.
  destruct s as [| c s]; simpl; [reflexivity |].
  unfold notSlash. destruct (JS.is_slash c); [discriminate | reflexivity].
Qed.

Lemma notSlash_last s : every notSlash s = true -> JS.endsWith_slash s = false.
Proof.
  unfold JS.endsWith_slash. induction s as [| c s IH]; [reflexivity |].
  cbn [every JS.last]. rewrite andb_true_iff. intros [Hc Hs].
  destruct s as [| d s]; [| exact (IH Hs)].
  unfold notSlash in Hc. destruct (JS.is_slash c); [discriminate | reflexivity].
Qed.

Lemma notSlash_double s : every notSlash s = true -> hasDoubleSlash s = false.
Proof.
  induction s as [| c s IH]; [reflexivity |].
  cbn [every hasDoubleSlash]. rewrite andb_true_iff. intros [Hc Hs].
  rewrite (IH Hs). unfold notSlash in Hc.
  destruct (JS.is_slash c); [discriminate | reflexivity].
Qed.

(** The segments [split('/')] gives have no slash, and keep what holds
    of every code unit of the string. *)
Lemma split_slash_segments f s :
  every f s = true ->
  Forall (fun seg => every f seg = true /\ every notSlash seg = true) (JS.split_slash s).
Proof.
  induction s as [| c s IH]; simpl.
  - intros _. constructor; [split; reflexivity | constructor].
  - rewrite andb_true_iff. intros [Hc Hs]. specialize (IH Hs).
    destruct (JS.is_slash c) eqn:C.
    + constructor; [split; reflexivity | exact IH].
    + destruct (JS.split_slash s) as [| seg segs].
      * constructor; [| constructor]. simpl. unfold notSlash. rewrite Hc, C. auto.
      * inversion IH as [| ? ? [H1 H2] H3]; subst.
        constructor; [| exact H3]. simpl. unfold notSlash in *. rewrite Hc, C, H1, H2. auto.
Qed.

Section Normalize.

(** A property of code units that the slash and the dot have. *)
Variable f : ascii -> bool.
Hypothesis f_slash : f "/"%char = true.
Hypothesis f_dot : f "."%char = true.

Lemma normalizeStep_kept allowAboveRoot res seg :
  every f seg = true -> every notSlash seg = true ->
  Forall (kept f) res -> Forall (kept f) (NodePath.normalizeStep allowAboveRoot res seg).
Proof.
  intros Hf Hs Hres. unfold NodePath.normalizeStep.
  destruct (String.eqb seg "") eqn:E; [exact Hres |].
  apply String.eqb_neq in E.
  assert (K : kept f seg) by (repeat split; assumption).
  destruct (String.eqb seg "."); simpl; [exact Hres |].
  destruct (NodePath.is_dotdot seg).
  - destruct res as [| top res'].
    + destruct allowAboveRoot; constructor; auto.
    + inversion Hres; subst.
      destruct (NodePath.is_dotdot top); [| assumption].
      destruct allowAboveRoot; [constructor |]; assumption.
  - constructor; assumption.
Qed.

Lemma normalizeSegments_kept allowAboveRoot segs :
  Forall (fun seg => every f seg = true /\ every notSlash seg = true) segs ->
  Forall (kept f) (NodePath.normalizeSegments allowAboveRoot segs).
Proof.
  unfold NodePath.normalizeSegments. intros H. apply Forall_rev.
  assert (G : forall res, Forall (kept f) res ->
                          Forall (kept f) (fold_left (NodePath.normalizeStep allowAboveRoot) segs res)).
  { induction H as [| seg segs [H1 H2] _ IH]; intros res Hres; simpl; [exact Hres |].
    apply IH. apply normalizeStep_kept; assumption. }
  apply G. constructor.
Qed.

(** Good segments joined by slashes: no slash at either end, no two in a
    row, and not empty unless there is no segment. *)
Lemma join_slash_kept segs :
  Forall (kept f) segs ->
  every f (JS.join_slash segs) = true
  /\ hasDoubleSlash (JS.join_slash segs) = false
  /\ headIsSlash (JS.join_slash segs) = false
  /\ JS.endsWith_slash (JS.join_slash segs) = false
  /\ (segs <> [] -> JS.join_slash segs <> "").
Proof.
  unfold JS.join_slash.
  induction 1 as [| seg segs [Hf [Hne Hs]] Hrest IH]; [repeat split; congruence |].
  cbn [String.concat]. destruct segs as [| seg' segs'].
  - repeat split; auto using notSlash_double, notSlash_head, notSlash_last.
  - destruct IH as [I1 [I2 [I3 [I4 I5]]]].
    set (rest := String.concat "/" (seg' :: segs')) in *.
    assert (R : rest <> "") by (apply I5; discriminate).
    split; [| split; [| split; [| split]]].
    + rewrite every_append. simpl. rewrite Hf, f_slash, I1. reflexivity.
    + rewrite hasDoubleSlash_append. simpl. rewrite I2, I3.
      rewrite (notSlash_double _ Hs), (notSlash_last _ Hs). reflexivity.
    + rewrite headIsSlash_append. destruct seg; [congruence |].
      apply (notSlash_head _ Hs).
    + rewrite endsWith_slash_append. simpl.
      unfold JS.endsWith_slash in *. cbn [JS.last].
      destruct rest; [congruence | exact I4].
    + intros _. destruct seg; [congruence | discriminate].
Qed.

Lemma every_true s : every (fun _ => true) s = true.
Proof. induction s; simpl; auto. Qed.

Lemma slash_cons_kept r :
  every f r = true -> hasDoubleSlash r = false -> headIsSlash r = false ->
  every f (String "/"%char r) = true
  /\ hasDoubleSlash (String "/"%char r) = false
  /\ headIsSlash (String "/"%char r) = true.
Proof.
  intros H1 H2 H3. cbn [every hasDoubleSlash headIsSlash].
  rewrite f_slash, H1, H2, H3. auto.
Qed.

(** [normalize] keeps [f], leaves no two slashes in a row and begins with
    a slash exactly when its argument does. *)
Lemma normalize_kept path :
  every f path = true ->
  every f (NodePath.normalize path) = true
  /\ hasDoubleSlash (NodePath.normalize path) = false
  /\ headIsSlash (NodePath.normalize path) = headIsSlash path.
Proof.
  intros Hf. unfold NodePath.normalize.
  destruct (JS.truthy path) eqn:T; cbn [negb].
  2: { destruct path; [| discriminate]. simpl. rewrite f_dot. auto. }
  rewrite startsWith_slash.
  pose proof (join_slash_kept _
                (normalizeSegments_kept (negb (headIsSlash path)) _
                   (split_slash_segments f path Hf))) as K.
  unfold NodePath.normalizeString.
  remember (JS.join_slash (NodePath.normalizeSegments (negb (headIsSlash path))
                                                      (JS.split_slash path))) as J eqn:EJ.
  clear EJ. destruct K as [K1 [K2 [K3 [K4 _]]]].
  destruct J as [| j J']; cbn [JS.truthy negb].
  - destruct (headIsSlash path), (JS.endsWith_slash path);
      simpl; rewrite ?f_dot, ?f_slash; auto.
  - destruct (JS.endsWith_slash path).
    + assert (HP : every f (String j J' ++ "/") = true
                   /\ hasDoubleSlash (String j J' ++ "/") = false
                   /\ headIsSlash (String j J' ++ "/") = false).
      { rewrite every_append, hasDoubleSlash_append, K1, K2, K4.
        simpl. rewrite f_slash. repeat split; auto. }
      destruct HP as [P1 [P2 P3]].
      destruct (headIsSlash path); [| auto].
      apply (slash_cons_kept (String j J' ++ "/")); assumption.
    + destruct (headIsSlash path); [| auto].
      apply (slash_cons_kept (String j J')); assumption.
Qed.

(** [join] likewise; it begins with a slash when its first argument does. *)
Lemma join_kept a b :
  every f a = true -> every f b = true ->
  every f (NodePath.join a b) = true
  /\ hasDoubleSlash (NodePath.join a b) = false
  /\ (headIsSlash a = true -> headIsSlash (NodePath.join a b) = true).
Proof.
  intros Ha Hb. unfold NodePath.join.
  destruct a as [| x a]; destruct b as [| y b]; cbn [JS.truthy].
  - simpl. rewrite f_dot. repeat split; auto.
  - destruct (normalize_kept (String y b) Hb) as [N1 [N2 N3]].
    repeat split; auto. discriminate.
  - destruct (normalize_kept (String x a) Ha) as [N1 [N2 N3]].
    repeat split; auto. intros H. rewrite N3. exact H.
  - assert (H : every f (String x a ++ "/" ++ String y b) = true).
    { rewrite !every_append. simpl in *. rewrite Ha, Hb, f_slash. reflexivity. }
    destruct (normalize_kept _ H) as [N1 [N2 N3]].
    repeat split; auto. intros Hx. rewrite N3. exact Hx.
Qed.

End Normalize.

End PathFacts.

(* ================================================================== *)
(** ** The shape of the remote path *)

Section RemotePathFacts.

Lemma every_slice f s n : every f s = true -> every f (JS.slice s n) = true.
Proof.
  revert s. induction n as [| n IH]; intros s H; simpl; [exact H |].
  destruct s as [| c s]; [reflexivity |].
  simpl in H. apply andb_true_iff in H. apply IH. tauto.
Qed.

Lemma every_strip_leading_sep f s :
  every f s = true -> every f (JS.strip_leading_sep s) = true.
Proof.
  destruct s as [| c s]; simpl; [auto |]. intros H.
  destruct (JS.is_sep c); [| exact H]. apply andb_true_iff in H. tauto.
Qed.

Lemma every_slice_0_m1 f s : every f s = true -> every f (JS.slice_0_m1 s) = true.
Proof.
  induction s as [| c s IH]; [auto |]. cbn [every JS.slice_0_m1].
  rewrite andb_true_iff. intros [Hc Hs].
  destruct s as [| d s]; [reflexivity |]. cbn [every]. rewrite Hc. exact (IH Hs).
Qed.

Lemma every_strip_trailing_slash f s :
  every f s = true -> every f (JS.strip_trailing_slash s) = true.
Proof.
  unfold JS.strip_trailing_slash. intros H.
  destruct (JS.endsWith_slash s); [apply every_slice_0_m1 |]; exact H.
Qed.

Lemma replace_backslashes_clean s : every notBackslash (JS.replace_backslashes s) = true.
Proof.
  unfold JS.replace_backslashes. induction s as [| c s IH]; [reflexivity |].
  simpl. rewrite IH, andb_true_r. unfold notBackslash.
  destruct (JS.is_backslash c) eqn:E; [reflexivity | rewrite E; reflexivity].
Qed.

Lemma replace_seps_clean s : every notBackslash (JS.replace_seps s) = true.
Proof.
  unfold JS.replace_seps. induction s as [| c s IH]; [reflexivity |].
  simpl. rewrite IH, andb_true_r. unfold notBackslash, JS.is_sep.
  destruct (JS.is_slash c); simpl; [reflexivity |].
  destruct (JS.is_backslash c) eqn:E; [reflexivity | rewrite E; reflexivity].
Qed.

Lemma ensureLeadingSlash_head p : headIsSlash (ensureLeadingSlash p) = true.
Proof.
  unfold ensureLeadingSlash. rewrite startsWith_slash.
  destruct (headIsSlash p) eqn:E; [exact E | reflexivity].
Qed.

Lemma ensureLeadingSlash_double p :
  hasDoubleSlash (ensureLeadingSlash p) = hasDoubleSlash p.
Proof.
  unfold ensureLeadingSlash. rewrite startsWith_slash.
  destruct (headIsSlash p) eqn:E; [reflexivity |].
  change ("/" ++ p) with (String "/"%char p). cbn [hasDoubleSlash].
  rewrite E, andb_false_r. reflexivity.
Qed.

Lemma every_ensureLeadingSlash f p :
  f "/"%char = true -> every f p = true -> every f (ensureLeadingSlash p) = true.
Proof.
  intros Hf Hp. unfold ensureLeadingSlash.
  destruct (JS.startsWith p "/"); [exact Hp |].
  change ("/" ++ p) with (String "/"%char p). cbn [every]. rewrite Hf, Hp. reflexivity.
Qed.

Lemma selectBest_In test mappings m :
  selectBest test mappings = Some m -> In m mappings.
Proof.
  intros E. pose proof (selectBest_selectsLongest test mappings) as H.
  unfold selectsLongest in H. rewrite E in H.
  destruct H as [before [after [D _]]]. rewrite D.
  apply in_or_app. right. left. reflexivity.
Qed.

(** Both remote paths begin with a slash and have no two in a row. *)
Lemma calculateRemotePath_shape path_dirname s file activeFile filePath :
  let p := calculateRemotePath path_dirname s file activeFile filePath in
  headIsSlash p = true /\ hasDoubleSlash p = false.
Proof.
  unfold calculateRemotePath.
  destruct (join_kept (fun _ => true) eq_refl eq_refl
              (ensureLeadingSlash (remoteFolder_of path_dirname s activeFile filePath))
              (file_name file) (every_true _) (every_true _)) as [_ [J2 J3]].
  split; [apply J3, ensureLeadingSlash_head | exact J2].
Qed.

Lemma syncRemotePath_shape s filePath :
  headIsSlash (syncRemotePath s filePath) = true
  /\ hasDoubleSlash (syncRemotePath s filePath) = false.
Proof.
  unfold syncRemotePath. split; [apply ensureLeadingSlash_head |].
  rewrite ensureLeadingSlash_double.
  apply (join_kept (fun _ => true) eq_refl eq_refl); apply every_true.
Qed.

(** Backslashes come from the values copied as they are only. *)
Lemma calculateRemotePath_clean path_dirname s file activeFile filePath :
  Forall noBackslash (copiedByCalculate path_dirname s file activeFile filePath) ->
  every notBackslash (calculateRemotePath path_dirname s file activeFile filePath) = true.
Proof.
  unfold copiedByCalculate, calculateRemotePath, remoteFolder_of.
  intros H. apply Forall_cons_iff in H. destruct H as [Hname Hrest].
  apply noBackslash_every in Hname.
  apply (join_kept notBackslash eq_refl eq_refl); [| exact Hname].
  apply every_ensureLeadingSlash; [reflexivity |].
  destruct (pathMode s); [| destruct (JS.truthy filePath)].
  1, 3: destruct (selectBest (matchesNote _) _) as [best |].
  1, 3: apply Forall_cons_iff in Hrest; destruct Hrest as [Hremote _];
        apply noBackslash_every in Hremote;
        rewrite !every_append; cbn [every];
        rewrite (every_strip_trailing_slash _ _ Hremote), replace_seps_clean; reflexivity.
  1, 2: apply Forall_cons_iff in Hrest; destruct Hrest as [Hroot Hrest];
        apply Forall_cons_iff in Hrest; destruct Hrest as [Hnote _];
        apply noBackslash_every in Hroot; apply noBackslash_every in Hnote;
        apply (join_kept notBackslash eq_refl eq_refl); assumption.
  destruct (selectBest (matchesLocal _) _) as [best |];
    apply Forall_cons_iff in Hrest; destruct Hrest as [H _];
    apply noBackslash_every in H; exact H.
Qed.

Lemma syncRemotePath_clean s filePath :
  noBackslash (remoteSyncFolder s) ->
  every notBackslash (syncRemotePath s filePath) = true.
Proof.
  intros Hsync. apply noBackslash_every in Hsync.
  unfold syncRemotePath. apply every_ensureLeadingSlash; [reflexivity |].
  apply (join_kept notBackslash eq_refl eq_refl).
  - apply every_strip_trailing_slash, Hsync.
  - apply every_strip_leading_sep, every_slice, replace_backslashes_clean.
Qed.

End RemotePathFacts.

(** The example of the specification: root folder [/docs], document
    folder [notes//sub]. *)
Example remote_folder_collapses_slashes :
  let doc := {| parent := Some {| folder_path := "notes//sub" |} |} in
  remoteFolder_of NodePath.dirname Demo.settingsNote doc "" = "/docs/notes/sub"
  /\ calculateRemotePath NodePath.dirname Demo.settingsNote Demo.fileA doc ""
     = "/docs/notes/sub/a.png".
Proof. split; reflexivity. Qed.

(** C3 as the specification words it fails: with the root folder
    [docs\img] the remote path of a file dropped into a note of [notes]
    keeps the backslash. *)
Lemma C3_counterexample_backslash_in_root_folder :
  snd (resolve RefStore.t RefStore.requestUrl NodePath.dirname Demo.settingsBackslashRoot
         Demo.fileA Demo.activeNote (RefStore.fresh RefStore.empty))
  = inl {| remoteFilePath := "/docs\img/notes/a.png"; shouldUpload := true;
           isLocalLink := false |}
  /\ ~ remotePathAsSpecified "/docs\img/notes/a.png".
Proof.
  split; [reflexivity |].
  intros [_ [H _]]. unfold noBackslash in H. vm_compute in H. discriminate H.
Qed.

(** C3, amended.  Every resolution returns.  Unless it is a local link,
    which has no remote path, its remote path begins with a slash and has
    no two slashes in a row; and it has no backslash whenever there is
    none in the values that the branch taken copies as they are:
    [remoteSyncFolder] for a file inside the sync folder; otherwise the
    name of the file and the [remotePath] of the selected mapping or,
    when no mapping is selected, [rootFolder], together with the folder
    path of the active document in the note branch.  Nothing is asked of
    the local path of the dropped file, nor of the folder path of the
    document when a mapping is selected: their backslashes are turned
    into slashes. *)
Theorem C3_remote_path_shape :
  forall (World : Type)
         (requestUrl : RequestParams -> World -> World * (Response + JsError))
         (path_dirname : string -> string) (s : WebDAVUploaderSettings)
         (file : File) (activeFile : TFile) (c : Client World),
    match snd (resolve World requestUrl path_dirname s file activeFile c) with
    | inl r =>
        if isLocalLink r then remoteFilePath r = ""
        else beginsWithSlash (remoteFilePath r)
             /\ noDoubleSlash (remoteFilePath r)
             /\ (Forall noBackslash (copiedAsItIs path_dirname s file activeFile) ->
                 noBackslash (remoteFilePath r))
    | inr _ => False
    end.
Proof.
  intros World requestUrl path_dirname s file activeFile c.
  assert (Calc : forall filePath,
             let p := calculateRemotePath path_dirname s file activeFile filePath in
             beginsWithSlash p /\ noDoubleSlash p
             /\ (Forall noBackslash
                        (copiedByCalculate path_dirname s file activeFile filePath) ->
                 noBackslash p)).
  { intros filePath p. subst p.
    unfold beginsWithSlash, noDoubleSlash.
    rewrite startsWith_slash, includes_double_slash.
    destruct (calculateRemotePath_shape path_dirname s file activeFile filePath) as [H1 H2].
    split; [exact H1 |]. split; [exact H2 |].
    intros V. apply noBackslash_every, calculateRemotePath_clean, V. }
  assert (Sync : forall filePath,
             beginsWithSlash (syncRemotePath s filePath)
             /\ noDoubleSlash (syncRemotePath s filePath)
             /\ (Forall noBackslash [remoteSyncFolder s] ->
                 noBackslash (syncRemotePath s filePath))).
  { intros filePath. unfold beginsWithSlash, noDoubleSlash.
    rewrite startsWith_slash, includes_double_slash.
    destruct (syncRemotePath_shape s filePath) as [H1 H2].
    split; [exact H1 |]. split; [exact H2 |].
    intros V. apply Forall_cons_iff in V. destruct V as [V _].
    apply noBackslash_every. exact (syncRemotePath_clean s _ V). }
  unfold resolve, copiedAsItIs.
  destruct (pathMode s); [apply Calc |].
  destruct (_ && _ && _); [| apply Calc].
  destruct (insideSyncFolder _ _); [| reflexivity].
  destruct (preferExistingLink s); [| apply Sync].
  unfold bind. rewrite webdavExists_eq.
  destruct (requestUrl _ (store c)) as [w r].
  destruct (probeAnswer r); apply Sync.
Qed.

(** C3 on two drops whose inputs have backslashes where the code replaces
    them: into a note of the folder [notes\a\b] under the mapping of
    [notes], and from [C:\Users\Me\Sync\x] inside the sync folder. *)
Lemma C3_witness_backslashes_replaced :
  (beginsWithSlash "/m/a/b/a.png"
   /\ noDoubleSlash "/m/a/b/a.png"
   /\ noBackslash "/m/a/b/a.png")
  /\ (beginsWithSlash "/remote/x/a.png"
      /\ noDoubleSlash "/remote/x/a.png"
      /\ noBackslash "/remote/x/a.png").
Proof.
  split.
  - pose proof (C3_remote_path_shape RefStore.t RefStore.requestUrl NodePath.dirname
                  Demo.settingsMapping Demo.fileA Demo.backslashNote
                  (RefStore.fresh RefStore.empty)) as H.
    change (beginsWithSlash "/m/a/b/a.png"
            /\ noDoubleSlash "/m/a/b/a.png"
            /\ (Forall noBackslash ["a.png"; "/m/"] -> noBackslash "/m/a/b/a.png")) in H.
    destruct H as [H1 [H2 H3]].
    split; [exact H1 |]. split; [exact H2 |].
    apply H3. repeat constructor.
  - pose proof (C3_remote_path_shape RefStore.t RefStore.requestUrl NodePath.dirname
                  Demo.settingsSync Demo.fileA Demo.activeNote
                  (RefStore.fresh RefStore.empty)) as H.
    change (beginsWithSlash "/remote/x/a.png"
            /\ noDoubleSlash "/remote/x/a.png"
            /\ (Forall noBackslash ["/remote/"] -> noBackslash "/remote/x/a.png")) in H.
    destruct H as [H1 [H2 H3]].
    split; [exact H1 |]. split; [exact H2 |].
    apply H3. repeat constructor.
Defined.

(** C7, on the code.  A write that the store answers with a 404 is taken
    for a success.  [request] turns every 404 into [null], which is meant
    for the existence check, and [webdavPut] does not look at what
    [request] returns: when a resolution asks for the upload, the folder
    of the remote path is there, the file can be read and the [PUT] fails
    with a 404, nothing is thrown, and [uploadFile] shows the success
    notice and inserts the link although the file was not stored. *)
Theorem C7_write_answered_404_is_taken_for_success :
  forall (World : Type)
         (requestUrl : RequestParams -> World -> World * (Response + JsError))
         (path_dirname : string -> string) (s : WebDAVUploaderSettings)
         (file : File) (view : MarkdownView) (activeFile : TFile)
         (c c0 : Client World) (res : Resolution) (data : bytes) (e : JsError),
    view_file view = Some activeFile ->
    resolve World requestUrl path_dirname s file activeFile c = (c0, inl res) ->
    decision res = Some Upload ->
    arrayBuffer file = inl data ->
    let p := remoteFilePath res in
    let q1 := probeParams s (NodePath.dirname p) in
    let w1 := fst (requestUrl q1 (store c0)) in
    let a1 := snd (requestUrl q1 (store c0)) in
    probeAnswer a1 = true ->
    let q2 := putParams s p data in
    snd (requestUrl q2 w1) = inr e ->
    is_404 e = true ->
    uploadFile World requestUrl path_dirname s file view c =
      (withInserted
         (withNotice
            (afterRequest
               (withNotice (afterRequest c0 q1 w1 a1) (Uploading (file_name file)))
               q2 (fst (requestUrl q2 w1)) (inr e))
            (UploadSucceeded (file_name file)))
         (remoteLinkText s file p ++ newline),
       inl tt).
Proof.
  intros World requestUrl path_dirname s file view activeFile c c0 res data e
         Hview Hres Hdec Hdata p q1 w1 a1 Hdir q2 Hput H404.
  assert (D : isLocalLink res = false /\ JS.truthy p = true /\ shouldUpload res = true).
  { revert Hdec. unfold decision. fold p.
    destruct (isLocalLink res); [discriminate |].
    destruct (JS.truthy p); [| discriminate].
    destruct (shouldUpload res); [auto | discriminate]. }
  destruct D as [D1 [D2 D3]].
  unfold uploadFile, tryCatch, uploadFileBody. rewrite Hview. unfold bind at 1.
  rewrite Hres. unfold perform. rewrite D1, D3. fold p. rewrite D2. cbn [andb when].
  unfold bind at 1. unfold upload. unfold bind at 1.
  rewrite webdavExists_eq. fold q1.
  subst w1 a1. destruct (requestUrl q1 (store c0)) as [w1 a1] eqn:E1.
  cbn [fst snd] in *. rewrite Hdir. cbn [negb when]. unfold bind at 1. cbn [ret].
  unfold readArrayBuffer. rewrite Hdata. unfold bind at 1. cbn [ret].
  unfold bind at 1. cbn [newNotice].
  unfold bind at 1. rewrite webdavPut_eq. fold q2.
  change (store _) with w1 at 1.
  destruct (requestUrl q2 w1) as [w2 a2] eqn:E2. cbn [fst snd] in *. subst a2.
  rewrite H404. reflexivity.
Qed.

(** C7 on a drop of [a.png] into a note of [notes], note mode, on an
    endpoint that answers [PROPFIND] and refuses every write with 404:
    two requests, the success notice and the link. *)
Lemma C7_witness_put_refused_with_404 :
  uploadFile unit Demo.readOnly NodePath.dirname Demo.settingsNote
    Demo.fileA Demo.view Demo.idle
  = ({| store := tt;
        requests :=
          [ (probeParams Demo.settingsNote "/docs/notes", inl {| status := 207 |});
            (putParams Demo.settingsNote "/docs/notes/a.png" Demo.content,
             inr {| err_status := Some 404%Z;
                    err_message := "Request failed, status 404" |}) ];
        inserted := ["[a.png](https://dav.example.com/docs/notes/a.png)" ++ newline];
        notices := [Uploading "a.png"; UploadSucceeded "a.png"] |},
     inl tt).
Proof.
  exact (C7_write_answered_404_is_taken_for_success
           unit Demo.readOnly NodePath.dirname Demo.settingsNote
           Demo.fileA Demo.view Demo.activeNote Demo.idle Demo.idle
           {| remoteFilePath := "/docs/notes/a.png"; shouldUpload := true;
              isLocalLink := false |}
           Demo.content
           {| err_status := Some 404%Z; err_message := "Request failed, status 404" |}
           eq_refl eq_refl eq_refl eq_refl eq_refl eq_refl eq_refl).
Defined.

(** The same reaches [MKCOL]: on an endpoint that answers 404 to
    everything nothing is thrown, so the success notice is shown and the
    link is inserted although no folder was made and nothing was put. *)
Example every_404_is_taken_for_success :
  let c := fst (uploadFile unit Demo.nowhere NodePath.dirname Demo.settingsNote
                  Demo.fileA Demo.view
                  {| store := tt; requests := []; inserted := []; notices := [] |}) in
  List.map (fun r => method (fst r)) (requests c)
    = ["PROPFIND"; "PROPFIND"; "MKCOL"; "PROPFIND"; "MKCOL"; "PUT"]
  /\ notices c = [Uploading "a.png"; UploadSucceeded "a.png"]
  /\ inserted c = ["[a.png](https://dav.example.com/docs/notes/a.png)" ++ newline].
Proof. vm_compute. repeat split; reflexivity. Qed.

(* ================================================================== *)
(** ** The request log *)

Section LogFacts.

Variable World : Type.
Variable requestUrl : RequestParams -> World -> World * (Response + JsError).
Variable path_dirname : string -> string.
Variable settings : WebDAVUploaderSettings.

(** A property of log entries that holds of every probe and every
    [MKCOL] the client builds. *)
Variable P : Entry -> Prop.
Hypothesis P_probe : forall path r, P (probeParams settings path, r).
Hypothesis P_mkcol : forall path r, P (mkcolParams settings path, r).

Lemma logs_ret A (a : A) : logs P (ret World a).
Proof. intros c. exists []. simpl. rewrite app_nil_r. auto. Qed.

Lemma logs_throw A e : logs P (@throw World A e).
Proof. intros c. exists []. simpl. rewrite app_nil_r. auto. Qed.

Lemma logs_newNotice n : logs P (newNotice World n).
Proof. intros c. exists []. simpl. rewrite app_nil_r. auto. Qed.

Lemma logs_replaceSelection text : logs P (replaceSelection World text).
Proof. intros c. exists []. simpl. rewrite app_nil_r. auto. Qed.

Lemma logs_bind A B (m : M World A) (k : A -> M World B) :
  logs P m -> (forall a, logs P (k a)) -> logs P (bind World m k).
Proof.
  intros Hm Hk c. unfold bind. destruct (Hm c) as [new1 [E1 F1]].
  destruct (m c) as [c1 [a | e]]; simpl in *.
  - destruct (Hk a c1) as [new2 [E2 F2]]. exists (new1 ++ new2)%list.
    rewrite E2, E1, app_assoc. split; [reflexivity | apply Forall_app; auto].
  - exists new1. auto.
Qed.

Lemma logs_tryCatch A (m : M World A) (handler : JsError -> M World A) :
  logs P m -> (forall e, logs P (handler e)) -> logs P (tryCatch World m handler).
Proof.
  intros Hm Hh c. unfold tryCatch. destruct (Hm c) as [new1 [E1 F1]].
  destruct (m c) as [c1 [a | e]]; simpl in *.
  - exists new1. auto.
  - destruct (Hh e c1) as [new2 [E2 F2]]. exists (new1 ++ new2)%list.
    rewrite E2, E1, app_assoc. split; [reflexivity | apply Forall_app; auto].
Qed.

Lemma logs_when b (m : M World unit) : logs P m -> logs P (when World b m).
Proof. destruct b; simpl; [trivial | intros _; apply logs_ret]. Qed.

Lemma logs_webdavExists path : logs P (webdavExists World requestUrl settings path).
Proof.
  intros c. rewrite webdavExists_eq.
  destruct (requestUrl _ (store c)) as [w r]. simpl.
  eexists. split; [reflexivity |]. constructor; [apply P_probe | constructor].
Qed.

Lemma logs_mkcol path :
  logs P (request World requestUrl settings "MKCOL" path [] None).
Proof.
  intros c. rewrite request_eq. cbv zeta.
  destruct (requestUrl _ (store c)) as [w r]. simpl.
  eexists. split; [reflexivity |]. constructor; [apply P_mkcol | constructor].
Qed.

Lemma logs_createDirectoryFrom parts :
  forall currentPath, logs P (createDirectoryFrom World requestUrl settings currentPath parts).
Proof.
  induction parts as [| part parts IH]; intros currentPath; simpl.
  - apply logs_ret.
  - apply logs_bind; [apply logs_webdavExists |]. intros b.
    apply logs_bind; [| intros _; apply IH].
    apply logs_when, logs_bind; [apply logs_mkcol | intros _; apply logs_ret].
Qed.

Lemma logs_webdavCreateDirectory path :
  logs P (webdavCreateDirectory World requestUrl settings path).
Proof. apply logs_createDirectoryFrom. Qed.

(** Resolution sends probes only. *)
Lemma logs_resolve file activeFile :
  logs P (resolve World requestUrl path_dirname settings file activeFile).
Proof.
  unfold resolve.
  destruct (pathMode settings); [apply logs_ret |].
  destruct (_ && _ && _); [| apply logs_ret].
  destruct (insideSyncFolder _ _).
  - destruct (preferExistingLink settings); [| apply logs_ret].
    apply logs_bind; [apply logs_webdavExists |]. intros [|]; [| apply logs_ret].
    apply logs_bind; [apply logs_newNotice | intros _; apply logs_ret].
  - apply logs_bind; [apply logs_newNotice | intros _; apply logs_ret].
Qed.

(** What comes before the bytes are read: the folder is probed and made. *)
Lemma logs_ensureFolder remoteFolder :
  logs P (bind World (webdavExists World requestUrl settings remoteFolder)
               (fun folderExists =>
                  when World (negb folderExists)
                       (webdavCreateDirectory World requestUrl settings remoteFolder))).
Proof.
  apply logs_bind; [apply logs_webdavExists |]. intros b.
  apply logs_when, logs_webdavCreateDirectory.
Qed.

Hypothesis P_put : forall path data r, P (putParams settings path data, r).

Lemma logs_webdavPut path data : logs P (webdavPut World requestUrl settings path data).
Proof.
  intros c. rewrite webdavPut_eq.
  destruct (requestUrl _ (store c)) as [w r]. simpl.
  eexists. split; [reflexivity |]. constructor; [apply P_put | constructor].
Qed.

Lemma logs_upload file remoteFilePath :
  logs P (upload World requestUrl settings file remoteFilePath).
Proof.
  unfold upload.
  apply logs_bind; [apply logs_webdavExists |]. intros b.
  apply logs_bind; [apply logs_when, logs_webdavCreateDirectory |]. intros _.
  apply logs_bind.
  { unfold readArrayBuffer. destruct (arrayBuffer file); [apply logs_ret | apply logs_throw]. }
  intros data. apply logs_bind; [apply logs_newNotice |]. intros _.
  apply logs_bind; [apply logs_webdavPut | intros _; apply logs_newNotice].
Qed.

Lemma logs_uploadFile file view :
  logs P (uploadFile World requestUrl path_dirname settings file view).
Proof.
  unfold uploadFile. apply logs_tryCatch; [| intros e; apply logs_newNotice].
  unfold uploadFileBody. destruct (view_file view) as [activeFile |]; [| apply logs_ret].
  apply logs_bind; [apply logs_resolve |]. intros r.
  unfold perform. destruct (isLocalLink r); [apply logs_replaceSelection |].
  apply logs_bind; [apply logs_when, logs_upload |]. intros _.
  apply logs_when, logs_replaceSelection.
Qed.

Lemma logs_forEach A (l : list A) (f : A -> M World unit) :
  (forall a, logs P (f a)) -> logs P (forEach World l f).
Proof.
  intros Hf. induction l as [| a l IH]; simpl; [apply logs_ret |].
  apply logs_bind; [apply Hf | intros _; exact IH].
Qed.

Lemma logs_onDrop view files :
  logs P (onDrop World requestUrl path_dirname settings view files).
Proof.
  unfold onDrop. destruct view as [view |]; [| apply logs_ret].
  destruct files as [| file files]; [apply logs_ret |].
  destruct (negb (configured settings)); [apply logs_newNotice |].
  apply logs_forEach. intros f. apply logs_uploadFile.
Qed.

End LogFacts.

Section UploadLog.

Variable World : Type.
Variable requestUrl : RequestParams -> World -> World * (Response + JsError).
Variable path_dirname : string -> string.
Variable settings : WebDAVUploaderSettings.

Lemma notPut_probe path r : notPut (probeParams settings path, r).
Proof. unfold notPut. simpl. discriminate. Qed.

Lemma notPut_mkcol path r : notPut (mkcolParams settings path, r).
Proof. unfold notPut. simpl. discriminate. Qed.

(** The upload step sends its [PUT] last and once, with the bytes
    [arrayBuffer] gave, or not at all. *)
Lemma upload_log file remoteFilePath c :
  exists pre,
    Forall notPut pre
    /\ (requests (fst (upload World requestUrl settings file remoteFilePath c))
        = (requests c ++ pre)%list
        \/ exists data r,
            arrayBuffer file = inl data
            /\ requests (fst (upload World requestUrl settings file remoteFilePath c))
               = (requests c ++ pre ++ [(putParams settings remoteFilePath data, r)])%list).
Proof.
  unfold upload.
  destruct (logs_ensureFolder World requestUrl settings notPut notPut_probe notPut_mkcol
              (NodePath.dirname remoteFilePath) c) as [pre [E F]].
  exists pre. split; [exact F |].
  revert E. unfold bind.
  destruct (webdavExists World requestUrl settings _ c) as [c1 [b | e]]; [| left; exact E].
  destruct (when World (negb b) _ c1) as [c2 [[] | e]]; simpl; [| left; exact E].
  intros E. unfold readArrayBuffer.
  destruct (arrayBuffer file) as [data | e]; simpl; [| left; exact E].
  rewrite webdavPut_eq. simpl.
  destruct (requestUrl (putParams settings remoteFilePath data) (store c2)) as [w r].
  right. exists data, r. split; [reflexivity |].
  destruct r as [resp | e]; simpl; [| destruct (is_404 e); simpl];
    rewrite E, app_assoc; reflexivity.
Qed.

(** The failure notice and the insertion of the link send nothing. *)
Lemma uploadFile_requests file view c :
  requests (fst (uploadFile World requestUrl path_dirname settings file view c))
  = requests (fst (uploadFileBody World requestUrl path_dirname settings file view c)).
Proof.
  rewrite uploadFile_eq. cbn [fst].
  destruct (uploadFileBody World requestUrl path_dirname settings file view c)
    as [c1 [u | e]]; reflexivity.
Qed.

Lemma uploadFile_inserted file view c :
  inserted (fst (uploadFile World requestUrl path_dirname settings file view c))
  = inserted (fst (uploadFileBody World requestUrl path_dirname settings file view c)).
Proof.
  rewrite uploadFile_eq. cbn [fst].
  destruct (uploadFileBody World requestUrl path_dirname settings file view c)
    as [c1 [u | e]]; reflexivity.
Qed.

Lemma perform_requests file res c :
  requests (fst (perform World requestUrl settings file res c))
  = if isLocalLink res then requests c
    else requests (fst (when World (shouldUpload res && JS.truthy (remoteFilePath res))
                             (upload World requestUrl settings file (remoteFilePath res)) c)).
Proof.
  unfold perform. destruct (isLocalLink res); [reflexivity |].
  unfold bind. destruct (when World _ _ c) as [c2 [[] | e]]; [| reflexivity].
  destruct (JS.truthy (remoteFilePath res)); reflexivity.
Qed.

End UploadLog.

(** X1. Every request a drop sends, whatever the view, the files and
    the answers of the store, is addressed under the endpoint (the
    configured address without one trailing slash), carries the Basic
    authorization header made of the user name and the password, and is
    a [PROPFIND], a [MKCOL] or a [PUT]. *)
Theorem X1_requests_go_to_the_endpoint_with_credentials :
  forall (World : Type)
         (requestUrl : RequestParams -> World -> World * (Response + JsError))
         (path_dirname : string -> string) (settings : WebDAVUploaderSettings)
         (view : option MarkdownView) (files : list File) (c : Client World),
  exists new,
    requests (fst (onDrop World requestUrl path_dirname settings view files c))
    = (requests c ++ new)%list
    /\ Forall (fromClient settings) new.
Proof.
  intros. apply logs_onDrop.
  - intros path r. repeat split; simpl; auto. exists path. reflexivity.
  - intros path r. repeat split; simpl; auto. exists path. reflexivity.
  - intros path data r. repeat split; simpl; auto. exists path. reflexivity.
Qed.

(** X2. [uploadFile] sends at most one [PUT], and it is the last request
    it sends: the requests it adds are probes and [MKCOL]s, followed, if
    at all, by one [PUT] of all the bytes of the file to the resolved
    remote path, and this only when the resolution asks for the upload. *)
Theorem X2_at_most_one_put_with_the_whole_file :
  forall (World : Type)
         (requestUrl : RequestParams -> World -> World * (Response + JsError))
         (path_dirname : string -> string) (settings : WebDAVUploaderSettings)
         (file : File) (view : MarkdownView) (c : Client World),
    let c' := fst (uploadFile World requestUrl path_dirname settings file view c) in
    exists pre,
      Forall notPut pre
      /\ (requests c' = (requests c ++ pre)%list
          \/ exists activeFile res data r,
              view_file view = Some activeFile
              /\ snd (resolve World requestUrl path_dirname settings file activeFile c) = inl res
              /\ decision res = Some Upload
              /\ arrayBuffer file = inl data
              /\ requests c' =
                 (requests c ++ pre ++ [(putParams settings (remoteFilePath res) data, r)])%list).
Proof.
  intros World requestUrl path_dirname settings file view c c'. subst c'.
  rewrite uploadFile_requests. unfold uploadFileBody.
  destruct (view_file view) as [activeFile |].
  2: { exists []. split; [constructor |]. left. simpl. rewrite app_nil_r. reflexivity. }
  unfold bind.
  destruct (logs_resolve World requestUrl path_dirname settings notPut
              (notPut_probe settings) file activeFile c) as [new1 [E1 F1]].
  destruct (resolve World requestUrl path_dirname settings file activeFile c)
    as [c1 [res | e]] eqn:ER; cbn [fst] in E1.
  2: { exists new1. auto. }
  rewrite perform_requests.
  destruct (isLocalLink res) eqn:L; [exists new1; auto |].
  destruct (shouldUpload res && JS.truthy (remoteFilePath res)) eqn:U; cbn [when].
  2: { exists new1. auto. }
  apply andb_true_iff in U. destruct U as [U1 U2].
  destruct (upload_log World requestUrl settings file (remoteFilePath res) c1)
    as [pre [Fp Hp]].
  exists (new1 ++ pre)%list. split; [apply Forall_app; auto |].
  destruct Hp as [Hp | [data [r [Ha Hp]]]].
  - left. rewrite Hp, E1, app_assoc. reflexivity.
  - right. exists activeFile, res, data, r.
    split; [reflexivity |]. split; [rewrite ER; reflexivity |].
    split; [unfold decision; rewrite L, U1, U2; reflexivity |].
    split; [exact Ha |]. rewrite Hp, E1, <- !app_assoc. reflexivity.
Qed.

(** X3. [uploadFile] inserts at most one text in the editor: nothing, or
    the link of the resolution it reached (the local link or the remote
    one) followed by a line break. *)
Theorem X3_at_most_one_link_is_inserted :
  forall (World : Type)
         (requestUrl : RequestParams -> World -> World * (Response + JsError))
         (path_dirname : string -> string) (settings : WebDAVUploaderSettings)
         (file : File) (view : MarkdownView) (c : Client World),
    let c' := fst (uploadFile World requestUrl path_dirname settings file view c) in
    inserted c' = inserted c
    \/ exists activeFile res,
        view_file view = Some activeFile
        /\ snd (resolve World requestUrl path_dirname settings file activeFile c) = inl res
        /\ inserted c' = (inserted c ++ [linkFor settings file res])%list.
Proof.
  intros World requestUrl path_dirname settings file view c c'. subst c'.
  rewrite uploadFile_inserted. unfold uploadFileBody.
  destruct (view_file view) as [activeFile |]; [| left; reflexivity].
  unfold bind.
  destruct (resolve_returns World requestUrl path_dirname settings file activeFile c)
    as [res0 [Hr Hi]].
  destruct (resolve World requestUrl path_dirname settings file activeFile c)
    as [c1 [res | e]] eqn:ER; cbn [fst snd] in Hr, Hi; [| discriminate].
  unfold perform, linkFor. destruct (isLocalLink res) eqn:L.
  - right. exists activeFile, res. rewrite ER.
    split; [reflexivity |]. split; [reflexivity |].
    unfold replaceSelection. cbn [fst inserted]. rewrite Hi, L. reflexivity.
  - unfold bind.
    pose proof (keepsEditor_when World (shouldUpload res && JS.truthy (remoteFilePath res)) _
                  (keepsEditor_upload World requestUrl settings file (remoteFilePath res)) c1)
      as Hu.
    destruct (when World _ _ c1) as [c2 [[] | e]]; cbn [fst] in Hu.
    + destruct (JS.truthy (remoteFilePath res)); cbn [when].
      * right. exists activeFile, res. rewrite ER.
        split; [reflexivity |]. split; [reflexivity |].
        unfold replaceSelection. cbn [fst inserted]. rewrite Hu, Hi, L. reflexivity.
      * left. cbn [fst ret]. congruence.
    + left. cbn [fst]. congruence.
Qed.

(** X4. A file of the sync folder that the store already has is linked
    and not uploaded: with the preference for existing files on,
    [uploadFile] sends the one probe of the remote path, shows the
    already-there notice, inserts the remote link, and sends no [MKCOL]
    and no [PUT]. *)
Theorem X4_file_already_on_the_store_is_linked_not_uploaded :
  forall (World : Type)
         (requestUrl : RequestParams -> World -> World * (Response + JsError))
         (path_dirname : string -> string) (s : WebDAVUploaderSettings)
         (file : File) (p : string) (activeFile : TFile) (view : MarkdownView)
         (c : Client World),
    pathMode s = local ->
    JS.truthy (localSyncFolder s) = true ->
    JS.truthy (remoteSyncFolder s) = true ->
    file_path file = Some p ->
    JS.truthy p = true ->
    insideSyncFolder s p = true ->
    preferExistingLink s = true ->
    view_file view = Some activeFile ->
    let q := probeParams s (syncRemotePath s p) in
    probeAnswer (snd (requestUrl q (store c))) = true ->
    uploadFile World requestUrl path_dirname s file view c =
      (withInserted
         (withNotice (afterRequest c q (fst (requestUrl q (store c)))
                                   (snd (requestUrl q (store c))))
                     (AlreadyInCloud (file_name file)))
         (remoteLinkText s file (syncRemotePath s p) ++ newline),
       inl tt).
Proof.
  intros World requestUrl path_dirname s file p activeFile view c
         Hmode Hl Hr Hp Hp' Hin Hpref Hview q Hprobe.
  unfold uploadFile, tryCatch, uploadFileBody. rewrite Hview. unfold bind.
  rewrite (sync_branch_probes_remote_path World requestUrl path_dirname s file p activeFile c
             Hmode Hl Hr Hp Hp' Hin Hpref).
  fold q. rewrite Hprobe. unfold perform. cbn [isLocalLink shouldUpload remoteFilePath].
  assert (T : JS.truthy (syncRemotePath s p) = true).
  { destruct (syncRemotePath_shape s p) as [H _].
    destruct (syncRemotePath s p); [discriminate | reflexivity]. }
  rewrite T. reflexivity.
Qed.

(** X4 on the drop of [a.png] from the sync folder when the store has it. *)
Lemma X4_witness_synced_file :
  uploadFile RefStore.t RefStore.requestUrl NodePath.dirname Demo.settingsSync
    Demo.fileA Demo.view (RefStore.fresh Drops.synced)
  = (withInserted
       (withNotice
          (afterRequest (RefStore.fresh Drops.synced)
             (probeParams Demo.settingsSync "/remote/x/a.png")
             Drops.synced (inl {| status := 207 |}))
          (AlreadyInCloud "a.png"))
       ("[a.png](https://dav.example.com/remote/x/a.png)" ++ newline),
     inl tt).
Proof.
  exact (X4_file_already_on_the_store_is_linked_not_uploaded
           RefStore.t RefStore.requestUrl NodePath.dirname Demo.settingsSync
           Demo.fileA "C:\Users\Me\Sync\x\a.png" Demo.activeNote Demo.view
           (RefStore.fresh Drops.synced)
           eq_refl eq_refl eq_refl eq_refl eq_refl eq_refl eq_refl eq_refl eq_refl).
Defined.

Lemma split_slash_of_slashes path :
  every JS.is_slash path = true -> filter JS.truthy (JS.split_slash path) = [].
Proof.
  induction path as [| ch path IH]; [reflexivity |].
  cbn [every JS.split_slash]. rewrite andb_true_iff. intros [H1 H2].
  rewrite H1. simpl. exact (IH H2).
Qed.

(** X5. [webdavCreateDirectory] on a path made of slashes only, as the
    folder [/] of a file at the top of the store, sends no request and
    returns. *)
Theorem X5_createDirectory_of_the_root_sends_nothing :
  forall (World : Type)
         (requestUrl : RequestParams -> World -> World * (Response + JsError))
         (settings : WebDAVUploaderSettings) (path : string) (c : Client World),
    every JS.is_slash path = true ->
    webdavCreateDirectory World requestUrl settings path c = (c, inl tt).
Proof.
  intros World requestUrl settings path c H.
  unfold webdavCreateDirectory. rewrite (split_slash_of_slashes path H). reflexivity.
Qed.

Lemma X5_witness_root :
  webdavCreateDirectory RefStore.t RefStore.requestUrl Demo.settingsNote "/"
    (RefStore.fresh RefStore.empty) = (RefStore.fresh RefStore.empty, inl tt).
Proof.
  exact (X5_createDirectory_of_the_root_sends_nothing RefStore.t RefStore.requestUrl
           Demo.settingsNote "/" (RefStore.fresh RefStore.empty) eq_refl).
Defined.

(* ================================================================== *)
(** ** Where a thrown error comes from *)

Section ErrorFacts.

Variable World : Type.
Variable requestUrl : RequestParams -> World -> World * (Response + JsError).
Variable path_dirname : string -> string.
Variable settings : WebDAVUploaderSettings.
Variable Q : JsError -> Prop.

Lemma failsFrom_returns A (m : M World A) :
  (forall c, exists a, snd (m c) = inl a) -> failsFrom Q m.
Proof.
  intros H c c' e E. destruct (H c) as [a Ha]. rewrite E in Ha. discriminate.
Qed.

Lemma failsFrom_bind A B (m : M World A) (k : A -> M World B) :
  logs anyEntry m -> failsFrom Q m -> (forall a, failsFrom Q (k a)) ->
  failsFrom Q (bind World m k).
Proof.
  intros Hl Hm Hk c c' e. unfold bind.
  destruct (Hl c) as [new [E _]]. specialize (Hm c).
  destruct (m c) as [c1 [a | e1]]; cbn [fst] in E.
  - intros H. destruct (Hk a c1 c' e H) as [HQ | [pre [q [E2 [Hq H4]]]]]; [left; exact HQ |].
    right. exists (new ++ pre)%list, q. split; [| auto].
    rewrite E2, E, <- !app_assoc. reflexivity.
  - intros H. inversion H; subst. apply (Hm c' e). reflexivity.
Qed.

Lemma failsFrom_when b (m : M World unit) : failsFrom Q m -> failsFrom Q (when World b m).
Proof.
  destruct b; simpl; [trivial |]. intros _ c c' e E. discriminate.
Qed.

Lemma failsFrom_webdavExists path :
  failsFrom Q (webdavExists World requestUrl settings path).
Proof.
  apply failsFrom_returns. intros c. rewrite webdavExists_eq.
  destruct (requestUrl _ (store c)) as [w r]. eexists. reflexivity.
Qed.

Lemma failsFrom_mkcol path :
  failsFrom Q (request World requestUrl settings "MKCOL" path [] None).
Proof.
  intros c c' e. rewrite request_eq. cbv zeta.
  destruct (requestUrl _ (store c)) as [w [resp | e0]]; [discriminate |].
  destruct (is_404 e0) eqn:N; [discriminate |].
  intros H. inversion H; subst. right.
  exists [], (mkcolParams settings path). simpl. auto.
Qed.

Lemma failsFrom_webdavPut path data :
  failsFrom Q (webdavPut World requestUrl settings path data).
Proof.
  intros c c' e. rewrite webdavPut_eq.
  destruct (requestUrl _ (store c)) as [w [resp | e0]]; [discriminate |].
  destruct (is_404 e0) eqn:N; [discriminate |].
  intros H. inversion H; subst. right.
  exists [], (putParams settings path data). simpl. auto.
Qed.

Lemma any_probe path r : anyEntry (probeParams settings path, r).
Proof. exact I. Qed.

Lemma any_mkcol path r : anyEntry (mkcolParams settings path, r).
Proof. exact I. Qed.

Lemma any_put path data r : anyEntry (putParams settings path data, r).
Proof. exact I. Qed.

Lemma failsFrom_createDirectoryFrom parts :
  forall currentPath,
    failsFrom Q (createDirectoryFrom World requestUrl settings currentPath parts).
Proof.
  induction parts as [| part parts IH]; intros currentPath; simpl.
  - intros c c' e E. discriminate.
  - apply failsFrom_bind;
      [apply logs_webdavExists, any_probe | apply failsFrom_webdavExists |].
    intros b. apply failsFrom_bind; [| | intros _; apply IH].
    + apply logs_when.
      apply logs_bind; [apply logs_mkcol, any_mkcol | intros _; apply logs_ret].
    + apply failsFrom_when, failsFrom_bind.
      * apply logs_mkcol, any_mkcol.
      * apply failsFrom_mkcol.
      * intros _ c c' e E. discriminate.
Qed.

End ErrorFacts.

(** X6. On the strings of the embedding, that is, with credentials, paths
    and names of code units below 256, where [btoa] and the two URI
    encoders do not throw, the [try] block of [uploadFile] is left by an
    exception in two ways only: the bytes of the file could not be read,
    or a [MKCOL] or a [PUT] failed with something other than a 404, and
    that request is then the last one sent.  No answer to a probe aborts
    the upload.  (Outside these strings [btoa] throws in [request] before
    anything is sent, and an encoder can throw when the link is built;
    the statement says nothing of such inputs.) *)
Theorem X6_only_a_failed_write_or_an_unreadable_file_aborts :
  forall (World : Type)
         (requestUrl : RequestParams -> World -> World * (Response + JsError))
         (path_dirname : string -> string) (settings : WebDAVUploaderSettings)
         (file : File) (view : MarkdownView) (c c' : Client World) (e : JsError),
    uploadFileBody World requestUrl path_dirname settings file view c = (c', inr e) ->
    arrayBuffer file = inr e
    \/ exists pre q,
        requests c' = (requests c ++ pre ++ [(q, inr e)])%list
        /\ (method q = "MKCOL" \/ method q = "PUT")
        /\ is_404 e = false.
Proof.
  intros World requestUrl path_dirname settings file view.
  set (Q := fun e : JsError => arrayBuffer file = inr e).
  change (failsFrom Q (uploadFileBody World requestUrl path_dirname settings file view)).
  assert (Ret : forall A (a : A), failsFrom Q (ret World a)).
  { intros A a c c' e E. discriminate. }
  assert (Ins : forall text, failsFrom Q (replaceSelection World text)).
  { intros text c c' e E. discriminate. }
  assert (Note : forall n, failsFrom Q (newNotice World n)).
  { intros n c c' e E. discriminate. }
  unfold uploadFileBody. destruct (view_file view) as [activeFile |]; [| apply Ret].
  apply failsFrom_bind.
  - apply logs_resolve, any_probe.
  - apply failsFrom_returns. intros c.
    destruct (resolve_returns World requestUrl path_dirname settings file activeFile c)
      as [r [Hr _]]. exists r. exact Hr.
  - intros r. unfold perform. destruct (isLocalLink r); [apply Ins |].
    apply failsFrom_bind.
    + apply logs_when, logs_upload; [apply any_probe | apply any_mkcol | apply any_put].
    + apply failsFrom_when. unfold upload.
      apply failsFrom_bind;
        [apply logs_webdavExists, any_probe | apply failsFrom_webdavExists |].
      intros b. apply failsFrom_bind.
      * apply logs_when, logs_webdavCreateDirectory; [apply any_probe | apply any_mkcol].
      * apply failsFrom_when, failsFrom_createDirectoryFrom.
      * intros _. apply failsFrom_bind.
        -- unfold readArrayBuffer. destruct (arrayBuffer file); [apply logs_ret | apply logs_throw].
        -- unfold readArrayBuffer. destruct (arrayBuffer file) as [data | e0] eqn:A;
             [apply Ret |].
           intros c c' e E. inversion E; subst. left. reflexivity.
        -- intros data. apply failsFrom_bind; [apply logs_newNotice | apply Note |].
           intros _. apply failsFrom_bind;
             [apply logs_webdavPut, any_put | apply failsFrom_webdavPut |].
           intros _. apply Note.
    + intros _. apply failsFrom_when, Ins.
Qed.

(** X6 on the refused upload of [a.png]. *)
Lemma X6_witness_refused_upload :
  let run := uploadFileBody RefStore.t RefStore.requestUrl NodePath.dirname
               Demo.settingsSync Demo.fileA Demo.view (RefStore.fresh Demo.blocked) in
  let e := {| err_status := Some 409%Z; err_message := "Request failed, status 409" |} in
  arrayBuffer Demo.fileA = inr e
  \/ exists pre q,
      requests (fst run) = (requests (RefStore.fresh Demo.blocked) ++ pre ++ [(q, inr e)])%list
      /\ (method q = "MKCOL" \/ method q = "PUT")
      /\ is_404 e = false.
Proof.
  exact (X6_only_a_failed_write_or_an_unreadable_file_aborts
           RefStore.t RefStore.requestUrl NodePath.dirname Demo.settingsSync
           Demo.fileA Demo.view (RefStore.fresh Demo.blocked) _ _ eq_refl).
Defined.

(* ================================================================== *)
(** ** What is cut from the matched prefix *)

Section RemainderFacts.

Lemma slice_append a b : JS.slice (a ++ b) (String.length a) = b.
Proof. induction a as [| x a IH]; simpl; auto. Qed.

Lemma map_append_inv f s :
  forall a b, JS.map f s = a ++ b ->
              exists s1 s2, s = s1 ++ s2 /\ JS.map f s1 = a /\ JS.map f s2 = b.
Proof.
  induction s as [| c s IH]; intros a b E; simpl in E.
  - destruct a; [| discriminate]. simpl in E. subst b. exists "", "". auto.
  - destruct a as [| x a]; simpl in E.
    + exists "", (String c s). subst b. auto.
    + inversion E as [[Ex Es]]. destruct (IH a b Es) as [s1 [s2 [E1 [E2 E3]]]].
      exists (String c s1), s2. subst. auto.
Qed.

End RemainderFacts.

(** X7. On the strings of the embedding, that is, for a path and a sync
    folder of code units below 256, where lower-casing keeps the length,
    the part of the path of a file inside the sync folder that is cut off
    is exactly the part the containment test matched: the path with its
    backslashes replaced splits into a folder that equals the normalised
    sync folder up to case and a rest, and the remote path is the remote
    folder joined with that rest.  (The test compares lower-cased strings
    and the cut counts the units of the folder as configured; where
    lower-casing changes the length, as for U+0130, the two can differ,
    and the statement says nothing of such paths.) *)
Theorem X7_sync_branch_cuts_exactly_the_matched_folder :
  forall (s : WebDAVUploaderSettings) (p : string),
    insideSyncFolder s p = true ->
    exists folder rest,
      JS.replace_backslashes p = folder ++ rest
      /\ JS.toLowerCase folder = normalizedLocalSync s
      /\ syncRemotePath s p =
         ensureLeadingSlash
           (NodePath.join (JS.strip_trailing_slash (remoteSyncFolder s))
                          (JS.strip_leading_sep rest)).
Proof.
  intros s p H. unfold insideSyncFolder in H.
  apply startsWith_spec in H. destruct H as [rest' E].
  unfold JS.toLowerCase in E at 1.
  destruct (map_append_inv _ _ _ _ E) as [folder [rest [E1 [E2 E3]]]].
  exists folder, rest. split; [exact E1 |]. split; [exact E2 |].
  unfold syncRemotePath. rewrite E1.
  assert (L : String.length (JS.strip_trailing_seps (localSyncFolder s)) = String.length folder).
  { rewrite <- (map_length JS.lower_char folder), E2.
    unfold normalizedLocalSync, JS.toLowerCase, JS.replace_backslashes.
    rewrite !map_length. reflexivity. }
  rewrite L, slice_append. reflexivity.
Qed.

Lemma X7_witness_sync_folder :
  exists folder rest,
    JS.replace_backslashes "C:\Users\Me\Sync\x\a.png" = folder ++ rest
    /\ JS.toLowerCase folder = normalizedLocalSync Demo.settingsSync
    /\ syncRemotePath Demo.settingsSync "C:\Users\Me\Sync\x\a.png" =
       ensureLeadingSlash
         (NodePath.join (JS.strip_trailing_slash (remoteSyncFolder Demo.settingsSync))
                        (JS.strip_leading_sep rest)).
Proof.
  exact (X7_sync_branch_cuts_exactly_the_matched_folder Demo.settingsSync
           "C:\Users\Me\Sync\x\a.png" eq_refl).
Defined.

(** X8. In note mode, when a mapping is selected, the folder of the note
    is the local path of the mapping followed by a rest, and the remote
    folder is the remote path of the mapping without one trailing slash,
    a slash, and that rest without one leading separator and with
    forward slashes. *)
Theorem X8_note_branch_appends_what_follows_the_mapping :
  forall (path_dirname : string -> string) (s : WebDAVUploaderSettings)
         (activeFile : TFile) (filePath : string) (m : PathMapping),
    selectBest (matchesNote (noteParentPath_of activeFile)) (pathMappings s) = Some m ->
    exists rest,
      noteParentPath_of activeFile = localPath m ++ rest
      /\ remoteFolder_of path_dirname (withPathMode note s) activeFile filePath =
         JS.strip_trailing_slash (remotePath m) ++ "/" ++
         JS.replace_seps (JS.strip_leading_sep rest).
Proof.
  intros path_dirname s activeFile filePath m E.
  pose proof (selectBest_selectsLongest (matchesNote (noteParentPath_of activeFile))
                                        (pathMappings s)) as H.
  unfold selectsLongest in H. rewrite E in H.
  destruct H as [before [after [_ [T _]]]].
  apply startsWith_spec in T. destruct T as [rest R].
  exists rest. split; [exact R |].
  unfold remoteFolder_of. simpl. rewrite E. rewrite R at 1.
  rewrite slice_append. reflexivity.
Qed.

Lemma X8_witness_nested_mappings :
  exists rest,
    noteParentPath_of Drops.deepNote = "notes/sub" ++ rest
    /\ remoteFolder_of NodePath.dirname (withPathMode note Drops.settingsMapped)
         Drops.deepNote "" =
       JS.strip_trailing_slash "/long/" ++ "/" ++ JS.replace_seps (JS.strip_leading_sep rest).
Proof.
  exact (X8_note_branch_appends_what_follows_the_mapping NodePath.dirname
           Drops.settingsMapped Drops.deepNote ""
           {| localPath := "notes/sub"; remotePath := "/long/" |} eq_refl).
Defined.

(* ================================================================== *)
(** ** The inserted link *)

Section LinkFacts.

Lemma every_impl (f g : ascii -> bool) s :
  (forall c, f c = true -> g c = true) -> every f s = true -> every g s = true.
Proof.
  intros H. induction s as [| c s IH]; simpl; [auto |].
  rewrite !andb_true_iff. intros [H1 H2]. auto.
Qed.

Lemma percent_utf8_escaped c : every escaped (JS.percent_utf8 c) = true.
Proof. destruct c as [[] [] [] [] [] [] [] []]; vm_compute; reflexivity. Qed.

Lemma escaped_notSlash c : escaped c = true -> notSlash c = true.
Proof. destruct c as [[] [] [] [] [] [] [] []]; vm_compute; auto. Qed.

Lemma encodeURIComponent_escaped s : every escaped (JS.encodeURIComponent s) = true.
Proof.
  unfold JS.encodeURIComponent. induction s as [| c s IH]; [reflexivity |].
  cbn [JS.encode]. rewrite every_append, IH, andb_true_r.
  destruct (JS.uri_unreserved c) eqn:U; [| apply percent_utf8_escaped].
  simpl. unfold escaped. rewrite U. reflexivity.
Qed.

Lemma split_slash_not_nil s : JS.split_slash s <> [].
Proof.
  induction s as [| c s IH]; simpl; [discriminate |].
  destruct (JS.is_slash c); [discriminate |].
  destruct (JS.split_slash s); [congruence | discriminate].
Qed.

Lemma split_slash_segment x r :
  every notSlash x = true ->
  JS.split_slash (x ++ String "/"%char r) = x :: JS.split_slash r.
Proof.
  induction x as [| c x IH]; [reflexivity |].
  cbn [every append JS.split_slash]. rewrite andb_true_iff. intros [H1 H2].
  unfold notSlash in H1. apply negb_true_iff in H1. rewrite H1, (IH H2). reflexivity.
Qed.

Lemma split_slash_single x : every notSlash x = true -> JS.split_slash x = [x].
Proof.
  induction x as [| c x IH]; [reflexivity |].
  cbn [every JS.split_slash]. rewrite andb_true_iff. intros [H1 H2].
  unfold notSlash in H1. apply negb_true_iff in H1. rewrite H1, (IH H2). reflexivity.
Qed.

(** Splitting undoes joining when no segment has a slash. *)
Lemma split_join_slash segs :
  segs <> [] -> Forall (fun seg => every notSlash seg = true) segs ->
  JS.split_slash (JS.join_slash segs) = segs.
Proof.
  unfold JS.join_slash. intros N F. induction F as [| seg segs H F IH]; [congruence |].
  cbn [String.concat]. destruct segs as [| seg' segs'].
  - apply split_slash_single, H.
  - change ("/" ++ String.concat "/" (seg' :: segs'))
      with (String "/"%char (String.concat "/" (seg' :: segs'))).
    rewrite (split_slash_segment _ _ H), IH; [reflexivity | discriminate].
Qed.

(** Joining undoes splitting. *)
Lemma join_split_slash s : JS.join_slash (JS.split_slash s) = s.
Proof.
  unfold JS.join_slash. induction s as [| c s IH]; [reflexivity |].
  cbn [JS.split_slash]. pose proof (split_slash_not_nil s) as N.
  destruct (JS.is_slash c) eqn:C.
  - cbn [String.concat]. destruct (JS.split_slash s) as [| seg segs]; [congruence |].
    rewrite IH. unfold JS.is_slash in C. apply Ascii.eqb_eq in C. subst c. reflexivity.
  - destruct (JS.split_slash s) as [| seg segs]; [congruence |].
    cbn [String.concat] in *. destruct segs; simpl; rewrite <- IH; reflexivity.
Qed.

Lemma decodeUnit_piece c r :
  decodeUnit ((if JS.uri_unreserved c then String c EmptyString else JS.percent_utf8 c) ++ r)
  = Some (c, r).
Proof. destruct c as [[] [] [] [] [] [] [] []]; reflexivity. Qed.

(** [encodeURIComponent] loses nothing. *)
Lemma encodeURIComponent_injective s1 :
  forall s2, JS.encodeURIComponent s1 = JS.encodeURIComponent s2 -> s1 = s2.
Proof.
  unfold JS.encodeURIComponent.
  induction s1 as [| c1 s1 IH]; intros [| c2 s2] E; cbn [JS.encode] in E.
  - reflexivity.
  - apply (f_equal decodeUnit) in E. rewrite decodeUnit_piece in E. discriminate.
  - apply (f_equal decodeUnit) in E. rewrite decodeUnit_piece in E. discriminate.
  - apply (f_equal decodeUnit) in E. rewrite !decodeUnit_piece in E.
    inversion E as [[Ec Es]]. f_equal. apply IH, Es.
Qed.

Lemma map_encodeURIComponent_injective l1 :
  forall l2, List.map JS.encodeURIComponent l1 = List.map JS.encodeURIComponent l2 -> l1 = l2.
Proof.
  induction l1 as [| a l1 IH]; intros [| b l2] E; simpl in E; try discriminate; auto.
  inversion E as [[Ea El]]. f_equal; [apply encodeURIComponent_injective, Ea | apply IH, El].
Qed.

Lemma append_cancel_l (a x y : string) : a ++ x = a ++ y -> x = y.
Proof. induction a as [| c a IH]; simpl; [auto |]. intros E. inversion E. auto. Qed.

Lemma append_cancel_r (a : string) x :
  forall y, x ++ a = y ++ a -> x = y.
Proof.
  induction x as [| c x IH]; intros y E.
  - destruct y as [| d y]; [reflexivity |].
    apply (f_equal String.length) in E. simpl in E. rewrite append_length in E. lia.
  - destruct y as [| d y].
    + apply (f_equal String.length) in E. simpl in E. rewrite append_length in E. lia.
    + simpl in E. inversion E. f_equal. auto.
Qed.

Lemma encodedPath_segments remoteFilePath :
  JS.split_slash (encodedPath remoteFilePath)
  = List.map JS.encodeURIComponent (JS.split_slash (ensureLeadingSlash remoteFilePath)).
Proof.
  unfold encodedPath. apply split_join_slash.
  - intros E. apply map_eq_nil in E. exact (split_slash_not_nil _ E).
  - apply Forall_forall. intros seg Hin. apply in_map_iff in Hin.
    destruct Hin as [x [<- _]].
    apply (every_impl escaped); [apply escaped_notSlash | apply encodeURIComponent_escaped].
Qed.

End LinkFacts.

Lemma every_join_slash f segs :
  f "/"%char = true -> Forall (fun seg => every f seg = true) segs ->
  every f (JS.join_slash segs) = true.
Proof.
  unfold JS.join_slash. intros Hf F. induction F as [| seg segs H F IH]; [reflexivity |].
  cbn [String.concat]. destruct segs; [exact H |].
  rewrite !every_append, H, IH. simpl. rewrite Hf. reflexivity.
Qed.

Lemma remoteLinkText_url settings file remoteFilePath :
  remoteLinkText settings file remoteFilePath
  = "[" ++ file_name file ++ "](" ++ remoteLinkUrl settings remoteFilePath ++ ")".
Proof. reflexivity. Qed.

(** X9. The path part of the remote link has the segments of the remote
    path, each one encoded by [encodeURIComponent]: the slashes stay,
    every other code unit is unreserved or part of an escape, and the
    link is the name in brackets followed by the endpoint and that path
    in parentheses. *)
Theorem X9_link_path_keeps_the_segments_and_is_escaped :
  forall (remoteFilePath : string),
    JS.split_slash (encodedPath remoteFilePath)
    = List.map JS.encodeURIComponent (JS.split_slash (ensureLeadingSlash remoteFilePath))
    /\ every (fun c => escaped c || JS.is_slash c) (encodedPath remoteFilePath) = true
    /\ forall settings file,
        remoteLinkText settings file remoteFilePath
        = "[" ++ file_name file ++ "](" ++ endpoint settings
              ++ encodedPath remoteFilePath ++ ")".
Proof.
  intros remoteFilePath. split; [apply encodedPath_segments |]. split.
  - unfold encodedPath. apply every_join_slash; [reflexivity |].
    apply Forall_forall. intros seg Hin. apply in_map_iff in Hin.
    destruct Hin as [x [<- _]].
    apply (every_impl escaped); [| apply encodeURIComponent_escaped].
    intros c H. rewrite H. reflexivity.
  - intros settings file. rewrite remoteLinkText_url. unfold remoteLinkUrl.
    rewrite append_assoc. reflexivity.
Qed.

Lemma remoteLinkUrl_injective settings p1 p2 :
  remoteLinkUrl settings p1 = remoteLinkUrl settings p2 ->
  ensureLeadingSlash p1 = ensureLeadingSlash p2.
Proof.
  unfold remoteLinkUrl. intros E. apply append_cancel_l in E.
  apply (f_equal JS.split_slash) in E. rewrite !encodedPath_segments in E.
  apply map_encodeURIComponent_injective in E.
  apply (f_equal JS.join_slash) in E. rewrite !join_split_slash in E. exact E.
Qed.

(** X10. Two different remote paths never get the same link: the
    encoding of the path of the link can be read back. *)
Theorem X10_distinct_remote_paths_get_distinct_links :
  forall (settings : WebDAVUploaderSettings) (file : File) (p1 p2 : string),
    beginsWithSlash p1 -> beginsWithSlash p2 -> p1 <> p2 ->
    remoteLinkText settings file p1 <> remoteLinkText settings file p2.
Proof.
  intros settings file p1 p2 B1 B2 N E. apply N.
  rewrite !remoteLinkText_url in E.
  apply append_cancel_l, append_cancel_l, append_cancel_l, append_cancel_r in E.
  apply remoteLinkUrl_injective in E.
  unfold ensureLeadingSlash, beginsWithSlash in *. rewrite B1, B2 in E. exact E.
Qed.

Lemma X10_witness_space_and_escape :
  remoteLinkText Demo.settingsNote Demo.fileA "/docs/a b.png"
  <> remoteLinkText Demo.settingsNote Demo.fileA "/docs/a%20b.png".
Proof.
  apply (X10_distinct_remote_paths_get_distinct_links Demo.settingsNote Demo.fileA
           "/docs/a b.png" "/docs/a%20b.png" eq_refl eq_refl).
  discriminate.
Defined.

(* ================================================================== *)
(** ** The overlay and the inserted links *)





(* ================================================================== *)
(** ** The path simulator *)

Section SimulatorFacts.

Lemma collapseSlashes_head s :
  headIsSlash (Simulator.collapseSlashes s) = headIsSlash s.
Proof.
  induction s as [| c r IH]; [reflexivity |].
  cbn [Simulator.collapseSlashes].
  destruct (JS.is_slash c && headIsSlash r) eqn:E; [| reflexivity].
  apply andb_true_iff in E. destruct E as [E1 E2].
  rewrite IH, E2. simpl. rewrite E1. reflexivity.
Qed.

Lemma collapseSlashes_no_double s :
  hasDoubleSlash (Simulator.collapseSlashes s) = false.
Proof.
  induction s as [| c r IH]; [reflexivity |].
  cbn [Simulator.collapseSlashes].
  destruct (JS.is_slash c && headIsSlash r) eqn:E; [exact IH |].
  cbn [hasDoubleSlash]. rewrite collapseSlashes_head, E, IH. reflexivity.
Qed.

(** Putting a slash before a path that has none in front keeps it free of
    doubled slashes. *)
Lemma leading_slash_shape x :
  hasDoubleSlash x = false ->
  emptyOrAbsolute (if JS.truthy x && negb (JS.startsWith x "/") then "/" ++ x else x).
Proof.
  intros H. unfold emptyOrAbsolute, beginsWithSlash, noDoubleSlash.
  destruct x as [| c x]; [left; reflexivity |]. right.
  rewrite !startsWith_slash, includes_double_slash. cbn [JS.truthy andb].
  destruct (headIsSlash (String c x)) eqn:E; cbn [negb]; [auto |].
  change ("/" ++ String c x) with (String "/"%char (String c x)).
  set (y := String c x) in *. cbn [hasDoubleSlash headIsSlash].
  rewrite E, H. auto.
Qed.

End SimulatorFacts.

(** X12. The remote path the simulator computes is empty or starts with
    a slash and has no two slashes in a row, whatever the settings, the
    vault and the two inputs. *)
Theorem X12_simulated_path_is_absolute_without_double_slash :
  forall (settings : WebDAVUploaderSettings)
         (getAbstractFileByPath : string -> option TFile)
         (testPath selectedNotePath : string),
    emptyOrAbsolute
      (Simulator.sim_remotePath
         (Simulator.compute settings getAbstractFileByPath testPath selectedNotePath)).
Proof.
  intros. unfold Simulator.compute. cbn [Simulator.sim_remotePath].
  apply leading_slash_shape.
  destruct (pathMode settings).
  - unfold Simulator.simNote.
    destruct (if JS.truthy selectedNotePath then _ else _) as [mock |]; [| reflexivity].
    destruct (fold_left _ _ _); apply collapseSlashes_no_double.
  - unfold Simulator.simLocal.
    destruct (_ || _); [reflexivity |].
    destruct (JS.startsWith _ _); [| reflexivity].
    cbn [Simulator.sim_remotePath].
    rewrite ensureLeadingSlash_double. apply collapseSlashes_no_double.
Qed.

(** X13. The simulator never writes to the store and never shows a
    failure of the check: it sends one probe of the path it computed when
    the input is not blank, the result is not a local link and the path
    is not empty, and shows the answer of the probe and, as the upload
    it expects, that the file is missing or the preference for existing
    files is off; otherwise it sends nothing. *)
Theorem X13_simulator_only_probes :
  forall (World : Type)
         (requestUrl : RequestParams -> World -> World * (Response + JsError))
         (settings : WebDAVUploaderSettings)
         (getAbstractFileByPath : string -> option TFile)
         (pathInput noteInput : string) (c : Client World),
    let run := Simulator.simulate World requestUrl settings getAbstractFileByPath
                                  pathInput noteInput c in
    let r := Simulator.compute settings getAbstractFileByPath
                               (Simulator.trim pathInput) noteInput in
    let p := Simulator.sim_remotePath r in
    let q := probeParams settings p in
    if JS.truthy (Simulator.trim pathInput) && negb (Simulator.sim_isLocalLink r)
       && JS.truthy p
    then
      run = (afterRequest c q (fst (requestUrl q (store c))) (snd (requestUrl q (store c))),
             inl (Simulator.RemotePathExpected
                    (Simulator.sim_method r) (Simulator.trim pathInput) noteInput
                    p (endpoint settings ++ p)
                    (probeAnswer (snd (requestUrl q (store c))))
                    (negb (probeAnswer (snd (requestUrl q (store c))))
                     || negb (preferExistingLink settings))))
    else
      exists shown,
        run = (c, inl shown)
        /\ (shown = Simulator.AsksForPath
            \/ shown = Simulator.LocalLinkExpected (Simulator.sim_method r)
                                                   (Simulator.trim pathInput)
            \/ shown = Simulator.NoRemotePath (Simulator.sim_method r)
                                              (Simulator.trim pathInput)).
Proof.
  intros World requestUrl settings getAbstractFileByPath pathInput noteInput c run r p q.
  subst run. unfold Simulator.simulate. fold r. fold p.
  destruct (JS.truthy (Simulator.trim pathInput)); cbn [negb andb].
  2: { eexists. split; [reflexivity | auto]. }
  unfold tryCatch.
  destruct (Simulator.sim_isLocalLink r); cbn [negb andb].
  { eexists. split; [reflexivity | auto]. }
  destruct (JS.truthy p).
  2: { eexists. split; [reflexivity | auto]. }
  unfold bind. rewrite webdavExists_eq. fold q.
  destruct (requestUrl q (store c)) as [w r0]. reflexivity.
Qed.

(** X14. In local mode without both sync folders, the simulator
    announces a local link and sends nothing, while the drop handler, for
    the same file, resolves to an upload to the path
    [calculateRemotePath] gives. *)
Theorem X14_simulator_and_handler_differ_without_sync_folder :
  forall (World : Type)
         (requestUrl : RequestParams -> World -> World * (Response + JsError))
         (path_dirname : string -> string) (s : WebDAVUploaderSettings)
         (getAbstractFileByPath : string -> option TFile)
         (file : File) (p noteInput : string) (activeFile : TFile) (c : Client World),
    pathMode s = local ->
    JS.truthy (localSyncFolder s) && JS.truthy (remoteSyncFolder s) = false ->
    file_path file = Some p ->
    JS.truthy (Simulator.trim p) = true ->
    Simulator.simulate World requestUrl s getAbstractFileByPath p noteInput c
      = (c, inl (Simulator.LocalLinkExpected Simulator.SyncFolderNotConfigured
                                             (Simulator.trim p)))
    /\ resolve World requestUrl path_dirname s file activeFile c
       = (c, inl {| remoteFilePath := calculateRemotePath path_dirname s file activeFile p;
                    shouldUpload := true; isLocalLink := false |}).
Proof.
  intros World requestUrl path_dirname s getAbstractFileByPath file p noteInput activeFile c
         Hmode Hsync Hp Ht.
  split.
  - unfold Simulator.simulate. rewrite Ht. cbn [negb]. unfold tryCatch.
    unfold Simulator.compute. rewrite Hmode. unfold Simulator.simLocal.
    apply andb_false_iff in Hsync.
    assert (N : negb (JS.truthy (localSyncFolder s)) || negb (JS.truthy (remoteSyncFolder s))
                = true).
    { destruct Hsync as [H | H]; rewrite H; simpl; auto using orb_true_r. }
    rewrite N. reflexivity.
  - unfold resolve, filePath_of. rewrite Hmode, Hp, Hsync. reflexivity.
Qed.

Lemma X14_witness_mappings_only :
  Simulator.simulate RefStore.t RefStore.requestUrl SimCases.settingsLocalNoSync
    SimCases.vault "C:\Users\Me\Sync\x\a.png" "notes/today.md" (RefStore.fresh RefStore.empty)
  = (RefStore.fresh RefStore.empty,
     inl (Simulator.LocalLinkExpected Simulator.SyncFolderNotConfigured
            (Simulator.trim "C:\Users\Me\Sync\x\a.png")))
  /\ resolve RefStore.t RefStore.requestUrl NodePath.dirname SimCases.settingsLocalNoSync
       Demo.fileA Demo.activeNote (RefStore.fresh RefStore.empty)
     = (RefStore.fresh RefStore.empty,
        inl {| remoteFilePath :=
                 calculateRemotePath NodePath.dirname SimCases.settingsLocalNoSync
                   Demo.fileA Demo.activeNote "C:\Users\Me\Sync\x\a.png";
               shouldUpload := true; isLocalLink := false |}).
Proof.
  exact (X14_simulator_and_handler_differ_without_sync_folder
           RefStore.t RefStore.requestUrl NodePath.dirname SimCases.settingsLocalNoSync
           SimCases.vault Demo.fileA "C:\Users\Me\Sync\x\a.png" "notes/today.md"
           Demo.activeNote (RefStore.fresh RefStore.empty)
           eq_refl eq_refl eq_refl eq_refl).
Defined.

Section AgreementFacts.

Lemma last_map f s : JS.last (JS.map f s) = option_map f (JS.last s).
Proof.
  induction s as [| c s IH]; [reflexivity |].
  cbn [JS.map JS.last]. destruct s as [| d s]; [reflexivity | exact IH].
Qed.

(** A folder that [strip_trailing_seps] leaves alone does not end with a
    separator. *)
Lemma strip_trailing_seps_fixed s :
  JS.strip_trailing_seps s = s ->
  match JS.last s with Some c => JS.is_sep c = false | None => True end.
Proof.
  induction s as [| c s IH]; [exact (fun _ => I) |].
  cbn [JS.strip_trailing_seps JS.last].
  destruct (JS.strip_trailing_seps s) as [| d s'] eqn:E.
  - destruct (JS.is_sep c) eqn:S; [discriminate |].
    intros H. inversion H; subst. exact S.
  - intros H. inversion H as [Hs]. subst s. exact (IH eq_refl).
Qed.

Lemma replaced_folder_keeps_its_end s :
  JS.strip_trailing_seps s = s ->
  JS.strip_trailing_slash (JS.replace_backslashes s) = JS.replace_backslashes s.
Proof.
  intros H. apply strip_trailing_seps_fixed in H.
  unfold JS.strip_trailing_slash, JS.endsWith_slash, JS.replace_backslashes.
  rewrite last_map. destruct (JS.last s) as [c |]; [| reflexivity].
  cbn [option_map]. unfold JS.is_sep in H. apply orb_false_iff in H. destruct H as [H1 H2].
  rewrite H2, H1. reflexivity.
Qed.

End AgreementFacts.

(** X15. In local mode with both sync folders set and no separator at
    the end of the local one, the simulator and the drop handler agree on
    whether a file gets a local link: exactly when it is outside the sync
    folder; and the resolution of the handler does not throw. *)
Theorem X15_simulator_and_handler_agree_on_the_local_link :
  forall (World : Type)
         (requestUrl : RequestParams -> World -> World * (Response + JsError))
         (path_dirname : string -> string) (s : WebDAVUploaderSettings)
         (getAbstractFileByPath : string -> option TFile)
         (file : File) (p noteInput : string) (activeFile : TFile) (c : Client World),
    pathMode s = local ->
    JS.truthy (localSyncFolder s) = true ->
    JS.truthy (remoteSyncFolder s) = true ->
    JS.strip_trailing_seps (localSyncFolder s) = localSyncFolder s ->
    file_path file = Some p ->
    JS.truthy p = true ->
    match snd (resolve World requestUrl path_dirname s file activeFile c) with
    | inl res =>
        isLocalLink res = negb (insideSyncFolder s p)
        /\ Simulator.sim_isLocalLink (Simulator.compute s getAbstractFileByPath p noteInput)
           = isLocalLink res
    | inr _ => False
    end.
Proof.
  intros World requestUrl path_dirname s getAbstractFileByPath file p noteInput activeFile c
         Hmode Hl Hr Hfix Hp Ht.
  assert (Sim : Simulator.sim_isLocalLink
                  (Simulator.compute s getAbstractFileByPath p noteInput)
                = negb (insideSyncFolder s p)).
  { unfold Simulator.compute. cbn [Simulator.sim_isLocalLink].
    rewrite Hmode. unfold Simulator.simLocal. rewrite Hl, Hr. cbn [negb orb].
    rewrite (replaced_folder_keeps_its_end _ Hfix).
    unfold insideSyncFolder, normalizedLocalSync. rewrite Hfix.
    destruct (JS.startsWith _ _); reflexivity. }
  rewrite Sim. unfold resolve, filePath_of. rewrite Hmode, Hl, Hr, Hp, Ht. cbn [andb].
  destruct (insideSyncFolder s p); [| split; reflexivity].
  destruct (preferExistingLink s); [| split; reflexivity].
  unfold bind. rewrite webdavExists_eq.
  destruct (requestUrl _ (store c)) as [w r].
  destruct (probeAnswer r); split; reflexivity.
Qed.

Lemma X15_witness_other_drive :
  isLocalLink {| remoteFilePath := ""; shouldUpload := false; isLocalLink := true |}
  = negb (insideSyncFolder Demo.settingsSync "D:\other\c.png")
  /\ Simulator.sim_isLocalLink
       (Simulator.compute Demo.settingsSync SimCases.vault "D:\other\c.png" "")
     = isLocalLink {| remoteFilePath := ""; shouldUpload := false; isLocalLink := true |}.
Proof.
  exact (X15_simulator_and_handler_agree_on_the_local_link
           RefStore.t RefStore.requestUrl NodePath.dirname Demo.settingsSync
           SimCases.vault Demo.fileOutside "D:\other\c.png" "" Demo.activeNote
           (RefStore.fresh RefStore.empty)
           eq_refl eq_refl eq_refl eq_refl eq_refl eq_refl).
Defined.


(* ================================================================== *)
(** ** Dropping a file again *)

Section AgainFacts.

Variable World : Type.
Variable requestUrl : RequestParams -> World -> World * (Response + JsError).
Variable path_dirname : string -> string.
Variable settings : WebDAVUploaderSettings.
Hypothesis laws : PutLaws requestUrl settings.

(** When the upload step returns, the store answers the probe of the
    file. *)
Lemma upload_returns_present file remoteFilePath c c' :
  upload World requestUrl settings file remoteFilePath c = (c', inl tt) ->
  present requestUrl settings (store c') remoteFilePath = true.
Proof.
  unfold upload, bind.
  destruct (webdavExists World requestUrl settings _ c) as [c1 [b | e]]; [| discriminate].
  destruct (when World (negb b) _ c1) as [c2 [[] | e]]; [| discriminate].
  unfold readArrayBuffer. destruct (arrayBuffer file) as [data | e]; [| discriminate].
  simpl. rewrite webdavPut_eq. simpl.
  pose proof (put_failure_is_not_404 _ _ _ laws remoteFilePath data (store c2)) as N.
  pose proof (put_creates _ _ _ laws remoteFilePath data (store c2)) as P.
  destruct (requestUrl (putParams settings remoteFilePath data) (store c2)) as [w [resp | e]];
    simpl in *.
  - intros H. inversion H; subst. simpl. apply (P resp). reflexivity.
  - rewrite (N e eq_refl). discriminate.
Qed.

End AgainFacts.

(** The reference store keeps what is put, for settings whose endpoint
    is its base. *)
Lemma RefStore_put_laws settings :
  JS.strip_trailing_slash (webdavUrl settings) = RefStore.base ->
  PutLaws RefStore.requestUrl settings.
Proof.
  intros B. constructor.
  - intros path w. unfold probeParams, requestParams, RefStore.requestUrl.
    simpl. rewrite B. simpl. destruct (RefStore.present w path); reflexivity.
  - intros path data w e. unfold putParams, requestParams, RefStore.requestUrl.
    simpl. rewrite B. simpl.
    destruct (RefStore.isCollection w path); [intros E; inversion E; reflexivity |].
    destruct (RefStore.isCollection w (NodePath.dirname path));
      [discriminate | intros E; inversion E; reflexivity].
  - intros path data w resp.
    unfold present, probeParams, putParams, requestParams, RefStore.requestUrl.
    simpl. rewrite B. simpl.
    destruct (RefStore.isCollection w path) eqn:C; [discriminate |].
    destruct (RefStore.isCollection w (NodePath.dirname path)); [| discriminate].
    intros _. simpl.
    assert (P : RefStore.present
                  {| RefStore.collections := RefStore.collections w;
                     RefStore.resources :=
                       filter (fun r => negb (String.eqb path (fst r))) (RefStore.resources w)
                       ++ [(path, data)] |} path = true).
    { unfold RefStore.present, RefStore.isResource. simpl.
      rewrite existsb_app. simpl. rewrite String.eqb_refl.
      rewrite !orb_true_r. reflexivity. }
    rewrite P. reflexivity.
Qed.

(** X17. On a store that keeps what is put, dropping a file of the sync
    folder again does not upload it again: after a drop that went through
    the [try] block without exception, with the preference for existing
    files on, the same drop sends the one probe, which is answered
    positively, leaves the store as it is and inserts the remote link. *)
Theorem X17_dropping_a_synced_file_again_does_not_upload_it :
  forall (World : Type)
         (requestUrl : RequestParams -> World -> World * (Response + JsError))
         (path_dirname : string -> string) (s : WebDAVUploaderSettings)
         (file : File) (p : string) (activeFile : TFile) (view : MarkdownView)
         (c c1 : Client World),
    PutLaws requestUrl s ->
    pathMode s = local ->
    JS.truthy (localSyncFolder s) = true ->
    JS.truthy (remoteSyncFolder s) = true ->
    file_path file = Some p ->
    JS.truthy p = true ->
    insideSyncFolder s p = true ->
    preferExistingLink s = true ->
    view_file view = Some activeFile ->
    uploadFileBody World requestUrl path_dirname s file view c = (c1, inl tt) ->
    let q := probeParams s (syncRemotePath s p) in
    let r := snd (requestUrl q (store c1)) in
    probeAnswer r = true
    /\ uploadFile World requestUrl path_dirname s file view c1 =
       (withInserted
          (withNotice (afterRequest c1 q (store c1) r) (AlreadyInCloud (file_name file)))
          (remoteLinkText s file (syncRemotePath s p) ++ newline),
        inl tt).
Proof.
  intros World requestUrl path_dirname s file p activeFile view c c1 laws
         Hmode Hl Hr Hp Hp' Hin Hpref Hview Hfirst q r.
  assert (T : JS.truthy (syncRemotePath s p) = true).
  { destruct (syncRemotePath_shape s p) as [H _].
    destruct (syncRemotePath s p); [discriminate | reflexivity]. }
  assert (P : probeAnswer r = true).
  { revert Hfirst. unfold uploadFileBody. rewrite Hview. unfold bind.
    rewrite (sync_branch_probes_remote_path World requestUrl path_dirname s file p activeFile c
               Hmode Hl Hr Hp Hp' Hin Hpref).
    fold q. pose proof (put_probe_reads_only _ _ _ laws (syncRemotePath s p) (store c)) as R.
    fold q in R.
    destruct (probeAnswer (snd (requestUrl q (store c)))) eqn:A.
    - unfold perform. cbn [isLocalLink shouldUpload remoteFilePath]. rewrite T.
      simpl. intros H. inversion H; subst c1. subst r. simpl. rewrite R. exact A.
    - unfold perform. cbn [isLocalLink shouldUpload remoteFilePath]. rewrite T.
      cbn [andb when bind]. unfold bind.
      destruct (upload World requestUrl s file (syncRemotePath s p) _) as [c2 [[] | e]] eqn:U;
        [| discriminate].
      simpl. intros H. inversion H; subst c1. subst r. simpl.
      exact (upload_returns_present World requestUrl s laws file _ _ _ U). }
  split; [exact P |].
  unfold uploadFile, tryCatch, uploadFileBody. rewrite Hview. unfold bind.
  rewrite (sync_branch_probes_remote_path World requestUrl path_dirname s file p activeFile c1
             Hmode Hl Hr Hp Hp' Hin Hpref).
  pose proof (put_probe_reads_only _ _ _ laws (syncRemotePath s p) (store c1)) as R1.
  fold q in R1. fold q. rewrite R1. fold r. rewrite P.
  unfold perform. cbn [isLocalLink shouldUpload remoteFilePath].
  rewrite T. reflexivity.
Qed.

(** X17 on [a.png] dropped on the empty store and dropped again: one
    probe, no folder is made and nothing is put the second time. *)
Lemma X17_witness_second_drop :
  let c1 := Drops.afterFirstDrop in
  let q := probeParams Demo.settingsSync "/remote/x/a.png" in
  let r := snd (RefStore.requestUrl q (store c1)) in
  probeAnswer r = true
  /\ uploadFile RefStore.t RefStore.requestUrl NodePath.dirname Demo.settingsSync
       Demo.fileA Demo.view c1 =
     (withInserted
        (withNotice (afterRequest c1 q (store c1) r) (AlreadyInCloud "a.png"))
        ("[a.png](https://dav.example.com/remote/x/a.png)" ++ newline),
      inl tt).
Proof.
  refine (X17_dropping_a_synced_file_again_does_not_upload_it
            RefStore.t RefStore.requestUrl NodePath.dirname Demo.settingsSync
            Demo.fileA "C:\Users\Me\Sync\x\a.png" Demo.activeNote Demo.view
            (RefStore.fresh RefStore.empty) Drops.afterFirstDrop
            (RefStore_put_laws Demo.settingsSync eq_refl)
            eq_refl eq_refl eq_refl eq_refl eq_refl eq_refl eq_refl eq_refl _).
  vm_compute. reflexivity.
Defined.
